(** * DIDComm Messaging, Askar backend: a shallow embedding

    The development follows [didcomm_messaging/askar/__init__.py]:
    the key wrappers ([AskarKey], [AskarSecretKey]), the resolution of DID
    Document verification methods into keys, the two envelope protocols
    (ECDH-ES and ECDH-1PU, encryption and decryption) and the store-backed
    key lookup.

    Python [str] is embedded as [string] (its UTF-8 text), [bytes] as
    [list byte], a [dict] with string keys as [gmap string _], and a
    [Mapping] that is iterated (the recipients) as an association list in
    iteration order.  Exceptions are values of [exn]; code that only
    computes returns [Result], code that calls into the cryptographic
    library runs in the monad [M], which threads the library's entropy and
    records every call in a trace. *)

From Stdlib Require Import Strings.String Strings.Ascii Strings.Byte.
From stdpp Require Import base option list strings sorting countable gmap.

#[local] Set Warnings "-register-all".

Open Scope string_scope.

Abbreviation bytes := (list byte).

Global Instance byte_eq_decision : EqDecision byte := Byte.byte_eq_dec.

(** ** JSON values carried by headers *)

Inductive JVal :=
| JNull
| JBool (b : bool)
| JNum (z : Z)
| JStr (s : string)
| JArr (l : list JVal)
| JObj (o : list (string * JVal)).

(** Python truthiness of a decoded JSON value. *)
Definition truthy (v : JVal) : bool :=
  match v with
  | JNull => false
  | JBool b => b
  | JNum z => negb (Z.eqb z 0)
  | JStr s => negb (String.eqb s "")
  | JArr l => match l with [] => false | _ => true end
  | JObj o => match o with [] => false | _ => true end
  end.

(** [if x] for an [Optional] value: [None] is falsy. *)
Definition truthy_opt (v : option JVal) : bool :=
  match v with Some v => truthy v | None => false end.

Definition str_truthy (s : option string) : bool :=
  match s with Some s => negb (String.eqb s "") | None => false end.

(** [v == s] for a string [s]. *)
Definition is_str (v : option JVal) (s : string) : bool :=
  match v with
  | Some (JStr s') => String.eqb s' s
  | _ => false
  end.

(** [v in (s1, ..., sn)] for a tuple of string literals. *)
Definition in_strs (v : JVal) (l : list string) : option string :=
  match v with
  | JStr s => if bool_decide (s ∈ l) then Some s else None
  | _ => None
  end.

(** JSON values are trees over booleans, numbers and strings, and so can
    be compared and enumerated. *)
Fixpoint jval_tree (v : JVal) : gen_tree (bool + Z + string) :=
  match v with
  | JNull => GenNode 0 []
  | JBool b => GenLeaf (inl (inl b))
  | JNum z => GenLeaf (inl (inr z))
  | JStr s => GenLeaf (inr s)
  | JArr l => GenNode 1 (map jval_tree l)
  | JObj o =>
      GenNode 2 (map (λ kv, GenNode 3 [GenLeaf (inr kv.1); jval_tree kv.2]) o)
  end.

Fixpoint tree_jval (t : gen_tree (bool + Z + string)) : JVal :=
  match t with
  | GenLeaf (inl (inl b)) => JBool b
  | GenLeaf (inl (inr z)) => JNum z
  | GenLeaf (inr s) => JStr s
  | GenNode 1 ts => JArr (map tree_jval ts)
  | GenNode 2 ts =>
      JObj (map (λ t, match t with
                      | GenNode 3 [GenLeaf (inr k); tv] => (k, tree_jval tv)
                      | _ => ("", JNull)
                      end) ts)
  | GenNode _ _ => JNull
  end.

Fixpoint tree_jval_tree (v : JVal) : tree_jval (jval_tree v) = v.
Proof.
  destruct v as [| | | |l|o]; simpl; try reflexivity.
  - f_equal. induction l as [|x l IH]; simpl; [reflexivity|].
    f_equal; [apply tree_jval_tree|exact IH].
  - f_equal. induction o as [|[k x] o IH]; simpl; [reflexivity|].
    f_equal; [f_equal; apply tree_jval_tree|exact IH].
Qed.

Global Instance JVal_eq_dec : EqDecision JVal.
Proof.
  intros x y. destruct (decide (jval_tree x = jval_tree y)) as [Heq|Hne].
  - left. by rewrite <-(tree_jval_tree x), <-(tree_jval_tree y), Heq.
  - right. by intros ->.
Defined.

Global Instance JVal_countable : Countable JVal :=
  inj_countable' jval_tree tree_jval tree_jval_tree.

Global Instance byte_countable : Countable byte :=
  inj_countable Byte.to_N Byte.of_N Byte.of_to_N.

(** ** Algorithms and keys of the cryptographic library *)

(** The members of [aries_askar.KeyAlg] the module names. *)
Inductive KeyAlg := ED25519 | X25519 | K256 | XC20P | A256KW | A256CBC_HS512.

Global Instance KeyAlg_eq_dec : EqDecision KeyAlg.
Proof. solve_decision. Defined.

(** The JOSE name under which the library knows an algorithm. *)
Definition alg_name (a : KeyAlg) : string :=
  match a with
  | ED25519 => "Ed25519"
  | X25519 => "X25519"
  | K256 => "secp256k1"
  | XC20P => "XC20P"
  | A256KW => "A256KW"
  | A256CBC_HS512 => "A256CBC-HS512"
  end.

(** The library takes an algorithm either as an enum member or by name. *)
Inductive AlgArg := ByEnum (a : KeyAlg) | ByName (s : string).

(** A key handle: tagged with its algorithm, holding public material and,
    for a secret key, secret material as well. *)
Record Key := mkKey {
  algorithm : KeyAlg;
  get_public_bytes : bytes;
  get_secret_bytes : option bytes
}.

Definition public_of (k : Key) : Key :=
  mkKey (algorithm k) (get_public_bytes k) None.

(** [sk] is the secret key whose public half is [pk]. *)
Definition key_pair (pk sk : Key) : Prop :=
  public_of pk = public_of sk ∧ is_Some (get_secret_bytes sk).

(** The result of a wrap or of an AEAD encryption. *)
Record Encrypted := mkEncrypted {
  enc_ciphertext : bytes;
  enc_nonce : bytes;
  enc_tag : bytes
}.

(** ** Exceptions *)

(** [ValueError] and [CryptoServiceError] carry their message;
    [AskarError] is the library's own error; [MultiformatsError] and
    [JweError] stand for what the encoding helpers and the envelope module
    raise on malformed input. *)
Inductive exn :=
| ValueError (msg : string)
| CryptoServiceError (msg : string)
| AskarError
| MultiformatsError
| JweError.

Inductive exn_type := TValueError | TCryptoServiceError | TAskarError | TOther.

(** The class of the raised exception, which is what a caller's [except]
    clause sees. *)
Definition type_of (e : exn) : exn_type :=
  match e with
  | ValueError _ => TValueError
  | CryptoServiceError _ => TCryptoServiceError
  | AskarError => TAskarError
  | MultiformatsError | JweError => TOther
  end.

Definition Result (A : Type) : Type := exn + A.

Definition rbind {A B} (r : Result A) (f : A → Result B) : Result B :=
  match r with inl e => inl e | inr a => f a end.

(** ** The external collaborators *)

(** The cryptographic library ([aries_askar]).  A call that raises
    [AskarError] returns [None]. *)
Class Askar := {
  Entropy : Type;
  Key_generate : KeyAlg → bool → Entropy → option Key * Entropy;
  Key_from_public_bytes : KeyAlg → bytes → option Key;
  Key_from_jwk : JVal → option Key;
  get_jwk_public : Key → string;
  EcdhEs_sender_wrap_key :
    string → option JVal → option JVal →
    AlgArg → Key → Key → Key → option Encrypted;
  EcdhEs_receiver_unwrap_key :
    string → option JVal → option JVal →
    AlgArg → string → Key → Key → bytes → option Key;
  Ecdh1PU_sender_wrap_key :
    string → option JVal → option JVal →
    AlgArg → Key → Key → Key → Key → bytes → option Encrypted;
  Ecdh1PU_receiver_unwrap_key :
    string → option JVal → option JVal →
    AlgArg → string → Key → Key → Key → bytes → bytes → option Key;
  aead_encrypt : Key → bytes → bytes → Entropy → option Encrypted * Entropy;
  aead_decrypt : Key → bytes → bytes → bytes → bytes → option bytes
}.

(** The encoding helpers ([multibase], [multicodec]).  [multibase_decode] and
    [multicodec_unwrap] fail on malformed input. *)
Class Multiformats := {
  multibase_encode : bytes → string → string;
  multibase_decode : string → option bytes;
  multicodec_wrap : string → bytes → bytes;
  multicodec_unwrap : bytes → option (string * bytes)
}.

(** ** [AskarKey] and [AskarSecretKey] *)

(** Lookup in a table written as a list of pairs; [dict.get]. *)
Fixpoint table_get {K V} `{EqDecision K} (k : K) (t : list (K * V)) : option V :=
  match t with
  | [] => None
  | (k', v) :: t => if decide (k = k') then Some v else table_get k t
  end.

Definition codec_to_alg : list (string * KeyAlg) :=
  [ ("ed25519-pub", ED25519);
    ("x25519-pub", X25519);
    ("secp256k1-pub", K256) ].

(** [{v: k for k, v in codec_to_alg.items()}] *)
Definition alg_to_codec : list (KeyAlg * string) :=
  map (λ kv, (kv.2, kv.1)) codec_to_alg.

Definition type_to_alg : list (string * KeyAlg) :=
  [ ("Ed25519VerificationKey2018", ED25519);
    ("X25519KeyAgreementKey2019", X25519);
    ("Ed25519VerificationKey2020", ED25519);
    ("X25519KeyAgreementKey2020", X25519);
    ("EcdsaSecp256k1VerificationKey2019", K256) ].

Record AskarKey := mkAskarKey {
  key : Key;
  kid : string;
  multikey : string
}.

Record AskarSecretKey := mkAskarSecretKey {
  secret_key : Key;
  secret_kid : string
}.

Section keys.
Context `{Askar} `{Multiformats}.

(** [AskarKey.__init__] *)
Definition AskarKey_init (key : Key) (kid : string) : Result AskarKey :=
  match table_get (algorithm key) alg_to_codec with
  | None => inl (ValueError "Unsupported key type")
  | Some codec =>
      inr (mkAskarKey key kid
             (multibase_encode
                (multicodec_wrap codec (get_public_bytes key)) "base58btc"))
  end.

(** [AskarKey._multikey_to_key] *)
Definition _multikey_to_key (multikey : string) : Result Key :=
  match multibase_decode multikey with
  | None => inl MultiformatsError
  | Some decoded =>
      match multicodec_unwrap decoded with
      | None => inl MultiformatsError
      | Some (codec, key) =>
          match table_get codec codec_to_alg with
          | None => inl (ValueError "Unsupported key type: {codec.name}")
          | Some alg =>
              match Key_from_public_bytes alg key with
              | None => inl (ValueError "Invalid key")
              | Some k => inr k
              end
          end
      end
  end.

(** [AskarKey._expected_alg_and_material_to_key] *)
Definition _expected_alg_and_material_to_key
    (alg : KeyAlg) (public_key_multibase public_key_base58 : option string)
    : Result Key :=
  if str_truthy public_key_multibase && str_truthy public_key_base58 then
    inl (ValueError
           "Only one of public_key_multibase or public_key_base58 must be given")
  else if negb (str_truthy public_key_multibase)
          && negb (str_truthy public_key_base58) then
    inl (ValueError
           "One of public_key_multibase or public_key_base58 must be given)")
  else if str_truthy public_key_multibase then
    let public_key_multibase := default "" public_key_multibase in
    match multibase_decode public_key_multibase with
    | None => inl MultiformatsError
    | Some decoded =>
        if bool_decide (length decoded = 32%nat) then
          (* No multicodec prefix *)
          match Key_from_public_bytes alg decoded with
          | None => inl (ValueError "Invalid key")
          | Some key => inr key
          end
        else
          rbind (_multikey_to_key public_key_multibase) (λ key,
            if bool_decide (algorithm key ≠ alg) then
              inl (ValueError "Type and algorithm mismatch")
            else inr key)
    end
  else if str_truthy public_key_base58 then
    let public_key_base58 := default "" public_key_base58 in
    match multibase_decode ("z" ++ public_key_base58) with
    | None => inl MultiformatsError
    | Some decoded =>
        match Key_from_public_bytes alg decoded with
        | None => inl AskarError
        | Some key => inr key
        end
    end
  else inl (ValueError "Failed to parse key").

(** [AskarKey.from_verification_method]; the record is a [dict] whose
    values are strings. *)
Definition from_verification_method (vm : gmap string string)
    : Result AskarKey :=
  let vm_type := vm !! "type" in
  let ident := vm !! "id" in
  let controller := vm !! "controller" in
  if negb (str_truthy vm_type) then
    inl (ValueError "Verification method missing type")
  else if negb (str_truthy ident) then
    inl (ValueError "Verification method missing id")
  else if negb (str_truthy controller) then
    inl (ValueError "Verification method missing controller")
  else
    let vm_type := default "" vm_type in
    let ident := default "" ident in
    let controller := default "" controller in
    let kid :=
      if String.prefix "#" ident then controller ++ "#" ++ ident else ident in
    if String.eqb vm_type "Multikey" then
      let multikey := vm !! "publicKeyMultiBase" in
      if negb (str_truthy multikey) then
        inl (ValueError "Multikey verification method missing key")
      else
        rbind (_multikey_to_key (default "" multikey)) (λ key,
          AskarKey_init key kid)
    else
      match table_get vm_type type_to_alg with
      | None => inl (ValueError "Unsupported verification method type: {vm_type}")
      | Some alg =>
          let base58 := vm !! "publicKeyBase58" in
          let multi := vm !! "publicKeyMultiBase" in
          rbind (_expected_alg_and_material_to_key alg multi base58) (λ key,
            AskarKey_init key kid)
      end.

End keys.

(** ** The JWE envelope *)

Abbreviation dict := (gmap string JVal).

Record JweRecipient := mkJweRecipient {
  encrypted_key : bytes;
  header : dict
}.

Record JweEnvelope := mkJweEnvelope {
  protected : dict;
  protected_b64 : bytes;
  unprotected : dict;
  recipients : list JweRecipient;
  iv : bytes;
  ciphertext : bytes;
  tag : bytes
}.

Record JweBuilder := mkJweBuilder {
  b_protected : option dict;
  b_recipients : list JweRecipient;
  b_payload : option Encrypted
}.

Global Instance JweRecipient_eq_dec : EqDecision JweRecipient.
Proof. solve_decision. Defined.

Global Instance JweRecipient_countable : Countable JweRecipient :=
  inj_countable' (λ r, (encrypted_key r, header r))
    (λ p, mkJweRecipient p.1 p.2) (λ r, match r with mkJweRecipient _ _ => eq_refl end).

Global Instance JweEnvelope_eq_dec : EqDecision JweEnvelope.
Proof. solve_decision. Defined.

Global Instance JweEnvelope_countable : Countable JweEnvelope :=
  inj_countable'
    (λ e, (protected e, protected_b64 e, unprotected e, recipients e, iv e,
           ciphertext e, tag e))
    (λ '(p, b, u, r, i, c, t), mkJweEnvelope p b u r i c t)
    (λ e, match e with mkJweEnvelope _ _ _ _ _ _ _ => eq_refl end).

(** The text encodings of the envelope module: base64url, JSON of a header,
    and the JSON wire form of an envelope.  [from_json] fails on text that is
    not an envelope. *)
Class Wire := {
  b64url : string → string;
  json_dumps : dict → string;
  json_loads : string → JVal;
  to_json : JweEnvelope → string;
  from_json : string → option JweEnvelope;
  py_repr : JVal → string
}.

(** [str.encode("utf-8")] and [bytes.decode("utf-8")] on UTF-8 text. *)
Definition encode_utf8 (s : string) : bytes := list_byte_of_string s.
Definition decode_utf8 (b : bytes) : string := string_of_list_byte b.

(** The text an f-string gives for [{v}]. *)
Definition py_str `{Wire} (v : option JVal) : string :=
  match v with
  | None => "None"
  | Some (JStr s) => s
  | Some v => py_repr v
  end.

(** [s[n:]] *)
Definition str_from (n : nat) (s : string) : string :=
  String.substring n (String.length s - n) s.

(** Modelled from the spec: [JweBuilder(with_flatten_recipients=False)] of
    the envelope module, which is not part of this file.  The builder starts
    without protected header, recipients or payload (spec 4.3). *)
Definition JweBuilder_new : JweBuilder := mkJweBuilder None [] None.

(** Modelled from the spec: [JweBuilder.protected_bytes], the base64url
    encoding of the canonical JSON of the protected header (spec 4.3). *)
Definition protected_bytes `{Wire} (b : JweBuilder) : bytes :=
  encode_utf8 (b64url (json_dumps (default ∅ (b_protected b)))).

(** Modelled from the spec: [JweBuilder.build], which freezes the accumulated
    state and fails if the payload was never set or no recipient was added
    (spec 4.3). *)
Definition build `{Wire} (b : JweBuilder) : Result JweEnvelope :=
  match b_payload b, b_recipients b with
  | Some p, _ :: _ =>
      inr (mkJweEnvelope (default ∅ (b_protected b)) (protected_bytes b) ∅
             (b_recipients b) (enc_nonce p) (enc_ciphertext p) (enc_tag p))
  | _, _ => inl JweError
  end.

(** Modelled from the spec: [JweEnvelope.combined_aad], the AAD the builder
    computed at encryption time, rebuilt purely from the protected bytes
    (spec 4.3). *)
Definition combined_aad (e : JweEnvelope) : bytes := protected_b64 e.

(** Modelled from the spec: [JweEnvelope.get_recipient], a linear lookup by
    the recipient header's [kid] that returns absence when none matches
    (spec 4.3).  The entry handed back carries the envelope-level header
    fields under the recipient's own: anonymous decryption validates the
    [enc] that encryption writes to the protected header, and authenticated
    decryption requires the top-level [epk] (spec 4.4), and the code reads
    both from the returned recipient's header. *)
Definition get_recipient (e : JweEnvelope) (kid : string) : option JweRecipient :=
  match List.find (λ r, is_str (header r !! "kid") kid) (recipients e) with
  | Some r =>
      Some (mkJweRecipient (encrypted_key r)
              (header r ∪ unprotected e ∪ protected e))
  | None => None
  end.

(** ** Calls into the cryptographic library *)

(** What the library and the builder are asked to do, in order. *)
Inductive Event :=
| EvGenerate (alg : KeyAlg) (ephemeral : bool)
| EvFromJwk (jwk : JVal)
| EvEsWrap (alg_id : string) (apu apv : option JVal) (wrap_alg : AlgArg)
    (epk recip cek : Key)
| EvEsUnwrap (alg_id : string) (apu apv : option JVal) (wrap_alg : AlgArg)
    (enc_alg : string) (epk recip : Key) (ciphertext : bytes)
| Ev1puWrap (alg_id : string) (apu apv : option JVal) (wrap_alg : AlgArg)
    (epk sender recip cek : Key) (cc_tag : bytes)
| Ev1puUnwrap (alg_id : string) (apu apv : option JVal) (wrap_alg : AlgArg)
    (enc_alg : string) (epk sender recip : Key) (ciphertext cc_tag : bytes)
| EvAeadEncrypt (cek : Key) (message aad : bytes)
| EvAeadDecrypt (cek : Key) (ciphertext nonce tag aad : bytes)
| EvSetProtected (h : dict)
| EvAddRecipient (r : JweRecipient)
| EvSetPayload (ciphertext nonce tag : bytes).

Section protocol.
Context `{Askar} `{Wire}.

Record World := mkWorld {
  entropy : Entropy;
  trace : list Event
}.

Definition M (A : Type) : Type := World → Result A * World.

Definition mret {A} (a : A) : M A := λ w, (inr a, w).

Definition mbind {A B} (m : M A) (f : A → M B) : M B :=
  λ w, match m w with
       | (inl e, w') => (inl e, w')
       | (inr a, w') => f a w'
       end.

Definition raise {A} (e : exn) : M A := λ w, (inl e, w).

Definition lift {A} (r : Result A) : M A := λ w, (r, w).

(** The world after one more recorded call. *)
Definition logged (ev : Event) (w : World) : World :=
  mkWorld (entropy w) (trace w ++ [ev]).

Definition log (ev : Event) : M unit := λ w, (inr tt, logged ev w).

(** [try: m except AskarError: raise e] *)
Definition try_except {A} (m : M A) (e : exn) : M A :=
  λ w, match m w with
       | (inl AskarError, w') => (inl e, w')
       | r => r
       end.

(** A deterministic library call: [None] raises [AskarError]. *)
Definition call {A} (ev : Event) (r : option A) : M A :=
  mbind (log ev) (λ _, match r with Some a => mret a | None => raise AskarError end).

(** A library call that draws entropy. *)
Definition call_random {A} (ev : Event) (f : Entropy → option A * Entropy) : M A :=
  mbind (log ev) (λ _ w,
    let (r, s) := f (entropy w) in
    (match r with Some a => inr a | None => inl AskarError end,
     mkWorld s (trace w))).

End protocol.

Notation "'let*' x ':=' m 'in' k" := (mbind m (λ x, k))
  (at level 10, x name, k at level 200).

(** ** [AskarCryptoService] *)

(** What a decryption is handed: [Union[JweEnvelope, str, bytes]]. *)
Inductive Wrapper :=
| WEnvelope (e : JweEnvelope)
| WStr (s : string)
| WBytes (b : bytes).

Section service.
Context `{Askar} `{Wire}.

(** Builder methods, recorded in the trace. *)
Definition set_protected (h : dict) (b : JweBuilder) : M JweBuilder :=
  let* _ := log (EvSetProtected h) in
  mret (mkJweBuilder (Some h) (b_recipients b) (b_payload b)).

Definition add_recipient (r : JweRecipient) (b : JweBuilder) : M JweBuilder :=
  let* _ := log (EvAddRecipient r) in
  mret (mkJweBuilder (b_protected b) (b_recipients b ++ [r]) (b_payload b)).

Definition set_payload (ct nonce tg : bytes) (b : JweBuilder) : M JweBuilder :=
  let* _ := log (EvSetPayload ct nonce tg) in
  mret (mkJweBuilder (b_protected b) (b_recipients b)
          (Some (mkEncrypted ct nonce tg))).

(** The library calls the service makes. *)
Definition generate (alg : KeyAlg) (ephemeral : bool) : M Key :=
  call_random (EvGenerate alg ephemeral) (Key_generate alg ephemeral).

Definition from_jwk (jwk : JVal) : M Key :=
  call (EvFromJwk jwk) (Key_from_jwk jwk).

Definition es_sender_wrap_key (alg_id : string) (apu apv : option JVal)
    (wrap_alg : AlgArg) (epk recip cek : Key) : M Encrypted :=
  call (EvEsWrap alg_id apu apv wrap_alg epk recip cek)
    (EcdhEs_sender_wrap_key alg_id apu apv wrap_alg epk recip cek).

Definition es_receiver_unwrap_key (alg_id : string) (apu apv : option JVal)
    (wrap_alg : AlgArg) (enc_alg : string) (epk recip : Key) (ct : bytes)
    : M Key :=
  call (EvEsUnwrap alg_id apu apv wrap_alg enc_alg epk recip ct)
    (EcdhEs_receiver_unwrap_key alg_id apu apv wrap_alg enc_alg epk recip ct).

Definition pu_sender_wrap_key (alg_id : string) (apu apv : option JVal)
    (wrap_alg : AlgArg) (epk sender recip cek : Key) (cc_tag : bytes)
    : M Encrypted :=
  call (Ev1puWrap alg_id apu apv wrap_alg epk sender recip cek cc_tag)
    (Ecdh1PU_sender_wrap_key alg_id apu apv wrap_alg epk sender recip cek cc_tag).

Definition pu_receiver_unwrap_key (alg_id : string) (apu apv : option JVal)
    (wrap_alg : AlgArg) (enc_alg : string) (epk sender recip : Key)
    (ct cc_tag : bytes) : M Key :=
  call (Ev1puUnwrap alg_id apu apv wrap_alg enc_alg epk sender recip ct cc_tag)
    (Ecdh1PU_receiver_unwrap_key alg_id apu apv wrap_alg enc_alg epk sender
       recip ct cc_tag).

Definition key_aead_encrypt (cek : Key) (message aad : bytes) : M Encrypted :=
  call_random (EvAeadEncrypt cek message aad) (aead_encrypt cek message aad).

Definition key_aead_decrypt (cek : Key) (ct nonce tg aad : bytes) : M bytes :=
  call (EvAeadDecrypt cek ct nonce tg aad) (aead_decrypt cek ct nonce tg aad).

(** The loop of [ecdh_es_encrypt] over [to_keys.items()]. *)
Fixpoint es_wrap_recipients (alg_id : string) (wrap_alg : KeyAlg) (cek : Key)
    (to_keys : list (string * AskarKey)) (builder : JweBuilder)
    : M JweBuilder :=
  match to_keys with
  | [] => mret builder
  | (kid, recip_key) :: rest =>
      let* epk :=
        try_except (generate (algorithm (key recip_key)) true)
          (CryptoServiceError "Error creating ephemeral key") in
      let* enc_key :=
        es_sender_wrap_key alg_id None None (ByEnum wrap_alg) epk
          (key recip_key) cek in
      let* builder :=
        add_recipient
          (mkJweRecipient (enc_ciphertext enc_key)
             {[ "kid" := JStr kid; "epk" := JStr (get_jwk_public epk) ]})
          builder in
      es_wrap_recipients alg_id wrap_alg cek rest builder
  end.

(** [AskarCryptoService.ecdh_es_encrypt] *)
Definition ecdh_es_encrypt (to_keys : list (string * AskarKey))
    (message : bytes) : M bytes :=
  let builder := JweBuilder_new in
  let alg_id := "ECDH-ES+A256KW" in
  let enc_id := "XC20P" in
  let enc_alg := XC20P in
  let wrap_alg := A256KW in
  match to_keys with
  | [] => raise (ValueError "No message recipients")
  | _ :: _ =>
      let* cek :=
        try_except (generate enc_alg false)
          (CryptoServiceError "Error creating content encryption key") in
      let* builder := es_wrap_recipients alg_id wrap_alg cek to_keys builder in
      let* builder :=
        set_protected {[ "alg" := JStr alg_id; "enc" := JStr enc_id ]}
          builder in
      let* payload :=
        try_except (key_aead_encrypt cek message (protected_bytes builder))
          (CryptoServiceError "Error encrypting message payload") in
      let* builder :=
        set_payload (enc_ciphertext payload) (enc_nonce payload)
          (enc_tag payload) builder in
      let* envelope := lift (build builder) in
      mret (encode_utf8 (to_json envelope))
  end.

(** The first lines of both decryptions: bytes are decoded, text is parsed. *)
Definition parse_wrapper (wrapper : Wrapper) : Result JweEnvelope :=
  match wrapper with
  | WEnvelope e => inr e
  | WStr s =>
      match from_json s with Some e => inr e | None => inl JweError end
  | WBytes b =>
      match from_json (decode_utf8 b) with
      | Some e => inr e
      | None => inl JweError
      end
  end.

(** [x and x in (s1, ..., sn)], giving the string when it holds. *)
Definition checked_in (v : option JVal) (l : list string) : option string :=
  match v with
  | Some v => if truthy v then in_strs v l else None
  | None => None
  end.

(** [AskarCryptoService.ecdh_es_decrypt] *)
Definition ecdh_es_decrypt (wrapper : Wrapper) (recip_key : AskarKey)
    : M bytes :=
  let* wrapper := lift (parse_wrapper wrapper) in
  let alg_id := protected wrapper !! "alg" in
  match checked_in alg_id ["ECDH-ES+A128KW"; "ECDH-ES+A256KW"] with
  | None =>
      raise (CryptoServiceError
               ("Missing or unsupported ECDH-ES algorithm: " ++ py_str alg_id))
  | Some alg_id =>
      let wrap_alg := str_from 8 alg_id in
      match get_recipient wrapper (kid recip_key) with
      | None =>
          raise (CryptoServiceError
                   ("Recipient header not found: " ++ kid recip_key))
      | Some recip =>
          let enc_alg := header recip !! "enc" in
          match
            checked_in enc_alg
              ["A128GCM"; "A256GCM"; "A128CBC-HS256"; "A256CBC-HS512"; "XC20P"]
          with
          | None =>
              raise (CryptoServiceError
                       ("Unsupported ECDH-ES content encryption: "
                          ++ py_str enc_alg))
          | Some enc_alg =>
              let epk_header := header recip !! "epk" in
              match epk_header with
              | Some epk_header' =>
                  if truthy epk_header' then
                    let* epk :=
                      try_except (from_jwk epk_header')
                        (CryptoServiceError "Error loading ephemeral key") in
                    let apu := header recip !! "apu" in
                    let apv := header recip !! "apv" in
                    let* cek :=
                      try_except
                        (es_receiver_unwrap_key alg_id apu apv (ByName wrap_alg)
                           enc_alg epk (key recip_key) (encrypted_key recip))
                        (CryptoServiceError
                           "Error decrypting content encryption key") in
                    let* plaintext :=
                      try_except
                        (key_aead_decrypt cek (ciphertext wrapper) (iv wrapper)
                           (tag wrapper) (combined_aad wrapper))
                        (CryptoServiceError "Error decrypting message payload")
                    in
                    mret plaintext
                  else raise (CryptoServiceError "Missing ephemeral key")
              | None => raise (CryptoServiceError "Missing ephemeral key")
              end
          end
      end
  end.

(** Truthiness of a [KeyAlg] member: enum members are truthy. *)
Definition alg_truthy (a : KeyAlg) : bool := true.

(** The first loop of [ecdh_1pu_encrypt]: it checks the recipients'
    algorithms against [agree_alg] and collects their kids in [apv]. *)
Fixpoint collect_apv (agree_alg : KeyAlg) (apv : list string)
    (to_keys : list (string * AskarKey)) : Result (list string) :=
  match to_keys with
  | [] => inr apv
  | (kid, recip_key) :: rest =>
      if alg_truthy agree_alg then
        if bool_decide (agree_alg ≠ algorithm (key recip_key)) then
          inl (CryptoServiceError "Recipient key types must be consistent")
        else collect_apv agree_alg (apv ++ [kid]) rest
      else collect_apv (algorithm (key recip_key)) (apv ++ [kid]) rest
  end.

(** [list.sort] on strings: ascending, by code point. *)
Definition sort (l : list string) : list string := merge_sort String.le l.

(** [".".join(l)] *)
Definition join (l : list string) : string := String.concat "." l.

(** The second loop of [ecdh_1pu_encrypt]. *)
Fixpoint pu_wrap_recipients (alg_id apu apv : string) (wrap_alg : KeyAlg)
    (epk sender cek : Key) (cc_tag : bytes)
    (to_keys : list (string * AskarKey)) (builder : JweBuilder)
    : M JweBuilder :=
  match to_keys with
  | [] => mret builder
  | (kid, recip_key) :: rest =>
      let* enc_key :=
        pu_sender_wrap_key alg_id (Some (JStr apu)) (Some (JStr apv))
          (ByEnum wrap_alg) epk sender (key recip_key) cek cc_tag in
      let* builder :=
        add_recipient
          (mkJweRecipient (enc_ciphertext enc_key) {[ "kid" := JStr kid ]})
          builder in
      pu_wrap_recipients alg_id apu apv wrap_alg epk sender cek cc_tag rest
        builder
  end.

(** [AskarCryptoService.ecdh_1pu_encrypt] *)
Definition ecdh_1pu_encrypt (to_keys : list (string * AskarKey))
    (sender_kid : string) (sender_key : AskarKey) (message : bytes)
    : M bytes :=
  let builder := JweBuilder_new in
  let alg_id := "ECDH-1PU+A256KW" in
  let enc_id := "A256CBC-HS512" in
  let enc_alg := A256CBC_HS512 in
  let wrap_alg := A256KW in
  let agree_alg := algorithm (key sender_key) in
  match to_keys with
  | [] => raise (CryptoServiceError "No message recipients")
  | _ :: _ =>
      let* cek :=
        try_except (generate enc_alg false)
          (CryptoServiceError "Error creating content encryption key") in
      let* epk :=
        try_except (generate agree_alg true)
          (CryptoServiceError "Error creating ephemeral key") in
      let apu := b64url sender_kid in
      let* apv := lift (collect_apv agree_alg [] to_keys) in
      let apv := sort apv in
      let apv := b64url (join apv) in
      let* builder :=
        set_protected
          {[ "alg" := JStr alg_id;
             "enc" := JStr enc_id;
             "apu" := JStr apu;
             "apv" := JStr apv;
             "epk" := json_loads (get_jwk_public epk);
             "skid" := JStr sender_kid ]}
          builder in
      let* payload :=
        try_except (key_aead_encrypt cek message (protected_bytes builder))
          (CryptoServiceError "Error encrypting message payload") in
      let* builder :=
        set_payload (enc_ciphertext payload) (enc_nonce payload)
          (enc_tag payload) builder in
      let* builder :=
        pu_wrap_recipients alg_id apu apv wrap_alg epk (key sender_key) cek
          (enc_tag payload) to_keys builder in
      let* envelope := lift (build builder) in
      mret (encode_utf8 (to_json envelope))
  end.

(** [AskarCryptoService.ecdh_1pu_decrypt] *)
Definition ecdh_1pu_decrypt (wrapper : Wrapper) (recip_key sender_key : AskarKey)
    : M bytes :=
  let* wrapper := lift (parse_wrapper wrapper) in
  let alg_id := protected wrapper !! "alg" in
  match checked_in alg_id ["ECDH-1PU+A128KW"; "ECDH-1PU+A256KW"] with
  | None =>
      raise (CryptoServiceError
               ("Unsupported ECDH-1PU algorithm: " ++ py_str alg_id))
  | Some alg_id =>
      let wrap_alg := str_from 9 alg_id in
      let enc_alg := protected wrapper !! "enc" in
      match checked_in enc_alg ["A128CBC-HS256"; "A256CBC-HS512"] with
      | None =>
          raise (CryptoServiceError
                   ("Unsupported ECDH-1PU content encryption: "
                      ++ py_str enc_alg))
      | Some enc_alg =>
          match get_recipient wrapper (kid recip_key) with
          | None =>
              raise (CryptoServiceError
                       ("Recipient header not found: " ++ kid recip_key))
          | Some recip =>
              let epk_header := header recip !! "epk" in
              match epk_header with
              | Some epk_header' =>
                  if truthy epk_header' then
                    let* epk :=
                      try_except (from_jwk epk_header')
                        (CryptoServiceError "Error loading ephemeral key") in
                    let apu := protected wrapper !! "apu" in
                    let apv := protected wrapper !! "apv" in
                    let* cek :=
                      try_except
                        (pu_receiver_unwrap_key alg_id apu apv (ByName wrap_alg)
                           enc_alg epk (key sender_key) (key recip_key)
                           (encrypted_key recip) (tag wrapper))
                        (CryptoServiceError
                           "Error decrypting content encryption key") in
                    let* plaintext :=
                      try_except
                        (key_aead_decrypt cek (ciphertext wrapper) (iv wrapper)
                           (tag wrapper) (combined_aad wrapper))
                        (CryptoServiceError "Error decrypting message payload")
                    in
                    mret plaintext
                  else raise (CryptoServiceError "Missing ephemeral key")
              | None => raise (CryptoServiceError "Missing ephemeral key")
              end
          end
      end
  end.

End service.

(** ** [AskarWithStore] *)

(** An entry of the key store; [session.fetch_key] returns one or [None]. *)
Record KeyEntry := mkKeyEntry {
  entry_name : string;
  entry_key : Key
}.

Record AskarWithStore := mkAskarWithStore {
  store : gmap string KeyEntry
}.

Section store.
Context `{Multiformats}.

(** [AskarWithStore.fetch_key_by_kid]; the session's [fetch_key] is the
    lookup in the store. *)
Definition fetch_key_by_kid (self : AskarWithStore) (kid : string)
    : Result (option AskarKey) :=
  match store self !! kid with
  | None => inr None
  | Some key_entry =>
      rbind (AskarKey_init (entry_key key_entry) kid) (λ k, inr (Some k))
  end.

End store.

(** ** What the protocols assume of their collaborators *)

(** Key generation gives a key of the requested algorithm; a public JWK
    imports to the public half of its key; a key wrapped for a recipient
    unwraps with the recipient's secret key to the wrapped key; an AEAD
    ciphertext decrypts under the same key and AAD to its plaintext. *)
Class AskarLaws `{Askar} := {
  generate_algorithm :
    ∀ alg eph s k s',
      Key_generate alg eph s = (Some k, s') → algorithm k = alg;
  jwk_public_nonempty : ∀ k, get_jwk_public k ≠ "";
  from_jwk_public :
    ∀ k, Key_from_jwk (JStr (get_jwk_public k)) = Some (public_of k);
  es_unwrap_wrap :
    ∀ alg_id wrap_alg epk pk sk cek e,
      key_pair pk sk →
      EcdhEs_sender_wrap_key alg_id None None (ByEnum wrap_alg) epk pk cek
        = Some e →
      EcdhEs_receiver_unwrap_key alg_id None None (ByName (alg_name wrap_alg))
        (alg_name (algorithm cek)) (public_of epk) sk (enc_ciphertext e)
        = Some cek;
  pu_unwrap_wrap :
    ∀ alg_id apu apv wrap_alg epk spk ssk rpk rsk cek cc_tag e,
      key_pair spk ssk → key_pair rpk rsk →
      Ecdh1PU_sender_wrap_key alg_id apu apv (ByEnum wrap_alg) epk ssk rpk cek
        cc_tag = Some e →
      Ecdh1PU_receiver_unwrap_key alg_id apu apv (ByName (alg_name wrap_alg))
        (alg_name (algorithm cek)) (public_of epk) spk rsk (enc_ciphertext e)
        cc_tag = Some cek;
  aead_decrypt_encrypt :
    ∀ cek message aad s e s',
      aead_encrypt cek message aad s = (Some e, s') →
      aead_decrypt cek (enc_ciphertext e) (enc_nonce e) (enc_tag e) aad
        = Some message
}.

(** The wire form parses back to the envelope it was written from, and a
    public JWK survives [json.loads]. *)
Class WireLaws `{Askar} `{Wire} := {
  from_json_to_json : ∀ e, from_json (to_json e) = Some e;
  loads_jwk_truthy : ∀ k, truthy (json_loads (get_jwk_public k)) = true;
  from_jwk_loads :
    ∀ k, Key_from_jwk (json_loads (get_jwk_public k)) = Some (public_of k)
}.

(** Base58btc text decodes to the bytes it encodes, and a wrapped key
    unwraps to its codec and bytes, for the codecs of [codec_to_alg]. *)
Class MultiformatsLaws `{Multiformats} := {
  decode_encode_base58 :
    ∀ b, multibase_decode (multibase_encode b "base58btc") = Some b;
  unwrap_wrap :
    ∀ codec alg b,
      table_get codec codec_to_alg = Some alg →
      multicodec_unwrap (multicodec_wrap codec b) = Some (codec, b)
}.

(** ** A small instance of the collaborators

    It is used to run the code on concrete inputs.  Keys are drawn from a
    finite supply, wrapping and encryption are the identity on the secret,
    and the encodings keep the shape of the real ones: a multibase text is
    [z] followed by its bytes, a multicodec prefix is the two-byte varint of
    the codec. *)
Module Toy.

Definition symmetric (a : KeyAlg) : bool :=
  match a with
  | XC20P | A256KW | A256CBC_HS512 => true
  | _ => false
  end.

Definition alg_char (a : KeyAlg) : ascii :=
  match a with
  | ED25519 => "E" | X25519 => "X" | K256 => "K"
  | XC20P => "C" | A256KW => "W" | A256CBC_HS512 => "H"
  end%char.

Definition algs : list KeyAlg := [ED25519; X25519; K256; XC20P; A256KW; A256CBC_HS512].

Definition alg_of_char (c : ascii) : option KeyAlg :=
  List.find (λ a, Ascii.eqb (alg_char a) c) algs.

Definition alg_of_name (s : string) : option KeyAlg :=
  List.find (λ a, String.eqb (alg_name a) s) algs.

(** The supply holds the material of the keys still to be generated; an
    exhausted supply makes the library fail. *)
Definition generate (alg : KeyAlg) (ephemeral : bool) (s : list bytes)
    : option Key * list bytes :=
  match s with
  | [] => (None, [])
  | b :: s =>
      (Some (if symmetric alg then mkKey alg [] (Some b)
             else mkKey alg b (Some (rev b))), s)
  end.

(** Ed25519 and X25519 public keys are 32 bytes, compressed secp256k1
    keys 33. *)
Definition from_public_bytes (alg : KeyAlg) (b : bytes) : option Key :=
  let n := match alg with
           | ED25519 | X25519 => Some 32%nat
           | K256 => Some 33%nat
           | _ => None
           end in
  if bool_decide (n = Some (length b)) then Some (mkKey alg b None) else None.

Definition jwk_public (k : Key) : string :=
  String (alg_char (algorithm k)) (string_of_list_byte (get_public_bytes k)).

Definition jwk_text (s : string) : option Key :=
  match s with
  | String c s =>
      match alg_of_char c with
      | Some a => Some (mkKey a (list_byte_of_string s) None)
      | None => None
      end
  | EmptyString => None
  end.

Definition from_jwk (v : JVal) : option Key :=
  match v with
  | JStr s => jwk_text s
  | JObj [(_, JStr s)] => jwk_text s
  | _ => None
  end.

Definition wrap (cek : Key) : option Encrypted :=
  match cek with
  | mkKey _ [] (Some sec) => Some (mkEncrypted sec [] [])
  | _ => None
  end.

Definition unwrap (enc_alg : string) (ct : bytes) : option Key :=
  match alg_of_name enc_alg with
  | Some a => Some (mkKey a [] (Some ct))
  | None => None
  end.

Definition encrypt (cek : Key) (message aad : bytes) (s : list bytes)
    : option Encrypted * list bytes :=
  match s with
  | [] => (None, [])
  | nonce :: s => (Some (mkEncrypted message nonce aad), s)
  end.

Definition decrypt (cek : Key) (ct nonce tg aad : bytes) : option bytes :=
  if bool_decide (tg = aad) then Some ct else None.

#[global] Instance askar : Askar := {|
  Entropy := list bytes;
  Key_generate := generate;
  Key_from_public_bytes := from_public_bytes;
  Key_from_jwk := from_jwk;
  get_jwk_public := jwk_public;
  EcdhEs_sender_wrap_key := λ _ _ _ _ _ _ cek, wrap cek;
  EcdhEs_receiver_unwrap_key := λ _ _ _ _ enc_alg _ _ ct, unwrap enc_alg ct;
  Ecdh1PU_sender_wrap_key := λ _ _ _ _ _ _ _ cek _, wrap cek;
  Ecdh1PU_receiver_unwrap_key :=
    λ _ _ _ _ enc_alg _ _ _ ct _, unwrap enc_alg ct;
  aead_encrypt := encrypt;
  aead_decrypt := decrypt
|}.

Definition codec_prefix (codec : string) : bytes :=
  if String.eqb codec "ed25519-pub" then [xed; x01]
  else if String.eqb codec "x25519-pub" then [xec; x01]
  else if String.eqb codec "secp256k1-pub" then [xe7; x01]
  else if String.eqb codec "p256-pub" then [x80; x24]
  else [].

Definition codec_unwrap (b : bytes) : option (string * bytes) :=
  match b with
  | xed :: x01 :: b => Some ("ed25519-pub", b)
  | xec :: x01 :: b => Some ("x25519-pub", b)
  | xe7 :: x01 :: b => Some ("secp256k1-pub", b)
  | x80 :: x24 :: b => Some ("p256-pub", b)
  | _ => None
  end.

#[global] Instance multiformats : Multiformats := {|
  multibase_encode := λ b _, String "z" (string_of_list_byte b);
  multibase_decode := λ s,
    match s with
    | String "z" s => Some (list_byte_of_string s)
    | _ => None
    end;
  multicodec_wrap := λ codec b, (codec_prefix codec ++ b)%list;
  multicodec_unwrap := codec_unwrap
|}.

(** The wire text of an envelope is its number, written in binary. *)
Fixpoint pos_text (p : positive) : string :=
  match p with
  | xH => ""
  | xO p => String "0" (pos_text p)
  | xI p => String "1" (pos_text p)
  end.

Fixpoint text_pos (s : string) : positive :=
  match s with
  | String "1" s => xI (text_pos s)
  | String _ s => xO (text_pos s)
  | EmptyString => xH
  end.

#[global] Instance wire : Wire := {|
  b64url := λ s, s;
  json_dumps := λ h, pos_text (encode h);
  json_loads := λ s, JObj [("jwk", JStr s)];
  to_json := λ e, pos_text (encode e);
  from_json := λ s, decode (text_pos s);
  py_repr := λ _, "<value>"
|}.

#[global] Instance askar_laws : AskarLaws.
Proof.
  assert (∀ a, alg_of_char (alg_char a) = Some a) as Hchar by (by intros []).
  assert (∀ a, alg_of_name (alg_name a) = Some a) as Hname by (by intros []).
  assert (∀ cek e, wrap cek = Some e →
            unwrap (alg_name (algorithm cek)) (enc_ciphertext e) = Some cek)
    as Hwrap.
  { intros [a [|] [sec|]] e; simpl; try discriminate.
    intros [= <-]. unfold unwrap. by rewrite Hname. }
  split.
  - intros alg eph [|b s] k s'; simpl; [discriminate|].
    intros [= <- _]. by destruct (symmetric alg).
  - by intros k.
  - intros k. simpl. unfold jwk_public, jwk_text.
    by rewrite Hchar, list_byte_of_string_of_list_byte.
  - intros alg_id wrap_alg epk pk sk cek e _. apply Hwrap.
  - intros alg_id apu apv wrap_alg epk spk ssk rpk rsk cek cc_tag e _ _.
    apply Hwrap.
  - intros cek message aad [|nonce s] e s'; simpl; [discriminate|].
    intros [= <- _]. simpl. unfold decrypt.
    by rewrite bool_decide_eq_true_2.
Qed.

#[global] Instance wire_laws : WireLaws.
Proof.
  assert (∀ p, text_pos (pos_text p) = p) as Htext
    by (induction p; simpl; congruence).
  assert (∀ a, alg_of_char (alg_char a) = Some a) as Hchar by (by intros []).
  split.
  - intros e. simpl. by rewrite Htext, decode_encode.
  - done.
  - intros k. simpl. unfold jwk_public, jwk_text.
    by rewrite Hchar, list_byte_of_string_of_list_byte.
Qed.

#[global] Instance multiformats_laws : MultiformatsLaws.
Proof.
  split.
  - intros b. simpl. by rewrite list_byte_of_string_of_list_byte.
  - intros codec alg b. simpl. unfold codec_prefix.
    repeat (case_decide; [subst; by intros _|]). discriminate.
Qed.

(** The same library with a key wrap that always fails. *)
Definition askar_refusing : Askar := {|
  Entropy := list bytes;
  Key_generate := generate;
  Key_from_public_bytes := from_public_bytes;
  Key_from_jwk := from_jwk;
  get_jwk_public := jwk_public;
  EcdhEs_sender_wrap_key := λ _ _ _ _ _ _ _, None;
  EcdhEs_receiver_unwrap_key := λ _ _ _ _ enc_alg _ _ ct, unwrap enc_alg ct;
  Ecdh1PU_sender_wrap_key := λ _ _ _ _ _ _ _ _ _, None;
  Ecdh1PU_receiver_unwrap_key :=
    λ _ _ _ _ enc_alg _ _ _ ct _, unwrap enc_alg ct;
  aead_encrypt := encrypt;
  aead_decrypt := decrypt
|}.

(** A key object as [AskarKey.__init__] builds it for an X25519 key. *)
Definition x25519_key (k : Key) (kid : string) : AskarKey :=
  mkAskarKey k kid
    (multibase_encode (multicodec_wrap "x25519-pub" (get_public_bytes k))
       "base58btc").

End Toy.

(** ** Vocabulary of the statements *)

(** The header value [v] is one of the strings of [l]. *)
Definition supported (l : list string) (v : option JVal) : Prop :=
  ∃ s, v = Some (JStr s) ∧ s ∈ l.

Definition es_enc_algs : list string :=
  ["A128GCM"; "A256GCM"; "A128CBC-HS256"; "A256CBC-HS512"; "XC20P"].

Definition pu_enc_algs : list string := ["A128CBC-HS256"; "A256CBC-HS512"].

Definition is_unwrap (ev : Event) : bool :=
  match ev with
  | EvEsUnwrap _ _ _ _ _ _ _ _ | Ev1puUnwrap _ _ _ _ _ _ _ _ _ _ => true
  | _ => false
  end.

Definition is_aead_decrypt (ev : Event) : bool :=
  match ev with EvAeadDecrypt _ _ _ _ _ => true | _ => false end.

(** How a failed decryption that started in [w] and ended in [w'] with
    [err] looks to its caller: the library's own error never escapes; a run
    that stopped at the unwrap call, or at the payload decryption, ends in
    the service's error for that step; and any failure after the library was
    reached has the service's error type. *)
Definition opaque_failure `{Askar} (w w' : World) (err : exn) : Prop :=
  err ≠ AskarError
  ∧ ∃ evs,
      trace w' = (trace w ++ evs)%list
      ∧ (∀ ev, last evs = Some ev → is_unwrap ev = true →
               err = CryptoServiceError "Error decrypting content encryption key")
      ∧ (∀ ev, last evs = Some ev → is_aead_decrypt ev = true →
               err = CryptoServiceError "Error decrypting message payload")
      ∧ (evs ≠ [] → type_of err = TCryptoServiceError).

Definition is_generate (ev : Event) : bool :=
  match ev with EvGenerate _ _ => true | _ => false end.

Definition is_ephemeral_generate (ev : Event) : bool :=
  match ev with EvGenerate _ true => true | _ => false end.

Section run_vocabulary.
Context `{Askar} `{Wire}.

(** The protected header of an authenticated envelope. *)
Definition pu_protected (sender_kid : string) (epk : Key)
    (kids : list string) : dict :=
  {[ "alg" := JStr "ECDH-1PU+A256KW";
     "enc" := JStr "A256CBC-HS512";
     "apu" := JStr (b64url sender_kid);
     "apv" := JStr (b64url (join (sort kids)));
     "epk" := json_loads (get_jwk_public epk);
     "skid" := JStr sender_kid ]}.

(** The AAD of a protected header. *)
Definition aad_of (h : dict) : bytes := encode_utf8 (b64url (json_dumps h)).

(** [r] is the recipient entry that authenticated encryption adds for the
    recipient [kv]. *)
Definition pu_wrapped (apu apv : string) (epk sender cek : Key)
    (cc_tag : bytes) (kv : string * AskarKey) (r : JweRecipient) : Prop :=
  ∃ e,
    Ecdh1PU_sender_wrap_key "ECDH-1PU+A256KW" (Some (JStr apu))
      (Some (JStr apv)) (ByEnum A256KW) epk sender (key kv.2) cek cc_tag
    = Some e
    ∧ r = mkJweRecipient (enc_ciphertext e) {[ "kid" := JStr kv.1 ]}.

(** What the second loop of authenticated encryption does for one
    recipient. *)
Definition pu_recipient_events (apu apv : string) (epk sender cek : Key)
    (cc_tag : bytes) (kv : string * AskarKey) (r : JweRecipient)
    : list Event :=
  [ Ev1puWrap "ECDH-1PU+A256KW" (Some (JStr apu)) (Some (JStr apv))
      (ByEnum A256KW) epk sender (key kv.2) cek cc_tag;
    EvAddRecipient r ].

(** [r] is the recipient entry that anonymous encryption adds for the
    recipient [kv]. *)
Definition es_wrapped (cek : Key) (kv : string * AskarKey) (r : JweRecipient)
    : Prop :=
  ∃ epk e,
    EcdhEs_sender_wrap_key "ECDH-ES+A256KW" None None (ByEnum A256KW) epk
      (key kv.2) cek = Some e
    ∧ r = mkJweRecipient (enc_ciphertext e)
            {[ "kid" := JStr kv.1; "epk" := JStr (get_jwk_public epk) ]}.

(** The protected header of an anonymous envelope. *)
Definition es_protected : dict :=
  {[ "alg" := JStr "ECDH-ES+A256KW"; "enc" := JStr "XC20P" ]}.

End run_vocabulary.

Definition is_from_jwk (ev : Event) : bool :=
  match ev with EvFromJwk _ => true | _ => false end.

Definition es_algs : list string := ["ECDH-ES+A128KW"; "ECDH-ES+A256KW"].
Definition pu_algs : list string := ["ECDH-1PU+A128KW"; "ECDH-1PU+A256KW"].

(** An unwrap call made with validated arguments: the key agreement and
    its key-wrap algorithm are one of the two pairs of the mode, the content
    encryption is one the mode supports, and the keys are those the
    decryption was given. *)
Definition checked_unwrap (recip_key sender_key : Key) (ev : Event) : Prop :=
  match ev with
  | EvEsUnwrap alg_id _ _ wrap_alg enc_alg _ recip _ =>
      (alg_id, wrap_alg)
        ∈ [ ("ECDH-ES+A128KW", ByName "A128KW");
            ("ECDH-ES+A256KW", ByName "A256KW") ]
      ∧ enc_alg ∈ es_enc_algs
      ∧ recip = recip_key
  | Ev1puUnwrap alg_id _ _ wrap_alg enc_alg _ sender recip _ _ =>
      (alg_id, wrap_alg)
        ∈ [ ("ECDH-1PU+A128KW", ByName "A128KW");
            ("ECDH-1PU+A256KW", ByName "A256KW") ]
      ∧ enc_alg ∈ pu_enc_algs
      ∧ sender = sender_key
      ∧ recip = recip_key
  | _ => True
  end.

Definition is_es_unwrap (ev : Event) : bool :=
  match ev with EvEsUnwrap _ _ _ _ _ _ _ _ => true | _ => false end.

Definition is_pu_unwrap (ev : Event) : bool :=
  match ev with Ev1puUnwrap _ _ _ _ _ _ _ _ _ _ => true | _ => false end.

(** The key a recorded call was made with: the ephemeral key of an unwrap,
    the content key of a payload decryption. *)
Definition used_key (ev : Event) : option Key :=
  match ev with
  | EvEsUnwrap _ _ _ _ _ epk _ _ | Ev1puUnwrap _ _ _ _ _ epk _ _ _ _ =>
      Some epk
  | EvAeadDecrypt cek _ _ _ _ => Some cek
  | _ => None
  end.

Section decrypt_vocabulary.
Context `{Askar} `{Wire}.

(** The key the library returns for a recorded call that loads or unwraps
    one. *)
Definition returned_key (ev : Event) : option Key :=
  match ev with
  | EvFromJwk jwk => Key_from_jwk jwk
  | EvEsUnwrap alg_id apu apv wrap_alg enc_alg epk recip ct =>
      EcdhEs_receiver_unwrap_key alg_id apu apv wrap_alg enc_alg epk recip ct
  | Ev1puUnwrap alg_id apu apv wrap_alg enc_alg epk sender recip ct cc_tag =>
      Ecdh1PU_receiver_unwrap_key alg_id apu apv wrap_alg enc_alg epk sender
        recip ct cc_tag
  | _ => None
  end.

(** The calls of a decryption, in the order they are made: the ephemeral
    key is loaded; the content key is unwrapped, by the unwrap of the mode,
    with the key that was loaded and with validated arguments; the payload is
    decrypted with the key that was unwrapped.  The calls stop after the
    first one that fails, and nothing else is called. *)
Definition decrypt_sequence (unwrap_of_mode : Event → bool)
    (recip_key sender_key : Key) (evs : list Event) : Prop :=
  evs = []
  ∨ (∃ load,
       evs = [load]
       ∧ is_from_jwk load = true
       ∧ returned_key load = None)
  ∨ (∃ load unwrap,
       evs = [load; unwrap]
       ∧ is_from_jwk load = true
       ∧ unwrap_of_mode unwrap = true
       ∧ checked_unwrap recip_key sender_key unwrap
       ∧ returned_key load = used_key unwrap
       ∧ returned_key unwrap = None)
  ∨ (∃ load unwrap dec,
       evs = [load; unwrap; dec]
       ∧ is_from_jwk load = true
       ∧ unwrap_of_mode unwrap = true
       ∧ checked_unwrap recip_key sender_key unwrap
       ∧ returned_key load = used_key unwrap
       ∧ is_aead_decrypt dec = true
       ∧ returned_key unwrap = used_key dec).

(** What every decryption that started in [w] and ended in [w'] has done:
    it drew no entropy, and its calls are those of [decrypt_sequence]. *)
Definition decrypt_discipline (unwrap_of_mode : Event → bool)
    (recip_key sender_key : Key) (w w' : World) : Prop :=
  entropy w' = entropy w
  ∧ ∃ evs,
      trace w' = (trace w ++ evs)%list
      ∧ decrypt_sequence unwrap_of_mode recip_key sender_key evs.

(** The checks of anonymous decryption pass: the envelope [e] names a
    supported key agreement, has the entry [recip] for the caller's kid, and
    that entry names a supported content encryption and carries the
    ephemeral key [epk_header]. *)
Definition es_checked (wrapper : Wrapper) (recip_key : AskarKey)
    (e : JweEnvelope) (recip : JweRecipient) (alg_id enc_alg : string)
    (epk_header : JVal) : Prop :=
  parse_wrapper wrapper = inr e
  ∧ protected e !! "alg" = Some (JStr alg_id) ∧ alg_id ∈ es_algs
  ∧ get_recipient e (kid recip_key) = Some recip
  ∧ header recip !! "enc" = Some (JStr enc_alg) ∧ enc_alg ∈ es_enc_algs
  ∧ header recip !! "epk" = Some epk_header ∧ truthy epk_header = true.

(** The checks of authenticated decryption pass; the content encryption is
    the one of the protected header. *)
Definition pu_checked (wrapper : Wrapper) (recip_key : AskarKey)
    (e : JweEnvelope) (recip : JweRecipient) (alg_id enc_alg : string)
    (epk_header : JVal) : Prop :=
  parse_wrapper wrapper = inr e
  ∧ protected e !! "alg" = Some (JStr alg_id) ∧ alg_id ∈ pu_algs
  ∧ protected e !! "enc" = Some (JStr enc_alg) ∧ enc_alg ∈ pu_enc_algs
  ∧ get_recipient e (kid recip_key) = Some recip
  ∧ header recip !! "epk" = Some epk_header ∧ truthy epk_header = true.

End decrypt_vocabulary.

Section encrypt_vocabulary.
Context `{Askar} `{Wire}.

(** What anonymous encryption does for the recipient [kv]: it generates
    the ephemeral key [step.1], wraps the content key with it, and adds the
    recipient entry [step.2]. *)
Definition es_step (cek : Key) (kv : string * AskarKey)
    (step : Key * JweRecipient) : Prop :=
  (∃ s s', Key_generate (algorithm (key kv.2)) true s = (Some step.1, s'))
  ∧ ∃ e,
      EcdhEs_sender_wrap_key "ECDH-ES+A256KW" None None (ByEnum A256KW)
        step.1 (key kv.2) cek = Some e
      ∧ step.2
        = mkJweRecipient (enc_ciphertext e)
            {[ "kid" := JStr kv.1; "epk" := JStr (get_jwk_public step.1) ]}.

Definition es_recipient_events (cek : Key) (kv : string * AskarKey)
    (step : Key * JweRecipient) : list Event :=
  [ EvGenerate (algorithm (key kv.2)) true;
    EvEsWrap "ECDH-ES+A256KW" None None (ByEnum A256KW) step.1 (key kv.2) cek;
    EvAddRecipient step.2 ].

(** Why an anonymous encryption to [to_keys] ended in [err]: there was no
    recipient, or a key generation, a key wrap or the payload encryption
    failed in the library. *)
Definition es_encrypt_failure (to_keys : list (string * AskarKey))
    (message : bytes) (err : exn) : Prop :=
  (err = ValueError "No message recipients" ∧ to_keys = [])
  ∨ (err = CryptoServiceError "Error creating content encryption key"
     ∧ ∃ s, (Key_generate XC20P false s).1 = None)
  ∨ (err = CryptoServiceError "Error creating ephemeral key"
     ∧ ∃ kv s, kv ∈ to_keys
               ∧ (Key_generate (algorithm (key kv.2)) true s).1 = None)
  ∨ (err = AskarError
     ∧ ∃ kv epk cek,
         kv ∈ to_keys
         ∧ EcdhEs_sender_wrap_key "ECDH-ES+A256KW" None None (ByEnum A256KW)
             epk (key kv.2) cek = None)
  ∨ (err = CryptoServiceError "Error encrypting message payload"
     ∧ ∃ cek aad s, (aead_encrypt cek message aad s).1 = None).

(** Why an authenticated encryption ended in [err]: as above, or a
    recipient's key is of another algorithm than the sender's. *)
Definition pu_encrypt_failure (to_keys : list (string * AskarKey))
    (sender_key : AskarKey) (message : bytes) (err : exn) : Prop :=
  (err = CryptoServiceError "No message recipients" ∧ to_keys = [])
  ∨ (err = CryptoServiceError "Error creating content encryption key"
     ∧ ∃ s, (Key_generate A256CBC_HS512 false s).1 = None)
  ∨ (err = CryptoServiceError "Error creating ephemeral key"
     ∧ ∃ s, (Key_generate (algorithm (key sender_key)) true s).1 = None)
  ∨ (err = CryptoServiceError "Recipient key types must be consistent"
     ∧ Exists (λ kv, algorithm (key kv.2) ≠ algorithm (key sender_key))
         to_keys)
  ∨ (err = CryptoServiceError "Error encrypting message payload"
     ∧ ∃ cek aad s, (aead_encrypt cek message aad s).1 = None)
  ∨ (err = AskarError
     ∧ ∃ kv apu apv epk cek cc_tag,
         kv ∈ to_keys
         ∧ Ecdh1PU_sender_wrap_key "ECDH-1PU+A256KW" apu apv (ByEnum A256KW)
             epk (key sender_key) (key kv.2) cek cc_tag = None).

End encrypt_vocabulary.

(** ** Inputs the code is run on *)

(** The verification method of the test suite. *)
Definition vm_example : gmap string string :=
  {[ "id" := "#6LSqPZfn";
     "type" := "X25519KeyAgreementKey2020";
     "publicKeyMultibase" := "z6LSqPZfn9krvgXma2icTMKf2uVcYhKXsudCmPoUzqGYW24U";
     "controller" := "did:example:123" ]}.

(** The same method with its key under the name the code reads, holding 32
    raw bytes in the encoding of [Toy.multiformats]. *)
Definition vm_example_read : gmap string string :=
  {[ "id" := "#6LSqPZfn";
     "type" := "X25519KeyAgreementKey2020";
     "publicKeyMultiBase" := "z0123456789abcdef0123456789abcdef";
     "controller" := "did:example:123" ]}.

(** A store that holds a content-encryption key. *)
Definition store_example : AskarWithStore :=
  mkAskarWithStore
    {[ "did:example:alice#cek" :=
         mkKeyEntry "cek" (mkKey XC20P [] (Some [x2a])) ;
       "did:example:alice#key-1" :=
         mkKeyEntry "key-1" (mkKey X25519 (replicate 32 x07) (Some [x2a])) ]}.

(** Multibase text whose bytes are the multicodec prefix of an Ed25519 key
    followed by 31 bytes, one short of a key. *)
Definition short_ed25519_multibase : string :=
  String "z" (string_of_list_byte ([xed; x01] ++ replicate 31 x07)%list).

Definition ALICE_KID : string := "did:example:alice#key-1".
Definition BOB_KID : string := "did:example:bob#key-1".
Definition CAROL_KID : string := "did:example:carol#key-2".

(** [b"Expecto patronum"] *)
Definition MESSAGE : bytes := list_byte_of_string "Expecto patronum".

Definition alice_sk : Key :=
  mkKey X25519 (replicate 32 x0a) (Some (replicate 32 xa0)).
Definition bob_sk : Key :=
  mkKey X25519 (replicate 32 x0b) (Some (replicate 32 xb0)).
Definition carol_sk : Key :=
  mkKey X25519 (replicate 32 x0c) (Some (replicate 32 xc0)).
Definition dave_pk : Key := mkKey ED25519 (replicate 32 x0d) None.

Definition alice_key : AskarKey := Toy.x25519_key (public_of alice_sk) ALICE_KID.
Definition alice_priv_key : AskarKey := Toy.x25519_key alice_sk ALICE_KID.
Definition bob_key : AskarKey := Toy.x25519_key (public_of bob_sk) BOB_KID.
Definition bob_priv_key : AskarKey := Toy.x25519_key bob_sk BOB_KID.
Definition carol_key : AskarKey :=
  Toy.x25519_key (public_of carol_sk) CAROL_KID.
Definition carol_priv_key : AskarKey := Toy.x25519_key carol_sk CAROL_KID.
Definition dave_key : AskarKey :=
  mkAskarKey dave_pk "did:example:dave#key-1" "".

(** A world whose library has material for three keys or nonces. *)
Definition supply1 : bytes := replicate 32 x01.
Definition supply2 : bytes := replicate 32 x02.
Definition supply3 : bytes := replicate 12 x03.

Definition w0 : World :=
  mkWorld (H := Toy.askar) [supply1; supply2; supply3] [].

(** The ephemeral key the library generates second in [w0]. *)
Definition epk0 : Key := mkKey X25519 supply2 (Some (rev supply2)).

(** The envelope of an anonymous encryption of [MESSAGE] to Bob in [w0]. *)
Definition bob_es_envelope : JweEnvelope :=
  mkJweEnvelope es_protected (aad_of es_protected) ∅
    [ mkJweRecipient supply1
        {[ "kid" := JStr BOB_KID; "epk" := JStr (get_jwk_public epk0) ]} ]
    supply3 MESSAGE (aad_of es_protected).

(** The envelope of an authenticated encryption of [MESSAGE] by Alice in
    [w0] to the recipients with the given kids. *)
Definition alice_pu_envelope (kids : list string) : JweEnvelope :=
  let hdr := pu_protected ALICE_KID epk0 kids in
  mkJweEnvelope hdr (aad_of hdr) ∅
    (map (λ k, mkJweRecipient supply1 {[ "kid" := JStr k ]}) kids)
    supply3 MESSAGE (aad_of hdr).

(** An authenticated envelope that names [XC20P] as content encryption. *)
Definition envelope_xc20p : JweEnvelope :=
  mkJweEnvelope
    {[ "alg" := JStr "ECDH-1PU+A256KW"; "enc" := JStr "XC20P" ]}
    [] ∅ [mkJweRecipient [] {[ "kid" := JStr BOB_KID ]}] [] [] [].

(** An anonymous envelope with an unknown content encryption. *)
Definition envelope_rot13 : JweEnvelope :=
  mkJweEnvelope
    {[ "alg" := JStr "ECDH-ES+A256KW"; "enc" := JStr "ROT13" ]}
    [] ∅ [mkJweRecipient [] {[ "kid" := JStr BOB_KID ]}] [] [] [].

(** An anonymous envelope whose encrypted key the library cannot unwrap. *)
Definition envelope_bad_key : JweEnvelope :=
  mkJweEnvelope
    {[ "alg" := JStr "ECDH-ES+A256KW"; "enc" := JStr "A128GCM" ]}
    [] ∅
    [mkJweRecipient [x00] {[ "kid" := JStr BOB_KID; "epk" := JStr "Xepk" ]}]
    [] [] [].

(** An anonymous envelope whose tag does not match its header. *)
Definition envelope_bad_tag : JweEnvelope :=
  mkJweEnvelope
    {[ "alg" := JStr "ECDH-ES+A256KW"; "enc" := JStr "XC20P" ]}
    [x01] ∅
    [mkJweRecipient [x00] {[ "kid" := JStr BOB_KID; "epk" := JStr "Xepk" ]}]
    [] [] [x02].

(** An authenticated envelope whose encrypted key the library cannot
    unwrap. *)
Definition envelope_pu_bad_key : JweEnvelope :=
  mkJweEnvelope
    {[ "alg" := JStr "ECDH-1PU+A256KW"; "enc" := JStr "A128CBC-HS256";
       "epk" := JObj [("jwk", JStr "Xepk")] ]}
    [] ∅ [mkJweRecipient [x00] {[ "kid" := JStr BOB_KID ]}] [] [] [].

(** An authenticated envelope whose tag does not match its header. *)
Definition envelope_pu_bad_tag : JweEnvelope :=
  mkJweEnvelope
    {[ "alg" := JStr "ECDH-1PU+A256KW"; "enc" := JStr "A256CBC-HS512";
       "epk" := JObj [("jwk", JStr "Xepk")] ]}
    [x01] ∅ [mkJweRecipient [x00] {[ "kid" := JStr BOB_KID ]}] [] [] [x02].

(** The ephemeral key that the envelopes above carry. *)
Definition epk_text : Key := mkKey X25519 (list_byte_of_string "epk") None.

(** Multibase text of a multicodec-wrapped P-256 key, a codec that
    [codec_to_alg] does not hold. *)
Definition p256_multibase : string :=
  String "z" (string_of_list_byte ([x80; x24] ++ replicate 33 x07)%list).

(** Multibase text of 32 raw key bytes, and of a multicodec-wrapped
    Ed25519 key. *)
Definition raw_multibase : string := "z0123456789abcdef0123456789abcdef".
Definition ed25519_multibase : string :=
  String "z" (string_of_list_byte ([xed; x01] ++ replicate 32 x07)%list).

(** Recipient mappings: Bob and Carol in both orders, and Bob with Dave,
    whose key is an Ed25519 key. *)
Definition bob_carol : list (string * AskarKey) :=
  [(BOB_KID, bob_key); (CAROL_KID, carol_key)].
Definition carol_bob : list (string * AskarKey) :=
  [(CAROL_KID, carol_key); (BOB_KID, bob_key)].
Definition bob_dave : list (string * AskarKey) :=
  [(BOB_KID, bob_key); ("did:example:dave#key-1", dave_key)].

(** A verification method with an absolute id, and one without an id. *)
Definition vm_absolute : gmap string string :=
  {[ "id" := "did:example:123#key-1";
     "type" := "X25519KeyAgreementKey2020";
     "publicKeyMultiBase" := "z0123456789abcdef0123456789abcdef";
     "controller" := "did:example:123" ]}.

Definition vm_no_id : gmap string string :=
  {[ "type" := "X25519KeyAgreementKey2020";
     "publicKeyMultiBase" := "z0123456789abcdef0123456789abcdef";
     "controller" := "did:example:123" ]}.

(** The key objects the two methods above resolve to in [Toy]. *)
Definition raw_key : Key :=
  mkKey X25519 (list_byte_of_string "0123456789abcdef0123456789abcdef") None.
Definition resolved_fragment : AskarKey :=
  Toy.x25519_key raw_key "did:example:123##6LSqPZfn".
Definition resolved_absolute : AskarKey :=
  Toy.x25519_key raw_key "did:example:123#key-1".

(** An anonymous envelope that the library of [Toy] decrypts for Bob. *)
Definition envelope_good : JweEnvelope :=
  mkJweEnvelope
    {[ "alg" := JStr "ECDH-ES+A256KW"; "enc" := JStr "XC20P" ]}
    [x01] ∅
    [mkJweRecipient [x00] {[ "kid" := JStr BOB_KID; "epk" := JStr "Xepk" ]}]
    [] MESSAGE [x01].

(** An anonymous envelope whose recipient entry has no ephemeral key. *)
Definition envelope_no_epk : JweEnvelope :=
  mkJweEnvelope
    {[ "alg" := JStr "ECDH-ES+A256KW"; "enc" := JStr "XC20P" ]}
    [x01] ∅ [mkJweRecipient [x00] {[ "kid" := JStr BOB_KID ]}]
    [] MESSAGE [x01].

(** A world whose library has material for four keys or nonces. *)
Definition w1 : World :=
  mkWorld (H := Toy.askar) [supply1; supply2; supply1; supply3] [].

(** The ephemeral key the library generates third in [w1]. *)
Definition epk1 : Key := mkKey X25519 supply1 (Some (rev supply1)).

(** The envelope of an anonymous encryption of [MESSAGE] to Bob and Carol
    in [w1]. *)
Definition bob_carol_es_envelope : JweEnvelope :=
  mkJweEnvelope es_protected (aad_of es_protected) ∅
    [ mkJweRecipient supply1
        {[ "kid" := JStr BOB_KID; "epk" := JStr (get_jwk_public epk0) ]};
      mkJweRecipient supply1
        {[ "kid" := JStr CAROL_KID; "epk" := JStr (get_jwk_public epk1) ]} ]
    supply3 MESSAGE (aad_of es_protected).

(** A method of a legacy type whose base58 material is too short to be a
    key. *)
Definition vm_short_base58 : gmap string string :=
  {[ "id" := "did:example:123#key-1";
     "type" := "X25519KeyAgreementKey2020";
     "publicKeyBase58" := "0123456789abcdef";
     "controller" := "did:example:123" ]}.

(** The world [w0] for the library that refuses to wrap. *)
Definition w_refusing : World (H := Toy.askar_refusing) :=
  mkWorld (H := Toy.askar_refusing) [supply1; supply2; supply3] [].

(** * Properties *)

Section key_properties.
Context `{Askar} `{Multiformats}.

Lemma str_truthy_Some (s : option string) :
  str_truthy s = true → ∃ s', s = Some s' ∧ s' ≠ "".
Proof.
  destruct s as [s'|]; simpl; [|discriminate].
  intros Hs. exists s'. split; [done|]. intros ->. discriminate.
Qed.

(** The kid of a method whose id is a fragment is the controller, a [#],
    and the id, which itself starts with [#]. *)
Lemma from_verification_method_fragment_kid vm ident controller k :
  vm !! "id" = Some ident →
  vm !! "controller" = Some controller →
  String.prefix "#" ident = true →
  from_verification_method vm = inr k →
  kid k = controller ++ "#" ++ ident.
Proof.
  intros Hid Hc Hpre. unfold from_verification_method.
  rewrite Hid, Hc. simpl. rewrite Hpre.
  repeat case_match; try discriminate;
    unfold rbind, AskarKey_init in *; repeat case_match; try discriminate;
    intros [= <-]; reflexivity.
Qed.

(** C2. Resolution of the verification method of the test suite: the code
    looks the key material up under [publicKeyMultiBase], finds neither that
    nor [publicKeyBase58] in the record, and raises [ValueError]; no key, and
    so no kid, is produced. *)
Theorem from_verification_method_example :
  from_verification_method vm_example
  = inl (ValueError
           "One of public_key_multibase or public_key_base58 must be given)").
Proof. reflexivity. Qed.

(** C7 (as amended). Key material of a legacy verification-method type:
    both encodings given, or neither, is an error; multibase material that
    decodes to exactly 32 bytes is imported as raw bytes under the expected
    algorithm; material of any other length is unwrapped as a multikey: an
    unrecognised codec fails with the unsupported-key-type error, bytes that
    do not import under the codec's algorithm fail with the invalid-key
    error, and once the bytes import, the result is the algorithm-mismatch
    error exactly when that key's algorithm differs from the expected one.
    The mismatch error has no other cause. *)
Theorem expected_alg_and_material_spec (alg : KeyAlg) (mb b58 : option string) :
  (str_truthy mb = true → str_truthy b58 = true →
   _expected_alg_and_material_to_key alg mb b58
   = inl (ValueError
            "Only one of public_key_multibase or public_key_base58 must be given"))
  ∧ (str_truthy mb = false → str_truthy b58 = false →
     _expected_alg_and_material_to_key alg mb b58
     = inl (ValueError
              "One of public_key_multibase or public_key_base58 must be given)"))
  ∧ (∀ s decoded,
       mb = Some s → s ≠ "" → str_truthy b58 = false →
       multibase_decode s = Some decoded →
       (length decoded = 32%nat →
        _expected_alg_and_material_to_key alg mb b58
        = match Key_from_public_bytes alg decoded with
          | Some k => inr k
          | None => inl (ValueError "Invalid key")
          end)
       ∧ (∀ codec raw,
            length decoded ≠ 32%nat →
            multicodec_unwrap decoded = Some (codec, raw) →
            (table_get codec codec_to_alg = None →
             _expected_alg_and_material_to_key alg mb b58
             = inl (ValueError "Unsupported key type: {codec.name}"))
            ∧ (∀ alg',
                 table_get codec codec_to_alg = Some alg' →
                 (Key_from_public_bytes alg' raw = None →
                  _expected_alg_and_material_to_key alg mb b58
                  = inl (ValueError "Invalid key"))
                 ∧ (∀ k,
                      Key_from_public_bytes alg' raw = Some k →
                      _expected_alg_and_material_to_key alg mb b58
                      = if bool_decide (algorithm k ≠ alg)
                        then inl (ValueError "Type and algorithm mismatch")
                        else inr k))))
  ∧ (_expected_alg_and_material_to_key alg mb b58
     = inl (ValueError "Type and algorithm mismatch") ↔
     ∃ s decoded codec raw alg' k,
       mb = Some s ∧ s ≠ "" ∧ str_truthy b58 = false
       ∧ multibase_decode s = Some decoded
       ∧ length decoded ≠ 32%nat
       ∧ multicodec_unwrap decoded = Some (codec, raw)
       ∧ table_get codec codec_to_alg = Some alg'
       ∧ Key_from_public_bytes alg' raw = Some k
       ∧ algorithm k ≠ alg).
Proof.
  assert (∀ s : string, s ≠ "" → str_truthy (Some s) = true) as Htruthy.
  { intros s Hs. simpl.
    destruct (String.eqb_spec s ""); [contradiction|reflexivity]. }
  unfold _expected_alg_and_material_to_key. split; [|split; [|split]].
  - intros -> ->. reflexivity.
  - intros -> ->. reflexivity.
  - intros s decoded -> Hs Hb Hdec.
    rewrite (Htruthy s Hs), Hb. cbn [negb andb].
    change (default "" (Some s)) with s. rewrite Hdec. split.
    + intros Hlen. rewrite bool_decide_eq_true_2 by exact Hlen.
      destruct (Key_from_public_bytes alg decoded); reflexivity.
    + intros codec raw Hlen Hun.
      rewrite bool_decide_eq_false_2 by exact Hlen.
      unfold _multikey_to_key. rewrite Hdec, Hun. split.
      * intros ->. reflexivity.
      * intros alg' ->. split.
        -- intros ->. reflexivity.
        -- intros k ->. reflexivity.
  - split.
    + destruct (str_truthy mb) eqn:Hmb, (str_truthy b58) eqn:Hb;
        cbn [andb negb]; try discriminate.
      * apply str_truthy_Some in Hmb as (s & -> & Hs).
        change (default "" (Some s)) with s.
        destruct (multibase_decode s) as [decoded|] eqn:Hdec;
          [|discriminate].
        case_bool_decide as Hlen.
        { destruct (Key_from_public_bytes alg decoded); discriminate. }
        unfold _multikey_to_key. rewrite Hdec.
        destruct (multicodec_unwrap decoded) as [[codec raw]|] eqn:Hun;
          [|discriminate].
        destruct (table_get codec codec_to_alg) as [alg'|] eqn:Htab;
          [|discriminate].
        destruct (Key_from_public_bytes alg' raw) as [k|] eqn:Hk;
          [|discriminate].
        cbn [rbind]. case_bool_decide as Halg; [|discriminate].
        intros _. by exists s, decoded, codec, raw, alg', k.
      * destruct (multibase_decode _); [|discriminate].
        destruct (Key_from_public_bytes _ _); discriminate.
    + intros (s & decoded & codec & raw & alg' & k & -> & Hs & Hb & Hdec
              & Hlen & Hun & Htab & Hk & Halg).
      rewrite (Htruthy s Hs), Hb. cbn [negb andb].
      change (default "" (Some s)) with s. rewrite Hdec.
      rewrite bool_decide_eq_false_2 by exact Hlen.
      unfold _multikey_to_key. rewrite Hdec, Hun, Htab, Hk. cbn [rbind].
      by rewrite bool_decide_eq_true_2.
Qed.

(** C10 (as amended). [fetch_key_by_kid] returns [None] exactly when the
    store holds no entry for the kid; for an entry whose key is an Ed25519,
    X25519 or secp256k1 key it returns that key under the requested kid; for
    an entry of any other algorithm the key wrapper's constructor raises
    [ValueError]. *)
Theorem fetch_key_by_kid_spec (self : AskarWithStore) (k : string) :
  (fetch_key_by_kid self k = inr None ↔ store self !! k = None)
  ∧ (∀ e, store self !! k = Some e →
       if bool_decide (algorithm (entry_key e) ∈ [ED25519; X25519; K256])
       then ∃ ak, fetch_key_by_kid self k = inr (Some ak)
                  ∧ kid ak = k ∧ key ak = entry_key e
       else fetch_key_by_kid self k = inl (ValueError "Unsupported key type")).
Proof.
  unfold fetch_key_by_kid, AskarKey_init. split.
  - destruct (store self !! k) as [e|]; [|done].
    split; [|discriminate].
    destruct (algorithm (entry_key e)); simpl; discriminate.
  - intros e ->. destruct (algorithm (entry_key e)) eqn:Ha; simpl;
      first [ reflexivity | eexists; split; [reflexivity|]; split; done ].
Qed.

End key_properties.

(** C7, the claim as stated fails: multicodec-wrapped Ed25519 material whose
    key is one byte short, resolved for an X25519 method.  The embedded
    codec's algorithm differs from the expected one, and the error is the
    invalid-key one of the import, not the mismatch. *)
Lemma expected_alg_and_material_invalid_first :
  ∃ decoded raw,
    multibase_decode short_ed25519_multibase = Some decoded
    ∧ length decoded ≠ 32%nat
    ∧ multicodec_unwrap decoded = Some ("ed25519-pub", raw)
    ∧ table_get "ed25519-pub" codec_to_alg = Some ED25519
    ∧ ED25519 ≠ X25519
    ∧ _expected_alg_and_material_to_key X25519
        (Some short_ed25519_multibase) None
      = inl (ValueError "Invalid key")
    ∧ _expected_alg_and_material_to_key X25519
        (Some short_ed25519_multibase) None
      ≠ inl (ValueError "Type and algorithm mismatch").
Proof.
  exists ([xed; x01] ++ replicate 31 x07)%list, (replicate 31 x07).
  repeat split; try reflexivity; discriminate.
Qed.

(** C10, the claim as stated fails: the store holds an entry for the kid, a
    content-encryption key, and the lookup returns no key object but raises. *)
Lemma fetch_key_by_kid_unsupported :
  store store_example !! "did:example:alice#cek" ≠ None
  ∧ fetch_key_by_kid store_example "did:example:alice#cek"
    = inl (ValueError "Unsupported key type")
  ∧ ¬ ∃ ak, fetch_key_by_kid store_example "did:example:alice#cek"
            = inr (Some ak).
Proof.
  split; [vm_compute; discriminate|]. split; [reflexivity|].
  intros [ak Hak]. vm_compute in Hak. discriminate.
Qed.

Section service_properties.
Context `{Askar} `{Wire}.

Lemma try_except_call {A} (ev : Event) (r : option A) (e : exn) (w : World) :
  try_except (call ev r) e w
  = (match r with Some a => inr a | None => inl e end, logged ev w).
Proof. unfold try_except, call, mbind, log, mret, raise. by destruct r. Qed.

Lemma call_run {A} (ev : Event) (r : option A) (w : World) :
  call ev r w
  = (match r with Some a => inr a | None => inl AskarError end, logged ev w).
Proof. unfold call, mbind, log, mret, raise. by destruct r. Qed.

Lemma call_random_run {A} ev (f : Entropy → option A * Entropy) w :
  call_random ev f w
  = (match (f (entropy w)).1 with Some a => inr a | None => inl AskarError end,
     mkWorld (f (entropy w)).2 (trace w ++ [ev])).
Proof.
  unfold call_random, mbind, log, logged. simpl. by destruct (f (entropy w)).
Qed.

Lemma try_except_call_random {A} ev (f : Entropy → option A * Entropy) e w :
  try_except (call_random ev f) e w
  = (match (f (entropy w)).1 with Some a => inr a | None => inl e end,
     mkWorld (f (entropy w)).2 (trace w ++ [ev])).
Proof.
  unfold try_except. rewrite call_random_run.
  by destruct (f (entropy w)) as [[a|] s].
Qed.

(** C8. With no recipients both encryptions raise their no-recipients
    error and leave the world as it was: no key has been generated, no
    library call made, no envelope returned. *)
Theorem no_recipients_rejected (message : bytes) (sender_kid : string)
    (sender_key : AskarKey) (w : World) :
  ecdh_es_encrypt [] message w
  = (inl (ValueError "No message recipients"), w)
  ∧ ecdh_1pu_encrypt [] sender_kid sender_key message w
    = (inl (CryptoServiceError "No message recipients"), w).
Proof. split; reflexivity. Qed.

End service_properties.

Section decrypt_properties.
Context `{Askar} `{Wire}.

Lemma checked_in_unsupported (l : list string) (v : option JVal) :
  ¬ supported l v → checked_in v l = None.
Proof.
  intros Hn. destruct v as [[]|]; simpl; try done; try by case_match.
  destruct (negb _); [|done].
  case_bool_decide; [|done]. exfalso. apply Hn. by eexists.
Qed.

Lemma checked_in_supported (l : list string) (v : option JVal) (s : string) :
  checked_in v l = Some s → v = Some (JStr s) ∧ s ∈ l.
Proof.
  destruct v as [[]|]; simpl; try done; try by case_match.
  destruct (negb _); [|done].
  case_bool_decide; [|done]. by intros [= ->].
Qed.

(** C5. An envelope whose content encryption is not supported is rejected
    with the service's error and the world is left as it was, so no key has
    been loaded or used: anonymous decryption accepts the five algorithms of
    [es_enc_algs] in the header of the recipient it found, authenticated
    decryption the two of [pu_enc_algs] in the protected header, which leaves
    [XC20P] out. *)
Theorem unsupported_enc_rejected (wrapper : Wrapper) (e : JweEnvelope)
    (recip_key sender_key : AskarKey) (w : World) :
  parse_wrapper wrapper = inr e →
  ((∀ recip, get_recipient e (kid recip_key) = Some recip →
             ¬ supported es_enc_algs (header recip !! "enc")) →
   ∃ msg, ecdh_es_decrypt wrapper recip_key w
          = (inl (CryptoServiceError msg), w))
  ∧ (¬ supported pu_enc_algs (protected e !! "enc") →
     ∃ msg, ecdh_1pu_decrypt wrapper recip_key sender_key w
            = (inl (CryptoServiceError msg), w))
  ∧ (protected e !! "enc" = Some (JStr "XC20P") →
     ∃ msg, ecdh_1pu_decrypt wrapper recip_key sender_key w
            = (inl (CryptoServiceError msg), w)).
Proof.
  intros Hparse.
  assert (¬ supported pu_enc_algs (protected e !! "enc") →
          ∃ msg, ecdh_1pu_decrypt wrapper recip_key sender_key w
                 = (inl (CryptoServiceError msg), w)) as Hpu.
  { intros Hn. unfold ecdh_1pu_decrypt, mbind, lift, raise.
    rewrite Hparse. destruct (checked_in (protected e !! "alg") _).
    - fold pu_enc_algs. rewrite (checked_in_unsupported _ _ Hn). by eexists.
    - by eexists. }
  split; [|split].
  - intros Hn. unfold ecdh_es_decrypt, mbind, lift, raise.
    rewrite Hparse. destruct (checked_in (protected e !! "alg") _).
    + destruct (get_recipient e (kid recip_key)) as [recip|] eqn:Hr.
      * fold es_enc_algs.
        rewrite (checked_in_unsupported _ _ (Hn recip eq_refl)). by eexists.
      * by eexists.
    + by eexists.
  - exact Hpu.
  - intros Henc. apply Hpu. rewrite Henc. intros (s & Heq & Hs).
    injection Heq as <-.
    refine (bool_decide_eq_false_1 _ _ Hs). reflexivity.
Qed.

Lemma mbind_lift {A B} (r : Result A) (f : A → M B) (w : World) :
  mbind (lift r) f w = match r with inl e => (inl e, w) | inr a => f a w end.
Proof. unfold mbind, lift. by destruct r. Qed.

(** A guarded library call followed by the rest of the run: the run fails
    either because the call did, with the error of the guard, or later. *)
Lemma mbind_try_call_inl {A B} (ev : Event) (r : option A) (msg : string)
    (f : A → M B) (w w' : World) (err : exn) :
  mbind (try_except (call ev r) (CryptoServiceError msg)) f w = (inl err, w') →
  (r = None ∧ err = CryptoServiceError msg ∧ w' = logged ev w)
  ∨ (∃ a, r = Some a ∧ f a (logged ev w) = (inl err, w')).
Proof.
  unfold mbind. rewrite try_except_call. destruct r as [a|].
  - intros Hk. right. by exists a.
  - intros [= <- <-]. by left.
Qed.

Lemma opaque_failure_unreached (w : World) (err : exn) :
  err ≠ AskarError → opaque_failure w w err.
Proof.
  intros Hne. split; [done|]. exists []. rewrite app_nil_r.
  repeat split; done.
Qed.

Lemma opaque_failure_logged (w : World) (evs : list Event) (w' : World)
    (msg : string) :
  trace w' = (trace w ++ evs)%list →
  (∀ ev, last evs = Some ev → is_unwrap ev = true →
         msg = "Error decrypting content encryption key") →
  (∀ ev, last evs = Some ev → is_aead_decrypt ev = true →
         msg = "Error decrypting message payload") →
  opaque_failure w w' (CryptoServiceError msg).
Proof.
  intros Htr Hu Ha. split; [done|]. exists evs.
  split; [done|]. split; [|split].
  - intros ev Hl Hev. by rewrite (Hu ev Hl Hev).
  - intros ev Hl Hev. by rewrite (Ha ev Hl Hev).
  - done.
Qed.

Ltac decrypt_leaf :=
  match goal with
  | H : raise _ _ = (inl _, _) |- _ =>
      injection H as <- <-; by apply opaque_failure_unreached
  | H : (inl _, _) = (inl _, _) |- _ =>
      injection H as <- <-; by apply opaque_failure_unreached
  end.

Ltac logged_leaf :=
  eapply opaque_failure_logged;
  [ unfold logged; simpl; rewrite <- ?app_assoc; reflexivity
  | intros ? [= <-] ?; first [discriminate | reflexivity] .. ].

Lemma mbind_try_call_eq {A B} (ev : Event) (r : option A) (e : exn)
    (f : A → M B) (w : World) :
  mbind (try_except (call ev r) e) f w
  = match r with
    | Some a => f a (logged ev w)
    | None => (inl e, logged ev w)
    end.
Proof. unfold mbind. rewrite try_except_call. by destruct r. Qed.

Lemma checked_in_Some (l : list string) (s : string) :
  s ∈ l → s ≠ "" → checked_in (Some (JStr s)) l = Some s.
Proof.
  intros Hin Hne. simpl. destruct (String.eqb_spec s ""); [done|].
  simpl. by rewrite bool_decide_eq_true_2.
Qed.

Lemma listed_nonempty (l : list string) (s : string) :
  s ∈ l → bool_decide ("" ∈ l) = false → s ≠ "".
Proof. intros Hs Hl ->. by apply bool_decide_eq_false_1 in Hl. Qed.

(** C6. On both decryption paths, once the checks have passed and the
    ephemeral key is loaded, a failure of the library's unwrap call and a
    failure of its payload decryption each end the decryption in
    [CryptoServiceError], with no further call; and no decryption that fails,
    for whatever reason, hands the library's own error to the caller: every
    failure after the library was reached has the type [CryptoServiceError],
    so the type of the error does not tell a wrong key from a tampered
    ciphertext. *)
Theorem decrypt_failures_opaque (wrapper : Wrapper)
    (recip_key sender_key : AskarKey) (w : World) :
  (∀ w' err,
     ecdh_es_decrypt wrapper recip_key w = (inl err, w')
     ∨ ecdh_1pu_decrypt wrapper recip_key sender_key w = (inl err, w') →
     opaque_failure w w' err)
  ∧ (∀ e recip alg_id enc_alg epk_header epk,
       es_checked wrapper recip_key e recip alg_id enc_alg epk_header →
       Key_from_jwk epk_header = Some epk →
       (EcdhEs_receiver_unwrap_key alg_id (header recip !! "apu")
          (header recip !! "apv") (ByName (str_from 8 alg_id)) enc_alg epk
          (key recip_key) (encrypted_key recip) = None →
        ecdh_es_decrypt wrapper recip_key w
        = (inl (CryptoServiceError "Error decrypting content encryption key"),
           mkWorld (entropy w)
             (trace w
              ++ [ EvFromJwk epk_header;
                   EvEsUnwrap alg_id (header recip !! "apu")
                     (header recip !! "apv") (ByName (str_from 8 alg_id))
                     enc_alg epk (key recip_key) (encrypted_key recip) ])))
       ∧ (∀ cek,
            EcdhEs_receiver_unwrap_key alg_id (header recip !! "apu")
              (header recip !! "apv") (ByName (str_from 8 alg_id)) enc_alg
              epk (key recip_key) (encrypted_key recip) = Some cek →
            aead_decrypt cek (ciphertext e) (iv e) (tag e) (combined_aad e)
            = None →
            ecdh_es_decrypt wrapper recip_key w
            = (inl (CryptoServiceError "Error decrypting message payload"),
               mkWorld (entropy w)
                 (trace w
                  ++ [ EvFromJwk epk_header;
                       EvEsUnwrap alg_id (header recip !! "apu")
                         (header recip !! "apv") (ByName (str_from 8 alg_id))
                         enc_alg epk (key recip_key) (encrypted_key recip);
                       EvAeadDecrypt cek (ciphertext e) (iv e) (tag e)
                         (combined_aad e) ]))))
  ∧ (∀ e recip alg_id enc_alg epk_header epk,
       pu_checked wrapper recip_key e recip alg_id enc_alg epk_header →
       Key_from_jwk epk_header = Some epk →
       (Ecdh1PU_receiver_unwrap_key alg_id (protected e !! "apu")
          (protected e !! "apv") (ByName (str_from 9 alg_id)) enc_alg epk
          (key sender_key) (key recip_key) (encrypted_key recip) (tag e)
        = None →
        ecdh_1pu_decrypt wrapper recip_key sender_key w
        = (inl (CryptoServiceError "Error decrypting content encryption key"),
           mkWorld (entropy w)
             (trace w
              ++ [ EvFromJwk epk_header;
                   Ev1puUnwrap alg_id (protected e !! "apu")
                     (protected e !! "apv") (ByName (str_from 9 alg_id))
                     enc_alg epk (key sender_key) (key recip_key)
                     (encrypted_key recip) (tag e) ])))
       ∧ (∀ cek,
            Ecdh1PU_receiver_unwrap_key alg_id (protected e !! "apu")
              (protected e !! "apv") (ByName (str_from 9 alg_id)) enc_alg
              epk (key sender_key) (key recip_key) (encrypted_key recip)
              (tag e) = Some cek →
            aead_decrypt cek (ciphertext e) (iv e) (tag e) (combined_aad e)
            = None →
            ecdh_1pu_decrypt wrapper recip_key sender_key w
            = (inl (CryptoServiceError "Error decrypting message payload"),
               mkWorld (entropy w)
                 (trace w
                  ++ [ EvFromJwk epk_header;
                       Ev1puUnwrap alg_id (protected e !! "apu")
                         (protected e !! "apv") (ByName (str_from 9 alg_id))
                         enc_alg epk (key sender_key) (key recip_key)
                         (encrypted_key recip) (tag e);
                       EvAeadDecrypt cek (ciphertext e) (iv e) (tag e)
                         (combined_aad e) ])))).
Proof.
  split; [|split].
  - intros w' err [Hrun|Hrun].
    + unfold ecdh_es_decrypt in Hrun. rewrite mbind_lift in Hrun.
      destruct (parse_wrapper wrapper) as [e0|e] eqn:Hparse.
      { unfold parse_wrapper in Hparse.
        injection Hrun as <- <-. apply opaque_failure_unreached.
        repeat case_match; by simplify_eq. }
      repeat (case_match; try decrypt_leaf).
      apply mbind_try_call_inl in Hrun as [(_ & -> & ->)|(epk & _ & Hrun)].
      { logged_leaf. }
      apply mbind_try_call_inl in Hrun as [(_ & -> & ->)|(cek & _ & Hrun)].
      { logged_leaf. }
      apply mbind_try_call_inl in Hrun as [(_ & -> & ->)|(pt & _ & Hrun)].
      { logged_leaf. }
      discriminate.
    + unfold ecdh_1pu_decrypt in Hrun. rewrite mbind_lift in Hrun.
      destruct (parse_wrapper wrapper) as [e0|e] eqn:Hparse.
      { unfold parse_wrapper in Hparse.
        injection Hrun as <- <-. apply opaque_failure_unreached.
        repeat case_match; by simplify_eq. }
      repeat (case_match; try decrypt_leaf).
      apply mbind_try_call_inl in Hrun as [(_ & -> & ->)|(epk & _ & Hrun)].
      { logged_leaf. }
      apply mbind_try_call_inl in Hrun as [(_ & -> & ->)|(cek & _ & Hrun)].
      { logged_leaf. }
      apply mbind_try_call_inl in Hrun as [(_ & -> & ->)|(pt & _ & Hrun)].
      { logged_leaf. }
      discriminate.
  - intros e recip alg_id enc_alg epk_header epk
      (Hparse & Halg & Halg_in & Hrecip & Henc & Henc_in & Hepk & Htruthy)
      Hload.
    assert (ecdh_es_decrypt wrapper recip_key w
            = mbind
                (try_except
                   (es_receiver_unwrap_key alg_id (header recip !! "apu")
                      (header recip !! "apv") (ByName (str_from 8 alg_id))
                      enc_alg epk (key recip_key) (encrypted_key recip))
                   (CryptoServiceError
                      "Error decrypting content encryption key"))
                (λ cek,
                  mbind
                    (try_except
                       (key_aead_decrypt cek (ciphertext e) (iv e) (tag e)
                          (combined_aad e))
                       (CryptoServiceError "Error decrypting message payload"))
                    mret)
                (logged (EvFromJwk epk_header) w)) as ->.
    { unfold ecdh_es_decrypt. rewrite mbind_lift, Hparse, Halg.
      fold es_algs es_enc_algs.
      rewrite (checked_in_Some es_algs alg_id Halg_in)
        by (by eapply listed_nonempty).
      rewrite Hrecip, Henc.
      rewrite (checked_in_Some es_enc_algs enc_alg Henc_in)
        by (by eapply listed_nonempty).
      rewrite Hepk, Htruthy. unfold from_jwk.
      by rewrite mbind_try_call_eq, Hload. }
    unfold es_receiver_unwrap_key. rewrite mbind_try_call_eq. split.
    + intros ->. unfold logged. cbn [entropy trace].
      by rewrite <-app_assoc.
    + intros cek -> Hdec. unfold key_aead_decrypt.
      rewrite mbind_try_call_eq, Hdec. unfold logged. cbn [entropy trace].
      by rewrite <-!app_assoc.
  - intros e recip alg_id enc_alg epk_header epk
      (Hparse & Halg & Halg_in & Henc & Henc_in & Hrecip & Hepk & Htruthy)
      Hload.
    assert (ecdh_1pu_decrypt wrapper recip_key sender_key w
            = mbind
                (try_except
                   (pu_receiver_unwrap_key alg_id (protected e !! "apu")
                      (protected e !! "apv") (ByName (str_from 9 alg_id))
                      enc_alg epk (key sender_key) (key recip_key)
                      (encrypted_key recip) (tag e))
                   (CryptoServiceError
                      "Error decrypting content encryption key"))
                (λ cek,
                  mbind
                    (try_except
                       (key_aead_decrypt cek (ciphertext e) (iv e) (tag e)
                          (combined_aad e))
                       (CryptoServiceError "Error decrypting message payload"))
                    mret)
                (logged (EvFromJwk epk_header) w)) as ->.
    { unfold ecdh_1pu_decrypt. rewrite mbind_lift, Hparse, Halg.
      fold pu_algs pu_enc_algs.
      rewrite (checked_in_Some pu_algs alg_id Halg_in)
        by (by eapply listed_nonempty).
      rewrite Henc.
      rewrite (checked_in_Some pu_enc_algs enc_alg Henc_in)
        by (by eapply listed_nonempty).
      rewrite Hrecip, Hepk, Htruthy. unfold from_jwk.
      by rewrite mbind_try_call_eq, Hload. }
    unfold pu_receiver_unwrap_key. rewrite mbind_try_call_eq. split.
    + intros ->. unfold logged. cbn [entropy trace].
      by rewrite <-app_assoc.
    + intros cek -> Hdec. unfold key_aead_decrypt.
      rewrite mbind_try_call_eq, Hdec. unfold logged. cbn [entropy trace].
      by rewrite <-!app_assoc.
Qed.

End decrypt_properties.

Section encrypt_properties.
Context `{Askar} `{Wire}.

Lemma mbind_try_call_random {A B} ev (g : Entropy → option A * Entropy) e
    (f : A → M B) w :
  mbind (try_except (call_random ev g) e) f w
  = match (g (entropy w)).1 with
    | Some a => f a (mkWorld (g (entropy w)).2 (trace w ++ [ev]))
    | None => (inl e, mkWorld (g (entropy w)).2 (trace w ++ [ev]))
    end.
Proof.
  unfold mbind. rewrite try_except_call_random.
  by destruct (g (entropy w)) as [[a|] s].
Qed.

Lemma mbind_call {A B} ev (r : option A) (f : A → M B) w :
  mbind (call ev r) f w
  = match r with
    | Some a => f a (logged ev w)
    | None => (inl AskarError, logged ev w)
    end.
Proof. unfold mbind. rewrite call_run. by destruct r. Qed.

Lemma mbind_log {B} ev (f : unit → M B) w :
  mbind (log ev) f w = f tt (logged ev w).
Proof. reflexivity. Qed.

Lemma mbind_set_protected {B} h b (f : JweBuilder → M B) w :
  mbind (set_protected h b) f w
  = f (mkJweBuilder (Some h) (b_recipients b) (b_payload b))
      (logged (EvSetProtected h) w).
Proof. reflexivity. Qed.

Lemma mbind_add_recipient {B} r b (f : JweBuilder → M B) w :
  mbind (add_recipient r b) f w
  = f (mkJweBuilder (b_protected b) (b_recipients b ++ [r]) (b_payload b))
      (logged (EvAddRecipient r) w).
Proof. reflexivity. Qed.

Lemma mbind_set_payload {B} ct nonce tg b (f : JweBuilder → M B) w :
  mbind (set_payload ct nonce tg b) f w
  = f (mkJweBuilder (b_protected b) (b_recipients b)
         (Some (mkEncrypted ct nonce tg)))
      (logged (EvSetPayload ct nonce tg) w).
Proof. reflexivity. Qed.

Lemma collect_apv_consistent (agree_alg : KeyAlg) (apv : list string)
    (to_keys : list (string * AskarKey)) :
  Forall (λ kv, algorithm (key kv.2) = agree_alg) to_keys →
  collect_apv agree_alg apv to_keys = inr (apv ++ to_keys.*1)%list.
Proof.
  intros Hall. revert apv.
  induction Hall as [|[k rk] tks Heq _ IH]; intros apv.
  - cbn. by rewrite app_nil_r.
  - cbn [collect_apv alg_truthy]. simpl in Heq.
    rewrite bool_decide_eq_false_2 by (by intros ?).
    rewrite IH. cbn. by rewrite <-app_assoc.
Qed.

Lemma collect_apv_inconsistent (agree_alg : KeyAlg) (apv : list string)
    (to_keys : list (string * AskarKey)) :
  Exists (λ kv, algorithm (key kv.2) ≠ agree_alg) to_keys →
  collect_apv agree_alg apv to_keys
  = inl (CryptoServiceError "Recipient key types must be consistent").
Proof.
  revert apv. induction to_keys as [|[k rk] tks IH]; intros apv Hex.
  - by apply Exists_nil in Hex.
  - cbn [collect_apv alg_truthy].
    case_bool_decide as Hne; [done|].
    apply IH. apply Exists_cons in Hex as [Hex|Hex]; [|done].
    simpl in Hex. congruence.
Qed.

Lemma pu_wrap_recipients_inr (apu apv : string) (epk sender cek : Key)
    (cc_tag : bytes) (to_keys : list (string * AskarKey))
    (b b' : JweBuilder) (w w' : World) :
  pu_wrap_recipients "ECDH-1PU+A256KW" apu apv A256KW epk sender cek cc_tag
    to_keys b w = (inr b', w') →
  ∃ recs,
    Forall2 (pu_wrapped apu apv epk sender cek cc_tag) to_keys recs
    ∧ b' = mkJweBuilder (b_protected b) (b_recipients b ++ recs) (b_payload b)
    ∧ entropy w' = entropy w
    ∧ trace w'
      = (trace w
         ++ concat (zip_with (pu_recipient_events apu apv epk sender cek cc_tag)
                      to_keys recs))%list.
Proof.
  revert b w. induction to_keys as [|[k rk] tks IH]; intros b w; simpl.
  - intros [= <- <-]. exists []. split; [constructor|].
    rewrite !app_nil_r. by destruct b.
  - unfold pu_sender_wrap_key. rewrite mbind_call.
    destruct (Ecdh1PU_sender_wrap_key _ _ _ _ _ _ _ _ _) as [e|] eqn:He;
      [|discriminate].
    rewrite mbind_add_recipient.
    intros Hrest. apply IH in Hrest as (recs & Hrecs & -> & Hent & Htr).
    exists (mkJweRecipient (enc_ciphertext e) {[ "kid" := JStr k ]} :: recs).
    split; [|split; [|split]].
    + constructor; [|done]. by exists e.
    + simpl. by rewrite <-app_assoc.
    + by rewrite Hent.
    + rewrite Htr. simpl. by rewrite <-!app_assoc.
Qed.

(** A run of authenticated encryption that returns, step by step. *)
Lemma ecdh_1pu_encrypt_inr (to_keys : list (string * AskarKey))
    (sender_kid : string) (sender_key : AskarKey) (message : bytes)
    (w w' : World) (out : bytes) :
  ecdh_1pu_encrypt to_keys sender_kid sender_key message w = (inr out, w') →
  ∃ cek s1 epk s2 payload s3 recs,
    let hdr := pu_protected sender_kid epk to_keys.*1 in
    let apu := b64url sender_kid in
    let apv := b64url (join (sort to_keys.*1)) in
    Key_generate A256CBC_HS512 false (entropy w) = (Some cek, s1)
    ∧ Key_generate (algorithm (key sender_key)) true s1 = (Some epk, s2)
    ∧ Forall (λ kv, algorithm (key kv.2) = algorithm (key sender_key)) to_keys
    ∧ aead_encrypt cek message (aad_of hdr) s2 = (Some payload, s3)
    ∧ Forall2 (pu_wrapped apu apv epk (key sender_key) cek (enc_tag payload))
        to_keys recs
    ∧ out = encode_utf8
              (to_json
                 (mkJweEnvelope hdr (aad_of hdr) ∅ recs (enc_nonce payload)
                    (enc_ciphertext payload) (enc_tag payload)))
    ∧ entropy w' = s3
    ∧ trace w'
      = (trace w
         ++ [ EvGenerate A256CBC_HS512 false;
              EvGenerate (algorithm (key sender_key)) true;
              EvSetProtected hdr;
              EvAeadEncrypt cek message (aad_of hdr);
              EvSetPayload (enc_ciphertext payload) (enc_nonce payload)
                (enc_tag payload) ]
         ++ concat
              (zip_with
                 (pu_recipient_events apu apv epk (key sender_key) cek
                    (enc_tag payload))
                 to_keys recs))%list.
Proof.
  unfold ecdh_1pu_encrypt.
  destruct to_keys as [|kv tks] eqn:Htk; [discriminate|]. rewrite <-Htk.
  unfold generate. rewrite mbind_try_call_random.
  destruct (Key_generate A256CBC_HS512 false (entropy w)) as [[cek|] s1] eqn:Hcek;
    [|discriminate].
  cbn [fst snd]. rewrite mbind_try_call_random. cbn [entropy].
  destruct (Key_generate (algorithm (key sender_key)) true s1)
    as [[epk|] s2] eqn:Hepk; [|discriminate].
  cbn [fst snd]. rewrite mbind_lift.
  destruct (decide (Forall (λ kv, algorithm (key kv.2)
                                  = algorithm (key sender_key)) to_keys))
    as [Hall|Hall].
  2:{ rewrite collect_apv_inconsistent; [discriminate|].
      by apply not_Forall_Exists in Hall; [|apply _]. }
  rewrite (collect_apv_consistent _ _ _ Hall). cbn [app].
  rewrite mbind_set_protected. unfold key_aead_encrypt.
  rewrite mbind_try_call_random. cbn [entropy logged trace].
  fold (pu_protected sender_kid epk to_keys.*1).
  change (protected_bytes _) with (aad_of (pu_protected sender_kid epk to_keys.*1)).
  destruct (aead_encrypt cek message _ s2) as [[payload|] s3] eqn:Hpay;
    [|discriminate].
  cbn [fst snd]. rewrite mbind_set_payload.
  unfold mbind at 1.
  destruct (pu_wrap_recipients _ _ _ _ _ _ _ _ _ _ _) as [[e|b'] w1] eqn:Hwrap;
    [discriminate|].
  apply pu_wrap_recipients_inr in Hwrap as (recs & Hrecs & -> & Hent & Htr).
  rewrite mbind_lift. unfold build. cbn [b_payload b_recipients b_protected app].
  change (b_recipients JweBuilder_new ++ recs)%list with recs.
  destruct recs as [|r0 recs0].
  { exfalso. rewrite Htk in Hrecs. by apply Forall2_nil_inv_r in Hrecs. }
  unfold mret. intros [= <- <-].
  exists cek, s1, epk, s2, payload, s3, (r0 :: recs0).
  repeat split; try done.
  rewrite Htr. cbn [trace logged]. by rewrite <-!app_assoc.
Qed.

Lemma pu_recipient_events_no_generate (apu apv : string)
    (epk sender cek : Key) (cc_tag : bytes)
    (to_keys : list (string * AskarKey)) (recs : list JweRecipient) :
  List.filter is_ephemeral_generate
    (concat (zip_with (pu_recipient_events apu apv epk sender cek cc_tag)
               to_keys recs)) = [].
Proof.
  revert recs. induction to_keys as [|kv tks IH]; intros [|r recs]; try done.
  cbn. apply IH.
Qed.

(** C3. A run of authenticated encryption that returns has made exactly
    these calls, in this order: the content key and then one ephemeral key
    are generated; the protected header is set; the payload is encrypted
    under the content key with the protected-header bytes as AAD; the payload
    is stored; and then, for each recipient in turn, the content key is
    wrapped with the same ephemeral key and the tag of that encryption as
    [cc_tag], and the recipient is added.  One ephemeral key is generated in
    the whole run. *)
Theorem pu_encrypt_order (to_keys : list (string * AskarKey))
    (sender_kid : string) (sender_key : AskarKey) (message : bytes)
    (w w' : World) (out : bytes) :
  ecdh_1pu_encrypt to_keys sender_kid sender_key message w = (inr out, w') →
  ∃ cek s1 epk s2 payload s3 recs evs,
    let hdr := pu_protected sender_kid epk to_keys.*1 in
    let apu := b64url sender_kid in
    let apv := b64url (join (sort to_keys.*1)) in
    Key_generate A256CBC_HS512 false (entropy w) = (Some cek, s1)
    ∧ Key_generate (algorithm (key sender_key)) true s1 = (Some epk, s2)
    ∧ aead_encrypt cek message (aad_of hdr) s2 = (Some payload, s3)
    ∧ Forall2 (pu_wrapped apu apv epk (key sender_key) cek (enc_tag payload))
        to_keys recs
    ∧ trace w' = (trace w ++ evs)%list
    ∧ evs
      = ([ EvGenerate A256CBC_HS512 false;
           EvGenerate (algorithm (key sender_key)) true;
           EvSetProtected hdr;
           EvAeadEncrypt cek message (aad_of hdr);
           EvSetPayload (enc_ciphertext payload) (enc_nonce payload)
             (enc_tag payload) ]
         ++ concat
              (zip_with
                 (pu_recipient_events apu apv epk (key sender_key) cek
                    (enc_tag payload))
                 to_keys recs))%list
    ∧ length (List.filter is_ephemeral_generate evs) = 1%nat.
Proof.
  intros Hrun.
  apply ecdh_1pu_encrypt_inr in Hrun
    as (cek & s1 & epk & s2 & payload & s3 & recs & Hrun).
  cbv zeta in Hrun.
  destruct Hrun as (Hcek & Hepk & _ & Hpay & Hrecs & _ & _ & Htr).
  exists cek, s1, epk, s2, payload, s3, recs; eexists.
  split; [exact Hcek|]. split; [exact Hepk|]. split; [exact Hpay|].
  split; [exact Hrecs|]. split; [exact Htr|]. split; [reflexivity|].
  rewrite List.filter_app, pu_recipient_events_no_generate. reflexivity.
Qed.

(** Sorting forgets the order of its input. *)
Lemma sort_permutation (l1 l2 : list string) :
  l1 ≡ₚ l2 → sort l1 = sort l2.
Proof.
  intros Hperm. unfold sort. apply (Sorted_unique String.le).
  - apply Sorted_merge_sort; apply _.
  - apply Sorted_merge_sort; apply _.
  - by rewrite !merge_sort_Permutation.
Qed.

(** C4. The [apv] of the protected header of an authenticated envelope is
    the base64url text of the recipients' kids, sorted and joined with a dot;
    two encryptions whose recipients have the same kids, in whatever order,
    put the same [apv] into their envelopes. *)
Theorem apv_canonical (to_keys1 to_keys2 : list (string * AskarKey))
    (sender_kid1 sender_kid2 : string) (sender_key1 sender_key2 : AskarKey)
    (message1 message2 : bytes) (w1 w1' w2 w2' : World) (out1 out2 : bytes) :
  ecdh_1pu_encrypt to_keys1 sender_kid1 sender_key1 message1 w1
  = (inr out1, w1') →
  ecdh_1pu_encrypt to_keys2 sender_kid2 sender_key2 message2 w2
  = (inr out2, w2') →
  to_keys1.*1 ≡ₚ to_keys2.*1 →
  ∃ env1 env2,
    out1 = encode_utf8 (to_json env1)
    ∧ out2 = encode_utf8 (to_json env2)
    ∧ protected env1 !! "apv"
      = Some (JStr (b64url (join (sort to_keys1.*1))))
    ∧ protected env2 !! "apv"
      = Some (JStr (b64url (join (sort to_keys2.*1))))
    ∧ protected env1 !! "apv" = protected env2 !! "apv".
Proof.
  intros Hrun1 Hrun2 Hperm.
  apply ecdh_1pu_encrypt_inr in Hrun1
    as (cek1 & ? & epk1 & ? & payload1 & ? & recs1 & Hrun1).
  cbv zeta in Hrun1. destruct Hrun1 as (_ & _ & _ & _ & _ & -> & _ & _).
  apply ecdh_1pu_encrypt_inr in Hrun2
    as (cek2 & ? & epk2 & ? & payload2 & ? & recs2 & Hrun2).
  cbv zeta in Hrun2. destruct Hrun2 as (_ & _ & _ & _ & _ & -> & _ & _).
  do 2 eexists. split; [reflexivity|]. split; [reflexivity|].
  assert (∀ skid epk kids,
            pu_protected skid epk kids !! "apv"
            = Some (JStr (b64url (join (sort kids))))) as Hapv.
  { intros. unfold pu_protected.
    rewrite lookup_insert_ne by done. rewrite lookup_insert_ne by done.
    rewrite lookup_insert_ne by done. by rewrite lookup_insert_eq. }
  cbn [protected]. rewrite !Hapv.
  split; [done|]. split; [done|].
  by rewrite (sort_permutation _ _ Hperm).
Qed.

(** C9. When some recipient's key algorithm differs from the sender's, and
    the two key generations that precede the check have succeeded,
    authenticated encryption raises the inconsistent-types error from the
    loop that collects the kids; the only calls made by then are the two key
    generations, so nothing has been wrapped, and no envelope is returned. *)
Theorem inconsistent_recipient_algorithms (to_keys : list (string * AskarKey))
    (sender_kid : string) (sender_key : AskarKey) (message : bytes)
    (w : World) (cek epk : Key) (s1 s2 : Entropy) :
  Exists (λ kv, algorithm (key kv.2) ≠ algorithm (key sender_key)) to_keys →
  Key_generate A256CBC_HS512 false (entropy w) = (Some cek, s1) →
  Key_generate (algorithm (key sender_key)) true s1 = (Some epk, s2) →
  ecdh_1pu_encrypt to_keys sender_kid sender_key message w
  = (inl (CryptoServiceError "Recipient key types must be consistent"),
     mkWorld s2
       (trace w
        ++ [ EvGenerate A256CBC_HS512 false;
             EvGenerate (algorithm (key sender_key)) true ])).
Proof.
  intros Hex Hcek Hepk. unfold ecdh_1pu_encrypt.
  destruct to_keys as [|kv tks] eqn:Htk; [by apply Exists_nil in Hex|].
  rewrite <-Htk in *.
  unfold generate. rewrite mbind_try_call_random, Hcek. cbn [fst snd].
  rewrite mbind_try_call_random. cbn [entropy]. rewrite Hepk. cbn [fst snd].
  rewrite mbind_lift, collect_apv_inconsistent by done.
  cbn [trace]. by rewrite <-app_assoc.
Qed.

(** Whatever the key generations do, inconsistent recipients never get an
    envelope, and nothing but key generation has been asked of the library. *)
Lemma inconsistent_recipients_never_wrapped
    (to_keys : list (string * AskarKey)) (sender_kid : string)
    (sender_key : AskarKey) (message : bytes) (w : World) :
  Exists (λ kv, algorithm (key kv.2) ≠ algorithm (key sender_key)) to_keys →
  ∃ msg w' evs,
    ecdh_1pu_encrypt to_keys sender_kid sender_key message w
    = (inl (CryptoServiceError msg), w')
    ∧ trace w' = (trace w ++ evs)%list
    ∧ forallb is_generate evs = true.
Proof.
  intros Hex. unfold ecdh_1pu_encrypt.
  destruct to_keys as [|kv tks] eqn:Htk; [by apply Exists_nil in Hex|].
  rewrite <-Htk in *.
  unfold generate. rewrite mbind_try_call_random.
  destruct (Key_generate A256CBC_HS512 false (entropy w)) as [[cek|] s1].
  2:{ do 2 eexists. by exists [EvGenerate A256CBC_HS512 false]. }
  cbn [fst snd]. rewrite mbind_try_call_random. cbn [entropy].
  destruct (Key_generate (algorithm (key sender_key)) true s1) as [[epk|] s2].
  2:{ do 2 eexists. exists [EvGenerate A256CBC_HS512 false;
                            EvGenerate (algorithm (key sender_key)) true].
      cbn [fst snd trace]. by rewrite <-app_assoc. }
  cbn [fst snd]. rewrite mbind_lift, collect_apv_inconsistent by done.
  do 2 eexists. exists [EvGenerate A256CBC_HS512 false;
                        EvGenerate (algorithm (key sender_key)) true].
  cbn [trace]. by rewrite <-app_assoc.
Qed.

End encrypt_properties.

Section round_trip.
Context `{Askar} `{Wire}.

Lemma es_wrap_recipients_inr (cek : Key) (to_keys : list (string * AskarKey))
    (b b' : JweBuilder) (w w' : World) :
  es_wrap_recipients "ECDH-ES+A256KW" A256KW cek to_keys b w = (inr b', w') →
  ∃ recs,
    Forall2 (es_wrapped cek) to_keys recs
    ∧ b' = mkJweBuilder (b_protected b) (b_recipients b ++ recs) (b_payload b).
Proof.
  revert b w. induction to_keys as [|[k rk] tks IH]; intros b w; simpl.
  - intros [= <- <-]. exists []. split; [constructor|].
    rewrite app_nil_r. by destruct b.
  - unfold generate. rewrite mbind_try_call_random.
    destruct (Key_generate _ _ _) as [[epk|] s1]; [|discriminate].
    cbn [fst snd]. unfold es_sender_wrap_key. rewrite mbind_call.
    destruct (EcdhEs_sender_wrap_key _ _ _ _ _ _ _) as [e|] eqn:He;
      [|discriminate].
    rewrite mbind_add_recipient.
    intros Hrest. apply IH in Hrest as (recs & Hrecs & ->).
    eexists (_ :: recs). split.
    + constructor; [|done]. by exists epk, e.
    + simpl. by rewrite <-app_assoc.
Qed.

(** A run of anonymous encryption that returns. *)
Lemma ecdh_es_encrypt_inr (to_keys : list (string * AskarKey))
    (message : bytes) (w w' : World) (out : bytes) :
  ecdh_es_encrypt to_keys message w = (inr out, w') →
  ∃ cek s1 payload s s' recs,
    Key_generate XC20P false (entropy w) = (Some cek, s1)
    ∧ Forall2 (es_wrapped cek) to_keys recs
    ∧ aead_encrypt cek message (aad_of es_protected) s = (Some payload, s')
    ∧ out = encode_utf8
              (to_json
                 (mkJweEnvelope es_protected (aad_of es_protected) ∅ recs
                    (enc_nonce payload) (enc_ciphertext payload)
                    (enc_tag payload))).
Proof.
  unfold ecdh_es_encrypt.
  destruct to_keys as [|kv tks] eqn:Htk; [discriminate|]. rewrite <-Htk.
  unfold generate. rewrite mbind_try_call_random.
  destruct (Key_generate XC20P false (entropy w)) as [[cek|] s1] eqn:Hcek;
    [|discriminate].
  cbn [fst snd]. unfold mbind at 1.
  destruct (es_wrap_recipients _ _ _ _ _ _) as [[e|b'] w1] eqn:Hwrap;
    [discriminate|].
  apply es_wrap_recipients_inr in Hwrap as (recs & Hrecs & ->).
  change (b_recipients JweBuilder_new ++ recs)%list with recs.
  rewrite mbind_set_protected. unfold key_aead_encrypt.
  rewrite mbind_try_call_random.
  change (protected_bytes _) with (aad_of es_protected).
  destruct (aead_encrypt cek message _ _) as [[payload|] s3] eqn:Hpay;
    [|discriminate].
  cbn [fst snd]. rewrite mbind_set_payload, mbind_lift.
  unfold build. cbn [b_payload b_recipients b_protected].
  destruct recs as [|r0 recs0].
  { exfalso. rewrite Htk in Hrecs. by apply Forall2_nil_inv_r in Hrecs. }
  unfold mret. intros [= <- <-].
  by exists cek, s1, payload, (entropy w1), s3, (r0 :: recs0).
Qed.

(** The recipient entry of a kid is the one built for it, when the kids
    are those of a mapping. *)
Lemma find_recipient_by_kid (R : string * AskarKey → JweRecipient → Prop)
    (to_keys : list (string * AskarKey)) (recs : list JweRecipient)
    (k : string) (pk : AskarKey) :
  (∀ kv r, R kv r → header r !! "kid" = Some (JStr kv.1)) →
  Forall2 R to_keys recs →
  NoDup to_keys.*1 →
  (k, pk) ∈ to_keys →
  ∃ r, List.find (λ r, is_str (header r !! "kid") k) recs = Some r
       ∧ R (k, pk) r.
Proof.
  intros Hkid Hrecs. induction Hrecs as [|[k' pk'] r tks recs HR _ IH].
  - intros _ Hin. by apply elem_of_nil in Hin.
  - intros Hnd Hin. apply NoDup_cons in Hnd as [Hnotin Hnd].
    cbn [List.find]. rewrite (Hkid _ _ HR). cbn [is_str fst].
    destruct (String.eqb_spec k' k) as [->|Hne].
    + exists r. split; [done|].
      apply elem_of_cons in Hin as [[= <-]|Hin]; [done|].
      exfalso. apply Hnotin. apply list_elem_of_fmap. by exists (k, pk).
    + apply elem_of_cons in Hin as [[= ? ?]|Hin]; [congruence|].
      by apply IH.
Qed.

Lemma parse_wrapper_bytes `{!WireLaws} (e : JweEnvelope) :
  parse_wrapper (WBytes (encode_utf8 (to_json e))) = inr e.
Proof.
  unfold parse_wrapper, decode_utf8, encode_utf8.
  by rewrite string_of_list_byte_of_string, from_json_to_json.
Qed.

Lemma mbind_try_call {A B} (ev : Event) (r : option A) (e : exn)
    (f : A → M B) (w : World) (a : A) :
  r = Some a →
  mbind (try_except (call ev r) e) f w = f a (logged ev w).
Proof. intros ->. unfold mbind. by rewrite try_except_call. Qed.

(** Anonymous decryption of an envelope as anonymous encryption builds it. *)
Lemma ecdh_es_decrypt_built `{!AskarLaws}
    (to_keys : list (string * AskarKey)) (recs : list JweRecipient)
    (cek : Key) (message : bytes) (payload : Encrypted) (s s' : Entropy)
    (k : string) (pk recip_key : AskarKey) (w : World) :
  algorithm cek = XC20P →
  Forall2 (es_wrapped cek) to_keys recs →
  aead_encrypt cek message (aad_of es_protected) s = (Some payload, s') →
  NoDup to_keys.*1 →
  (k, pk) ∈ to_keys →
  kid recip_key = k →
  key_pair (key pk) (key recip_key) →
  (ecdh_es_decrypt
     (WEnvelope
        (mkJweEnvelope es_protected (aad_of es_protected) ∅ recs
           (enc_nonce payload) (enc_ciphertext payload) (enc_tag payload)))
     recip_key w).1 = inr message.
Proof.
  intros Halg Hrecs Hpay Hnd Hin Hkid Hpair.
  destruct (find_recipient_by_kid (es_wrapped cek) to_keys recs k pk)
    as (r & Hfind & epk & e & Hwrap & ->); try done.
  { intros kv r (epk & e & _ & ->). reflexivity. }
  unfold ecdh_es_decrypt. rewrite mbind_lift. cbn [parse_wrapper].
  cbn [protected].
  change (checked_in (es_protected !! "alg") _) with (Some "ECDH-ES+A256KW").
  cbv iota beta. unfold get_recipient. cbn [recipients]. rewrite Hkid, Hfind.
  cbn [header encrypted_key unprotected protected fst snd] in *.
  set (hdr := ({[ "kid" := JStr k; "epk" := JStr (get_jwk_public epk) ]}
               ∪ ∅ ∪ es_protected : dict)).
  assert (hdr !! "enc" = Some (JStr "XC20P")) as -> by reflexivity.
  assert (hdr !! "epk" = Some (JStr (get_jwk_public epk))) as -> by reflexivity.
  assert (hdr !! "apu" = None) as -> by reflexivity.
  assert (hdr !! "apv" = None) as -> by reflexivity.
  change (checked_in (Some (JStr "XC20P")) _) with (Some "XC20P").
  cbv iota beta.
  assert (truthy (JStr (get_jwk_public epk)) = true) as ->.
  { simpl. destruct (String.eqb_spec (get_jwk_public epk) ""); [|done].
    by destruct (jwk_public_nonempty epk). }
  unfold from_jwk.
  rewrite (mbind_try_call _ _ _ _ _ _ (from_jwk_public epk)).
  unfold es_receiver_unwrap_key.
  rewrite (mbind_try_call _ _ _ _ _ cek).
  2:{ change (str_from 8 "ECDH-ES+A256KW") with (alg_name A256KW).
      change "XC20P" with (alg_name XC20P). rewrite <-Halg.
      by eapply es_unwrap_wrap. }
  unfold key_aead_decrypt.
  rewrite (mbind_try_call _ _ _ _ _ message).
  2:{ cbn [ciphertext iv tag combined_aad protected_b64].
      by eapply aead_decrypt_encrypt. }
  reflexivity.
Qed.

(** Authenticated decryption of an envelope as authenticated encryption
    builds it. *)
Lemma ecdh_1pu_decrypt_built `{!AskarLaws} `{!WireLaws}
    (to_keys : list (string * AskarKey)) (recs : list JweRecipient)
    (sender_kid : string) (sender_key sender_pub : AskarKey)
    (cek epk : Key) (message : bytes) (payload : Encrypted) (s s' : Entropy)
    (k : string) (pk recip_key : AskarKey) (w : World) :
  let hdr := pu_protected sender_kid epk to_keys.*1 in
  algorithm cek = A256CBC_HS512 →
  Forall2
    (pu_wrapped (b64url sender_kid) (b64url (join (sort to_keys.*1))) epk
       (key sender_key) cek (enc_tag payload))
    to_keys recs →
  aead_encrypt cek message (aad_of hdr) s = (Some payload, s') →
  NoDup to_keys.*1 →
  (k, pk) ∈ to_keys →
  kid recip_key = k →
  key_pair (key pk) (key recip_key) →
  key_pair (key sender_pub) (key sender_key) →
  (ecdh_1pu_decrypt
     (WEnvelope
        (mkJweEnvelope hdr (aad_of hdr) ∅ recs (enc_nonce payload)
           (enc_ciphertext payload) (enc_tag payload)))
     recip_key sender_pub w).1 = inr message.
Proof.
  intros hdr Halg Hrecs Hpay Hnd Hin Hkid Hpair Hsender.
  destruct (find_recipient_by_kid
              (pu_wrapped (b64url sender_kid) (b64url (join (sort to_keys.*1)))
                 epk (key sender_key) cek (enc_tag payload))
              to_keys recs k pk)
    as (r & Hfind & e & Hwrap & ->); try done.
  { intros kv r (e & _ & ->). reflexivity. }
  unfold ecdh_1pu_decrypt. rewrite mbind_lift. cbn [parse_wrapper].
  cbn [protected].
  assert (hdr !! "alg" = Some (JStr "ECDH-1PU+A256KW")) as -> by reflexivity.
  assert (hdr !! "enc" = Some (JStr "A256CBC-HS512")) as -> by reflexivity.
  assert (hdr !! "apu" = Some (JStr (b64url sender_kid))) as -> by reflexivity.
  assert (hdr !! "apv" = Some (JStr (b64url (join (sort to_keys.*1))))) as ->
    by reflexivity.
  change (checked_in (Some (JStr "ECDH-1PU+A256KW")) _)
    with (Some "ECDH-1PU+A256KW").
  change (checked_in (Some (JStr "A256CBC-HS512")) _)
    with (Some "A256CBC-HS512").
  cbv iota beta. unfold get_recipient. cbn [recipients]. rewrite Hkid, Hfind.
  cbn [header encrypted_key unprotected protected fst snd] in *.
  assert (({[ "kid" := JStr k ]} ∪ ∅ ∪ hdr : dict) !! "epk"
          = Some (json_loads (get_jwk_public epk))) as -> by reflexivity.
  rewrite loads_jwk_truthy.
  unfold from_jwk.
  rewrite (mbind_try_call _ _ _ _ _ _ (from_jwk_loads epk)).
  unfold pu_receiver_unwrap_key.
  rewrite (mbind_try_call _ _ _ _ _ cek).
  2:{ change (str_from 9 "ECDH-1PU+A256KW") with (alg_name A256KW).
      change "A256CBC-HS512" with (alg_name A256CBC_HS512). rewrite <-Halg.
      cbn [tag]. by eapply pu_unwrap_wrap. }
  unfold key_aead_decrypt.
  rewrite (mbind_try_call _ _ _ _ _ message).
  2:{ cbn [ciphertext iv tag combined_aad protected_b64].
      by eapply aead_decrypt_encrypt. }
  reflexivity.
Qed.

Lemma decrypt_parsed (wrapper : Wrapper) (e : JweEnvelope)
    (recip_key sender_key : AskarKey) (w : World) :
  parse_wrapper wrapper = inr e →
  ecdh_es_decrypt wrapper recip_key w = ecdh_es_decrypt (WEnvelope e) recip_key w
  ∧ ecdh_1pu_decrypt wrapper recip_key sender_key w
    = ecdh_1pu_decrypt (WEnvelope e) recip_key sender_key w.
Proof.
  intros Hparse. unfold ecdh_es_decrypt, ecdh_1pu_decrypt.
  rewrite !mbind_lift, Hparse. done.
Qed.

(** C1. What either encryption returns decrypts, for every recipient of the
    mapping and with that recipient's secret key, to the plaintext; in
    authenticated mode the decryption is given the public half of the
    sender's key.  The cryptographic library and the wire format are those of
    [AskarLaws] and [WireLaws]. *)
Theorem round_trip `{!AskarLaws} `{!WireLaws}
    (to_keys : list (string * AskarKey)) (sender_kid : string)
    (sender_key sender_pub : AskarKey) (message : bytes)
    (k : string) (pk recip_key : AskarKey) :
  NoDup to_keys.*1 →
  (k, pk) ∈ to_keys →
  kid recip_key = k →
  key_pair (key pk) (key recip_key) →
  (∀ w w' out w2,
     ecdh_es_encrypt to_keys message w = (inr out, w') →
     (ecdh_es_decrypt (WBytes out) recip_key w2).1 = inr message)
  ∧ (key_pair (key sender_pub) (key sender_key) →
     ∀ w w' out w2,
       ecdh_1pu_encrypt to_keys sender_kid sender_key message w
       = (inr out, w') →
       (ecdh_1pu_decrypt (WBytes out) recip_key sender_pub w2).1
       = inr message).
Proof.
  intros Hnd Hin Hkid Hpair. split.
  - intros w w' out w2 Hrun.
    apply ecdh_es_encrypt_inr in Hrun
      as (cek & s1 & payload & s & s' & recs & Hcek & Hrecs & Hpay & ->).
    rewrite (proj1 (decrypt_parsed _ _ _ recip_key _ (parse_wrapper_bytes _))).
    eapply ecdh_es_decrypt_built; try done.
    by eapply generate_algorithm.
  - intros Hsender w w' out w2 Hrun.
    apply ecdh_1pu_encrypt_inr in Hrun
      as (cek & s1 & epk & s2 & payload & s3 & recs & Hrun).
    cbv zeta in Hrun.
    destruct Hrun as (Hcek & _ & _ & Hpay & Hrecs & -> & _ & _).
    rewrite (proj2 (decrypt_parsed _ _ recip_key _ _ (parse_wrapper_bytes _))).
    eapply ecdh_1pu_decrypt_built; try done.
    by eapply generate_algorithm.
Qed.

End round_trip.

(** * The properties on concrete runs *)

(** C1 on Bob's envelope: anonymous and authenticated encryption to Bob,
    each decrypted with Bob's secret key. *)
Lemma round_trip_witness :
  ((ecdh_es_encrypt [(BOB_KID, bob_key)] MESSAGE w0).1
   = inr (encode_utf8 (to_json bob_es_envelope))
   ∧ (ecdh_es_decrypt (WBytes (encode_utf8 (to_json bob_es_envelope)))
        bob_priv_key w0).1 = inr MESSAGE)
  ∧ ((ecdh_1pu_encrypt [(BOB_KID, bob_key)] ALICE_KID alice_priv_key MESSAGE
        w0).1
     = inr (encode_utf8 (to_json (alice_pu_envelope [BOB_KID])))
     ∧ (ecdh_1pu_decrypt
          (WBytes (encode_utf8 (to_json (alice_pu_envelope [BOB_KID]))))
          bob_priv_key alice_key w0).1 = inr MESSAGE).
Proof.
  assert (NoDup [(BOB_KID, bob_key)].*1) as Hnd.
  { apply NoDup_singleton. }
  assert ((BOB_KID, bob_key) ∈ [(BOB_KID, bob_key)]) as Hin.
  { apply list_elem_of_singleton. reflexivity. }
  assert (key_pair (key bob_key) (key bob_priv_key)) as Hbob.
  { split; [reflexivity|]. eexists. reflexivity. }
  assert (key_pair (key alice_key) (key alice_priv_key)) as Halice.
  { split; [reflexivity|]. eexists. reflexivity. }
  pose proof (round_trip [(BOB_KID, bob_key)] ALICE_KID alice_priv_key
                alice_key MESSAGE BOB_KID bob_key bob_priv_key
                Hnd Hin eq_refl Hbob) as [Hes Hpu].
  split.
  - assert ((ecdh_es_encrypt [(BOB_KID, bob_key)] MESSAGE w0).1
            = inr (encode_utf8 (to_json bob_es_envelope))) as Hrun
      by reflexivity.
    split; [exact Hrun|].
    apply (Hes w0 (ecdh_es_encrypt [(BOB_KID, bob_key)] MESSAGE w0).2).
    rewrite <-Hrun. apply surjective_pairing.
  - assert ((ecdh_1pu_encrypt [(BOB_KID, bob_key)] ALICE_KID alice_priv_key
               MESSAGE w0).1
            = inr (encode_utf8 (to_json (alice_pu_envelope [BOB_KID]))))
      as Hrun by reflexivity.
    split; [exact Hrun|].
    apply (Hpu Halice w0
             (ecdh_1pu_encrypt [(BOB_KID, bob_key)] ALICE_KID alice_priv_key
                MESSAGE w0).2).
    rewrite <-Hrun. apply surjective_pairing.
Defined.

(** C3 on an encryption by Alice to Bob and Carol: the calls of the run,
    of which one generates an ephemeral key. *)
Lemma pu_encrypt_order_witness :
  ∃ evs,
    trace (ecdh_1pu_encrypt bob_carol ALICE_KID alice_priv_key MESSAGE w0).2
    = evs
    ∧ length evs = 9%nat
    ∧ length (List.filter is_ephemeral_generate evs) = 1%nat.
Proof.
  assert ((ecdh_1pu_encrypt bob_carol ALICE_KID alice_priv_key MESSAGE w0).1
          = inr (encode_utf8
                   (to_json (alice_pu_envelope [BOB_KID; CAROL_KID]))))
    as Hrun by reflexivity.
  destruct (pu_encrypt_order bob_carol ALICE_KID alice_priv_key MESSAGE w0
              (ecdh_1pu_encrypt bob_carol ALICE_KID alice_priv_key MESSAGE
                 w0).2
              (encode_utf8 (to_json (alice_pu_envelope [BOB_KID; CAROL_KID]))))
    as (cek & s1 & epk & s2 & payload & s3 & recs & evs & Hord).
  { rewrite <-Hrun. apply surjective_pairing. }
  cbv zeta in Hord. destruct Hord as (_ & _ & _ & Hrecs & Htr & Hevs & Hone).
  exists evs. split; [exact Htr|]. split; [|exact Hone].
  apply Forall2_length in Hrecs.
  rewrite Hevs. clear Hrun Htr Hevs Hone.
  destruct recs as [|r1 [|r2 [|r3 recs]]]; try discriminate Hrecs.
  reflexivity.
Defined.

(** C4 on encryptions by Alice to Bob and Carol, and to Carol and Bob. *)
Lemma apv_canonical_witness :
  ∃ env1 env2,
    encode_utf8 (to_json (alice_pu_envelope [BOB_KID; CAROL_KID]))
    = encode_utf8 (to_json env1)
    ∧ encode_utf8 (to_json (alice_pu_envelope [CAROL_KID; BOB_KID]))
      = encode_utf8 (to_json env2)
    ∧ protected env1 !! "apv"
      = Some (JStr (b64url (join (sort bob_carol.*1))))
    ∧ protected env2 !! "apv"
      = Some (JStr (b64url (join (sort carol_bob.*1))))
    ∧ protected env1 !! "apv" = protected env2 !! "apv".
Proof.
  assert ((ecdh_1pu_encrypt bob_carol ALICE_KID alice_priv_key MESSAGE w0).1
          = inr (encode_utf8
                   (to_json (alice_pu_envelope [BOB_KID; CAROL_KID]))))
    as Hrun1 by reflexivity.
  assert ((ecdh_1pu_encrypt carol_bob ALICE_KID alice_priv_key MESSAGE w0).1
          = inr (encode_utf8
                   (to_json (alice_pu_envelope [CAROL_KID; BOB_KID]))))
    as Hrun2 by reflexivity.
  apply (apv_canonical bob_carol carol_bob ALICE_KID ALICE_KID alice_priv_key
           alice_priv_key MESSAGE MESSAGE
           w0 (ecdh_1pu_encrypt bob_carol ALICE_KID alice_priv_key MESSAGE w0).2
           w0 (ecdh_1pu_encrypt carol_bob ALICE_KID alice_priv_key MESSAGE w0).2).
  - rewrite <-Hrun1. apply surjective_pairing.
  - rewrite <-Hrun2. apply surjective_pairing.
  - apply perm_swap.
Defined.

(** C5 on an anonymous envelope with an unknown content encryption and an
    authenticated envelope that names [XC20P]. *)
Lemma unsupported_enc_rejected_witness :
  (∃ msg, ecdh_es_decrypt (WEnvelope envelope_rot13) bob_priv_key w0
          = (inl (CryptoServiceError msg), w0))
  ∧ (∃ msg, ecdh_1pu_decrypt (WEnvelope envelope_xc20p) bob_priv_key
              alice_key w0
            = (inl (CryptoServiceError msg), w0)).
Proof.
  split.
  - apply (proj1 (unsupported_enc_rejected (WEnvelope envelope_rot13)
                    envelope_rot13 bob_priv_key alice_key w0 eq_refl)).
    intros recip Hrecip (s & Hs & Hin).
    injection Hrecip as <-. injection Hs as <-.
    refine (bool_decide_eq_false_1 _ _ Hin). reflexivity.
  - apply (proj2 (proj2 (unsupported_enc_rejected (WEnvelope envelope_xc20p)
                           envelope_xc20p bob_priv_key alice_key w0 eq_refl))).
    reflexivity.
Defined.

Ltac checks_pass :=
  repeat split; first [ reflexivity | apply (bool_decide_unpack _); exact I ].

(** C6 on both paths, each on an envelope whose key does not unwrap and on
    one whose tag does not match. *)
Lemma decrypt_failures_opaque_witness :
  ((ecdh_es_decrypt (WEnvelope envelope_bad_key) bob_priv_key w0).1
   = inl (CryptoServiceError "Error decrypting content encryption key")
   ∧ (ecdh_es_decrypt (WEnvelope envelope_bad_tag) bob_priv_key w0).1
     = inl (CryptoServiceError "Error decrypting message payload"))
  ∧ ((ecdh_1pu_decrypt (WEnvelope envelope_pu_bad_key) bob_priv_key alice_key
        w0).1
     = inl (CryptoServiceError "Error decrypting content encryption key")
     ∧ (ecdh_1pu_decrypt (WEnvelope envelope_pu_bad_tag) bob_priv_key
          alice_key w0).1
       = inl (CryptoServiceError "Error decrypting message payload"))
  ∧ (opaque_failure w0
       (ecdh_es_decrypt (WEnvelope envelope_bad_key) bob_priv_key w0).2
       (CryptoServiceError "Error decrypting content encryption key")
     ∧ opaque_failure w0
         (ecdh_1pu_decrypt (WEnvelope envelope_pu_bad_tag) bob_priv_key
            alice_key w0).2
         (CryptoServiceError "Error decrypting message payload")).
Proof.
  split; [|split]; split.
  - destruct (decrypt_failures_opaque (WEnvelope envelope_bad_key)
                bob_priv_key alice_key w0) as (_ & Hes & _).
    destruct (Hes envelope_bad_key
                 (mkJweRecipient [x00]
                    {[ "kid" := JStr BOB_KID; "epk" := JStr "Xepk";
                       "alg" := JStr "ECDH-ES+A256KW";
                       "enc" := JStr "A128GCM" ]})
                 "ECDH-ES+A256KW" "A128GCM"
                 (JStr "Xepk") epk_text) as [Hkey _];
      [checks_pass|reflexivity|].
    exact (f_equal fst (Hkey eq_refl)).
  - destruct (decrypt_failures_opaque (WEnvelope envelope_bad_tag)
                bob_priv_key alice_key w0) as (_ & Hes & _).
    destruct (Hes envelope_bad_tag
                 (mkJweRecipient [x00]
                    {[ "kid" := JStr BOB_KID; "epk" := JStr "Xepk";
                       "alg" := JStr "ECDH-ES+A256KW";
                       "enc" := JStr "XC20P" ]})
                 "ECDH-ES+A256KW" "XC20P"
                 (JStr "Xepk") epk_text) as [_ Htag];
      [checks_pass|reflexivity|].
    exact (f_equal fst (Htag (mkKey XC20P [] (Some [x00])) eq_refl eq_refl)).
  - destruct (decrypt_failures_opaque (WEnvelope envelope_pu_bad_key)
                bob_priv_key alice_key w0) as (_ & _ & Hpu).
    destruct (Hpu envelope_pu_bad_key
                 (mkJweRecipient [x00]
                    {[ "kid" := JStr BOB_KID;
                       "alg" := JStr "ECDH-1PU+A256KW";
                       "enc" := JStr "A128CBC-HS256";
                       "epk" := JObj [("jwk", JStr "Xepk")] ]})
                 "ECDH-1PU+A256KW" "A128CBC-HS256"
                 (JObj [("jwk", JStr "Xepk")]) epk_text) as [Hkey _];
      [checks_pass|reflexivity|].
    exact (f_equal fst (Hkey eq_refl)).
  - destruct (decrypt_failures_opaque (WEnvelope envelope_pu_bad_tag)
                bob_priv_key alice_key w0) as (_ & _ & Hpu).
    destruct (Hpu envelope_pu_bad_tag
                 (mkJweRecipient [x00]
                    {[ "kid" := JStr BOB_KID;
                       "alg" := JStr "ECDH-1PU+A256KW";
                       "enc" := JStr "A256CBC-HS512";
                       "epk" := JObj [("jwk", JStr "Xepk")] ]})
                 "ECDH-1PU+A256KW" "A256CBC-HS512"
                 (JObj [("jwk", JStr "Xepk")]) epk_text) as [_ Htag];
      [checks_pass|reflexivity|].
    exact (f_equal fst
             (Htag (mkKey A256CBC_HS512 [] (Some [x00])) eq_refl eq_refl)).
  - apply (proj1 (decrypt_failures_opaque (WEnvelope envelope_bad_key)
                    bob_priv_key alice_key w0)).
    left. reflexivity.
  - apply (proj1 (decrypt_failures_opaque (WEnvelope envelope_pu_bad_tag)
                    bob_priv_key alice_key w0)).
    right. reflexivity.
Defined.

(** C7 on material given for an X25519 method: raw X25519 bytes, a
    wrapped Ed25519 key, a wrapped P-256 key, whose codec the table does not
    hold, and a wrapped Ed25519 key that is one byte short. *)
Lemma expected_alg_and_material_witness :
  _expected_alg_and_material_to_key X25519 (Some raw_multibase) None
  = inr (mkKey X25519
           (list_byte_of_string "0123456789abcdef0123456789abcdef") None)
  ∧ _expected_alg_and_material_to_key X25519 (Some ed25519_multibase) None
    = inl (ValueError "Type and algorithm mismatch")
  ∧ _expected_alg_and_material_to_key X25519 (Some p256_multibase) None
    = inl (ValueError "Unsupported key type: {codec.name}")
  ∧ _expected_alg_and_material_to_key X25519 (Some short_ed25519_multibase)
      None
    = inl (ValueError "Invalid key").
Proof.
  split; [|split; [|split]].
  - apply (proj1
             (proj1 (proj2 (proj2 (expected_alg_and_material_spec X25519
                                     (Some raw_multibase) None)))
                raw_multibase
                (list_byte_of_string "0123456789abcdef0123456789abcdef")
                eq_refl ltac:(discriminate) eq_refl eq_refl)).
    reflexivity.
  - apply (proj2
             (proj2
                (proj2
                   (proj1 (proj2 (proj2 (expected_alg_and_material_spec X25519
                                           (Some ed25519_multibase) None)))
                      ed25519_multibase
                      ([xed; x01] ++ replicate 32 x07)%list
                      eq_refl ltac:(discriminate) eq_refl eq_refl)
                   "ed25519-pub" (replicate 32 x07) ltac:(discriminate)
                   eq_refl)
                ED25519 eq_refl)
             (mkKey ED25519 (replicate 32 x07) None)).
    reflexivity.
  - apply (proj1
             (proj2
                (proj1 (proj2 (proj2 (expected_alg_and_material_spec X25519
                                        (Some p256_multibase) None)))
                   p256_multibase ([x80; x24] ++ replicate 33 x07)%list
                   eq_refl ltac:(discriminate) eq_refl eq_refl)
                "p256-pub" (replicate 33 x07) ltac:(discriminate) eq_refl)).
    reflexivity.
  - apply (proj1
             (proj2
                (proj2
                   (proj1 (proj2 (proj2 (expected_alg_and_material_spec X25519
                                           (Some short_ed25519_multibase)
                                           None)))
                      short_ed25519_multibase
                      ([xed; x01] ++ replicate 31 x07)%list
                      eq_refl ltac:(discriminate) eq_refl eq_refl)
                   "ed25519-pub" (replicate 31 x07) ltac:(discriminate)
                   eq_refl)
                ED25519 eq_refl)).
    reflexivity.
Defined.

(** C9 on an encryption by Alice, whose key is an X25519 key, to Bob and
    Dave. *)
Lemma inconsistent_recipient_algorithms_witness :
  ecdh_1pu_encrypt bob_dave ALICE_KID alice_priv_key MESSAGE w0
  = (inl (CryptoServiceError "Recipient key types must be consistent"),
     mkWorld [supply3]
       [EvGenerate A256CBC_HS512 false; EvGenerate X25519 true]).
Proof.
  apply (inconsistent_recipient_algorithms bob_dave ALICE_KID alice_priv_key
           MESSAGE w0 (mkKey A256CBC_HS512 [] (Some supply1)) epk0
           [supply2; supply3] [supply3]).
  - apply Exists_cons_tl, Exists_cons_hd. discriminate.
  - reflexivity.
  - reflexivity.
Defined.

(** C10 on the store of the examples: Alice's X25519 key is returned under
    its kid. *)
Lemma fetch_key_by_kid_witness :
  ∃ ak, fetch_key_by_kid store_example "did:example:alice#key-1"
        = inr (Some ak)
        ∧ kid ak = "did:example:alice#key-1"
        ∧ key ak = mkKey X25519 (replicate 32 x07) (Some [x2a]).
Proof.
  apply (proj2 (fetch_key_by_kid_spec store_example "did:example:alice#key-1")
           (mkKeyEntry "key-1" (mkKey X25519 (replicate 32 x07) (Some [x2a])))).
  reflexivity.
Defined.

(** * Further properties of the key wrappers *)

Section key_resolution.
Context `{Askar} `{Multiformats}.

(** The two codec tables are inverse to each other. *)
Lemma alg_to_codec_inverse (alg : KeyAlg) (codec : string) :
  table_get alg alg_to_codec = Some codec ↔
  table_get codec codec_to_alg = Some alg.
Proof.
  split.
  - destruct alg; cbn; intros [= <-]; reflexivity.
  - cbn. repeat (case_decide; [subst; by intros [= <-]|]). discriminate.
Qed.

(** X1. The multikey of a key object decodes back to the public half of
    its key: [_multikey_to_key] undoes what [AskarKey.__init__] encodes,
    when the key's public bytes import under its algorithm. *)
Theorem multikey_round_trip `{!MultiformatsLaws} (k : Key) (id : string)
    (ak : AskarKey) :
  AskarKey_init k id = inr ak →
  Key_from_public_bytes (algorithm k) (get_public_bytes k)
  = Some (public_of k) →
  _multikey_to_key (multikey ak) = inr (public_of k).
Proof.
  unfold AskarKey_init.
  destruct (table_get (algorithm k) alg_to_codec) as [codec|] eqn:Hcodec;
    [|discriminate].
  intros [= <-] Himport. cbn [multikey]. unfold _multikey_to_key.
  apply alg_to_codec_inverse in Hcodec.
  rewrite decode_encode_base58, (unwrap_wrap _ _ _ Hcodec), Hcodec, Himport.
  reflexivity.
Qed.

(** What a constructed key object holds. *)
Lemma AskarKey_init_inr (k : Key) (id : string) (ak : AskarKey) :
  AskarKey_init k id = inr ak →
  key ak = k ∧ kid ak = id ∧ algorithm k ∈ [ED25519; X25519; K256].
Proof.
  unfold AskarKey_init.
  destruct (table_get (algorithm k) alg_to_codec) eqn:Hcodec; [|discriminate].
  intros [= <-]. do 2 (split; [reflexivity|]).
  destruct (algorithm k); try discriminate Hcodec;
    apply (bool_decide_unpack _); exact I.
Qed.

(** X2. A key object exists only for an Ed25519, X25519 or secp256k1 key:
    the constructor succeeds exactly for these algorithms, and then keeps
    the key and the kid it was given. *)
Theorem AskarKey_init_supported (k : Key) (id : string) :
  (algorithm k ∈ [ED25519; X25519; K256] ↔
   ∃ ak, AskarKey_init k id = inr ak)
  ∧ (∀ ak, AskarKey_init k id = inr ak → key ak = k ∧ kid ak = id)
  ∧ (algorithm k ∉ [ED25519; X25519; K256] →
     AskarKey_init k id = inl (ValueError "Unsupported key type")).
Proof.
  unfold AskarKey_init. split; [|split].
  - destruct (algorithm k); simpl; split; intros Hx;
      first [ by eexists
            | apply (bool_decide_unpack _); exact I
            | destruct Hx as [ak Hx]; discriminate Hx
            | exfalso; refine (bool_decide_eq_false_1 _ _ Hx); reflexivity ].
  - intros ak. destruct (table_get _ _); [|discriminate].
    by intros [= <-].
  - intros Hnot. destruct (algorithm k); simpl; try reflexivity;
      exfalso; apply Hnot; apply (bool_decide_unpack _); exact I.
Qed.

(** X3. The kid of a resolved verification method: an id that starts with
    [#] is put after the controller and a [#] of the code's own, any other
    id is taken as it is. *)
Theorem from_verification_method_kid (vm : gmap string string)
    (ident controller : string) (ak : AskarKey) :
  vm !! "id" = Some ident →
  vm !! "controller" = Some controller →
  from_verification_method vm = inr ak →
  kid ak = if String.prefix "#" ident
           then controller ++ "#" ++ ident else ident.
Proof.
  intros Hid Hc. unfold from_verification_method.
  rewrite Hid, Hc. cbn [default from_option id].
  repeat case_match; try discriminate;
    unfold rbind, AskarKey_init in *; repeat case_match; try discriminate;
    intros [= <-]; reflexivity.
Qed.

(** X4. A verification method without a type, an id or a controller (absent
    or empty) is refused with the error of the first one missing, in this
    order, whatever key material it carries. *)
Theorem from_verification_method_missing_field (vm : gmap string string) :
  (str_truthy (vm !! "type") = false →
   from_verification_method vm
   = inl (ValueError "Verification method missing type"))
  ∧ (str_truthy (vm !! "type") = true → str_truthy (vm !! "id") = false →
     from_verification_method vm
     = inl (ValueError "Verification method missing id"))
  ∧ (str_truthy (vm !! "type") = true → str_truthy (vm !! "id") = true →
     str_truthy (vm !! "controller") = false →
     from_verification_method vm
     = inl (ValueError "Verification method missing controller")).
Proof.
  unfold from_verification_method. split; [|split].
  - by intros ->.
  - by intros -> ->.
  - by intros -> -> ->.
Qed.

(** X5. What a resolved verification method had: a type, an id and a
    controller; for the type [Multikey] the field [publicKeyMultiBase]; for
    any other type an entry in the table of legacy types and exactly one of
    [publicKeyMultiBase] and [publicKeyBase58]; and the key it resolves to is
    an Ed25519, X25519 or secp256k1 key. *)
Theorem from_verification_method_resolved (vm : gmap string string)
    (ak : AskarKey) :
  from_verification_method vm = inr ak →
  ∃ vm_type,
    vm !! "type" = Some vm_type
    ∧ str_truthy (vm !! "type") = true
    ∧ str_truthy (vm !! "id") = true
    ∧ str_truthy (vm !! "controller") = true
    ∧ algorithm (key ak) ∈ [ED25519; X25519; K256]
    ∧ (if String.eqb vm_type "Multikey"
       then str_truthy (vm !! "publicKeyMultiBase") = true
       else is_Some (table_get vm_type type_to_alg)
            ∧ xorb (str_truthy (vm !! "publicKeyMultiBase"))
                (str_truthy (vm !! "publicKeyBase58")) = true).
Proof.
  unfold from_verification_method.
  destruct (str_truthy (vm !! "type")) eqn:Htype; [|discriminate].
  destruct (str_truthy (vm !! "id")) eqn:Hid; [|discriminate].
  destruct (str_truthy (vm !! "controller")) eqn:Hc; [|discriminate].
  cbn [negb]. destruct (vm !! "type") as [vm_type|] eqn:Ht; [|discriminate].
  cbn [default from_option id]. intros Hres. exists vm_type.
  assert (∀ k i, AskarKey_init k i = inr ak →
                 algorithm (key ak) ∈ [ED25519; X25519; K256]) as Hsup.
  { intros k i Hinit.
    by destruct (AskarKey_init_inr k i ak Hinit) as (-> & _ & Hin). }
  do 4 (split; [done|]).
  destruct (String.eqb vm_type "Multikey").
  - destruct (str_truthy (vm !! "publicKeyMultiBase")); [|discriminate].
    cbn [negb] in Hres. unfold rbind in Hres.
    destruct (_multikey_to_key _) as [e|k]; [discriminate|].
    split; [by eapply Hsup|done].
  - destruct (table_get vm_type type_to_alg) as [alg|]; [|discriminate].
    unfold rbind in Hres.
    destruct (_expected_alg_and_material_to_key _ _ _) as [e|k] eqn:Hk;
      [discriminate|].
    split; [by eapply Hsup|]. split; [done|].
    unfold _expected_alg_and_material_to_key in Hk.
    destruct (str_truthy (vm !! "publicKeyMultiBase")),
      (str_truthy (vm !! "publicKeyBase58")); done.
Qed.

(** X6. A method of a legacy type resolves only to a key of the algorithm
    its type stands for, given that the library imports public bytes under
    the algorithm it is asked for. *)
Theorem from_verification_method_legacy_algorithm (vm : gmap string string)
    (vm_type : string) (ak : AskarKey) :
  (∀ alg b k, Key_from_public_bytes alg b = Some k → algorithm k = alg) →
  vm !! "type" = Some vm_type →
  vm_type ≠ "Multikey" →
  from_verification_method vm = inr ak →
  table_get vm_type type_to_alg = Some (algorithm (key ak)).
Proof.
  intros Himport Ht Hne. unfold from_verification_method. rewrite Ht.
  destruct (str_truthy (Some vm_type)); [|discriminate].
  destruct (str_truthy (vm !! "id")); [|discriminate].
  destruct (str_truthy (vm !! "controller")); [|discriminate].
  cbn [negb default from_option id].
  destruct (String.eqb_spec vm_type "Multikey") as [|_]; [done|].
  destruct (table_get vm_type type_to_alg) as [alg|]; [|discriminate].
  unfold rbind.
  destruct (_expected_alg_and_material_to_key _ _ _) as [e|k] eqn:Hk;
    [discriminate|].
  intros Hinit.
  destruct (AskarKey_init_inr _ _ _ Hinit) as (-> & _ & _). f_equal.
  unfold _expected_alg_and_material_to_key in Hk.
  repeat case_match; try discriminate; simplify_eq;
    try (symmetry; by eapply Himport); try done.
  all: unfold rbind in Hk; repeat case_match; try discriminate; simplify_eq.
  all: match goal with H : bool_decide (algorithm _ ≠ _) = false |- _ =>
         apply bool_decide_eq_false_1 in H; apply dec_stable in H;
         by rewrite H end.
Qed.

Lemma expected_material_askar_error_only (alg : KeyAlg)
    (mb b58 : option string) :
  _expected_alg_and_material_to_key alg mb b58 = inl AskarError →
  str_truthy mb = false
  ∧ ∃ s decoded,
      b58 = Some s ∧ s ≠ ""
      ∧ multibase_decode ("z" ++ s) = Some decoded
      ∧ Key_from_public_bytes alg decoded = None.
Proof.
  unfold _expected_alg_and_material_to_key.
  destruct (str_truthy mb) eqn:Hmb, (str_truthy b58) eqn:Hb;
    cbn [andb negb]; try discriminate.
  - destruct (multibase_decode _); [|discriminate].
    case_bool_decide.
    + destruct (Key_from_public_bytes _ _); discriminate.
    + unfold rbind, _multikey_to_key.
      repeat case_match; simplify_eq; discriminate.
  - apply str_truthy_Some in Hb as (s & -> & Hs).
    cbn [default from_option id].
    destruct (multibase_decode _) as [decoded|] eqn:Hd; [|discriminate].
    destruct (Key_from_public_bytes _ _) eqn:Hk; [discriminate|].
    intros _. split; [done|]. by exists s, decoded.
Qed.

(** X7. The library's own error escapes the resolution of key material only
    on the base58 path: [AskarError] is the result exactly when no multibase
    material is given, the base58 material decodes, and the import of the
    decoded bytes fails. *)
Theorem expected_material_askar_error (alg : KeyAlg)
    (mb b58 : option string) :
  _expected_alg_and_material_to_key alg mb b58 = inl AskarError ↔
  str_truthy mb = false
  ∧ ∃ s decoded,
      b58 = Some s ∧ s ≠ ""
      ∧ multibase_decode ("z" ++ s) = Some decoded
      ∧ Key_from_public_bytes alg decoded = None.
Proof.
  split; [apply expected_material_askar_error_only|].
  unfold _expected_alg_and_material_to_key.
  intros (-> & s & decoded & -> & Hs & Hd & Hk).
  assert (str_truthy (Some s) = true) as ->.
  { simpl. by destruct (String.eqb_spec s ""). }
  cbn [andb negb default from_option id]. by rewrite Hd, Hk.
Qed.

(** X18. Resolving a verification method lets the library's own error out in
    one case only: a method of a legacy type, with no multibase material,
    whose base58 material decodes to bytes that the library does not import
    under the algorithm of the type.  A [Multikey] method never ends in
    [AskarError]. *)
Theorem from_verification_method_askar_error (vm : gmap string string) :
  from_verification_method vm = inl AskarError →
  ∃ vm_type alg s decoded,
    vm !! "type" = Some vm_type
    ∧ vm_type ≠ "Multikey"
    ∧ table_get vm_type type_to_alg = Some alg
    ∧ str_truthy (vm !! "publicKeyMultiBase") = false
    ∧ vm !! "publicKeyBase58" = Some s ∧ s ≠ ""
    ∧ multibase_decode ("z" ++ s) = Some decoded
    ∧ Key_from_public_bytes alg decoded = None.
Proof.
  unfold from_verification_method.
  destruct (str_truthy (vm !! "type")) eqn:Htype; [|discriminate].
  destruct (str_truthy (vm !! "id")); [|discriminate].
  destruct (str_truthy (vm !! "controller")); [|discriminate].
  cbn [negb]. destruct (vm !! "type") as [vm_type|] eqn:Ht; [|discriminate].
  cbn [default from_option id].
  assert (∀ k i, AskarKey_init k i ≠ inl AskarError) as Hinit.
  { intros k i. unfold AskarKey_init. by case_match. }
  destruct (String.eqb_spec vm_type "Multikey") as [->|Hne].
  - destruct (str_truthy (vm !! "publicKeyMultiBase")); [|discriminate].
    cbn [negb]. unfold rbind.
    destruct (_multikey_to_key _) as [e|k] eqn:Hk.
    + intros [= ->]. unfold _multikey_to_key in Hk.
      repeat case_match; discriminate.
    + intros Hk'. by apply Hinit in Hk'.
  - destruct (table_get vm_type type_to_alg) as [alg|] eqn:Halg;
      [|discriminate].
    unfold rbind.
    destruct (_expected_alg_and_material_to_key _ _ _) as [e|k] eqn:Hk.
    + intros [= ->].
      apply expected_material_askar_error_only in Hk
        as (Hmb & s & decoded & Hs & Hne' & Hd & Himp).
      by exists vm_type, alg, s, decoded.
    + intros Hk'. by apply Hinit in Hk'.
Qed.

End key_resolution.

(** X1 on Bob's public key. *)
Lemma multikey_round_trip_witness :
  _multikey_to_key (multikey bob_key) = inr (public_of (public_of bob_sk)).
Proof.
  apply (multikey_round_trip (public_of bob_sk) BOB_KID bob_key);
    reflexivity.
Defined.

(** X3 on a method with a fragment id and on one with an absolute id. *)
Lemma from_verification_method_kid_witness :
  kid resolved_fragment = "did:example:123##6LSqPZfn"
  ∧ kid resolved_absolute = "did:example:123#key-1".
Proof.
  split.
  - apply (from_verification_method_kid vm_example_read "#6LSqPZfn"
             "did:example:123" resolved_fragment); reflexivity.
  - apply (from_verification_method_kid vm_absolute "did:example:123#key-1"
             "did:example:123" resolved_absolute); reflexivity.
Defined.

(** X5 on the method with an absolute id. *)
Lemma from_verification_method_resolved_witness :
  ∃ vm_type,
    vm_absolute !! "type" = Some vm_type
    ∧ str_truthy (vm_absolute !! "type") = true
    ∧ str_truthy (vm_absolute !! "id") = true
    ∧ str_truthy (vm_absolute !! "controller") = true
    ∧ algorithm (key resolved_absolute) ∈ [ED25519; X25519; K256]
    ∧ (if String.eqb vm_type "Multikey"
       then str_truthy (vm_absolute !! "publicKeyMultiBase") = true
       else is_Some (table_get vm_type type_to_alg)
            ∧ xorb (str_truthy (vm_absolute !! "publicKeyMultiBase"))
                (str_truthy (vm_absolute !! "publicKeyBase58")) = true).
Proof.
  apply (from_verification_method_resolved vm_absolute resolved_absolute).
  reflexivity.
Defined.

(** X6 on the method with an absolute id. *)
Lemma from_verification_method_legacy_algorithm_witness :
  table_get "X25519KeyAgreementKey2020" type_to_alg
  = Some (algorithm (key resolved_absolute)).
Proof.
  apply (from_verification_method_legacy_algorithm vm_absolute
           "X25519KeyAgreementKey2020" resolved_absolute).
  - intros alg b k. simpl. unfold Toy.from_public_bytes.
    case_bool_decide; [|discriminate]. by intros [= <-].
  - reflexivity.
  - discriminate.
  - reflexivity.
Defined.

(** * Further properties of decryption *)

Section decryption.
Context `{Askar} `{Wire}.

Lemma decrypt_discipline_unreached (unwrap_of_mode : Event → bool)
    (rk sk : Key) (w : World) :
  decrypt_discipline unwrap_of_mode rk sk w w.
Proof.
  split; [done|]. exists []. rewrite app_nil_r. split; [done|by left].
Qed.

Ltac discipline_trace :=
  split; [reflexivity|]; eexists; split;
  [ unfold logged; cbn [trace entropy snd]; rewrite <- ?app_assoc;
    reflexivity |].

Lemma es_wrap_alg (alg_id : string) :
  alg_id ∈ es_algs →
  (alg_id, ByName (str_from 8 alg_id))
    ∈ [ ("ECDH-ES+A128KW", ByName "A128KW");
        ("ECDH-ES+A256KW", ByName "A256KW") ].
Proof.
  unfold es_algs. rewrite !elem_of_cons, elem_of_nil.
  intros [->|[->|[]]]; [left|right; left]; reflexivity.
Qed.

Lemma pu_wrap_alg (alg_id : string) :
  alg_id ∈ pu_algs →
  (alg_id, ByName (str_from 9 alg_id))
    ∈ [ ("ECDH-1PU+A128KW", ByName "A128KW");
        ("ECDH-1PU+A256KW", ByName "A256KW") ].
Proof.
  unfold pu_algs. rewrite !elem_of_cons, elem_of_nil.
  intros [->|[->|[]]]; [left|right; left]; reflexivity.
Qed.

(** X8. Whatever it is given and however it ends, a decryption draws no
    entropy and makes at most three library calls, in this order and each
    at most once: loading the ephemeral key, unwrapping the content key with
    the key that was loaded, decrypting the payload with the key that was
    unwrapped.  A later call is made only when the one before it succeeded,
    and the calls stop at the first that fails.  The unwrap is the one of
    the mode, and is only ever asked for with a key-agreement algorithm and
    a content encryption that passed the checks, with the key-wrap algorithm
    that the key-agreement name ends in, and with the keys the caller gave. *)
Theorem decrypt_calls (wrapper : Wrapper) (recip_key sender_key : AskarKey)
    (w : World) :
  decrypt_discipline is_es_unwrap (key recip_key) (key sender_key) w
    (ecdh_es_decrypt wrapper recip_key w).2
  ∧ decrypt_discipline is_pu_unwrap (key recip_key) (key sender_key) w
      (ecdh_1pu_decrypt wrapper recip_key sender_key w).2.
Proof.
  split.
  - unfold ecdh_es_decrypt. rewrite mbind_lift.
    destruct (parse_wrapper wrapper) as [err|e];
      [apply decrypt_discipline_unreached|].
    destruct (checked_in (protected e !! "alg") _) as [alg_id|] eqn:Halg;
      [|apply decrypt_discipline_unreached].
    apply checked_in_supported in Halg as [_ Halg].
    destruct (get_recipient e (kid recip_key)) as [recip|];
      [|apply decrypt_discipline_unreached].
    destruct (checked_in (header recip !! "enc") _) as [enc_alg|] eqn:Henc;
      [|apply decrypt_discipline_unreached].
    apply checked_in_supported in Henc as [_ Henc].
    destruct (header recip !! "epk") as [epk_header|];
      [|apply decrypt_discipline_unreached].
    destruct (truthy epk_header); [|apply decrypt_discipline_unreached].
    unfold from_jwk. rewrite mbind_try_call_eq.
    destruct (Key_from_jwk epk_header) as [epk|] eqn:Hload.
    2:{ discipline_trace. right; left. eexists.
        split; [reflexivity|]. split; [reflexivity|]. exact Hload. }
    unfold es_receiver_unwrap_key. rewrite mbind_try_call_eq.
    destruct (EcdhEs_receiver_unwrap_key _ _ _ _ _ _ _ _) as [cek|] eqn:Hun.
    2:{ discipline_trace. right; right; left. eexists _, _.
        split; [reflexivity|]. split; [reflexivity|]. split; [reflexivity|].
        split; [split; [by apply es_wrap_alg|done]|].
        split; [exact Hload|exact Hun]. }
    unfold key_aead_decrypt. rewrite mbind_try_call_eq.
    destruct (aead_decrypt _ _ _ _ _) as [pt|];
      ( discipline_trace; do 3 right; eexists _, _, _;
        split; [reflexivity|]; split; [reflexivity|]; split; [reflexivity|];
        split; [split; [by apply es_wrap_alg|done]|];
        split; [exact Hload|]; split; [reflexivity|exact Hun] ).
  - unfold ecdh_1pu_decrypt. rewrite mbind_lift.
    destruct (parse_wrapper wrapper) as [err|e];
      [apply decrypt_discipline_unreached|].
    destruct (checked_in (protected e !! "alg") _) as [alg_id|] eqn:Halg;
      [|apply decrypt_discipline_unreached].
    apply checked_in_supported in Halg as [_ Halg].
    destruct (checked_in (protected e !! "enc") _) as [enc_alg|] eqn:Henc;
      [|apply decrypt_discipline_unreached].
    apply checked_in_supported in Henc as [_ Henc].
    destruct (get_recipient e (kid recip_key)) as [recip|];
      [|apply decrypt_discipline_unreached].
    destruct (header recip !! "epk") as [epk_header|];
      [|apply decrypt_discipline_unreached].
    destruct (truthy epk_header); [|apply decrypt_discipline_unreached].
    unfold from_jwk. rewrite mbind_try_call_eq.
    destruct (Key_from_jwk epk_header) as [epk|] eqn:Hload.
    2:{ discipline_trace. right; left. eexists.
        split; [reflexivity|]. split; [reflexivity|]. exact Hload. }
    unfold pu_receiver_unwrap_key. rewrite mbind_try_call_eq.
    destruct (Ecdh1PU_receiver_unwrap_key _ _ _ _ _ _ _ _ _ _)
      as [cek|] eqn:Hun.
    2:{ discipline_trace. right; right; left. eexists _, _.
        split; [reflexivity|]. split; [reflexivity|]. split; [reflexivity|].
        split; [split; [by apply pu_wrap_alg|done]|].
        split; [exact Hload|exact Hun]. }
    unfold key_aead_decrypt. rewrite mbind_try_call_eq.
    destruct (aead_decrypt _ _ _ _ _) as [pt|];
      ( discipline_trace; do 3 right; eexists _, _, _;
        split; [reflexivity|]; split; [reflexivity|]; split; [reflexivity|];
        split; [split; [by apply pu_wrap_alg|done]|];
        split; [exact Hload|]; split; [reflexivity|exact Hun] ).
Qed.

(** X9. A plaintext that a decryption returns is what the library's AEAD
    decryption returned for the envelope's ciphertext, nonce and tag, with
    the envelope's AAD, under the key that the library unwrapped from the
    encrypted key of the caller's recipient entry; nothing is returned
    without both calls having succeeded. *)
Theorem decrypt_returns_authenticated (wrapper : Wrapper)
    (recip_key sender_key : AskarKey) (w w' : World) (plaintext : bytes) :
  (ecdh_es_decrypt wrapper recip_key w = (inr plaintext, w') →
   ∃ e recip alg_id enc_alg epk_header epk cek,
     parse_wrapper wrapper = inr e
     ∧ get_recipient e (kid recip_key) = Some recip
     ∧ protected e !! "alg" = Some (JStr alg_id)
     ∧ header recip !! "enc" = Some (JStr enc_alg)
     ∧ header recip !! "epk" = Some epk_header
     ∧ Key_from_jwk epk_header = Some epk
     ∧ EcdhEs_receiver_unwrap_key alg_id (header recip !! "apu")
         (header recip !! "apv") (ByName (str_from 8 alg_id)) enc_alg epk
         (key recip_key) (encrypted_key recip) = Some cek
     ∧ aead_decrypt cek (ciphertext e) (iv e) (tag e) (combined_aad e)
       = Some plaintext)
  ∧ (ecdh_1pu_decrypt wrapper recip_key sender_key w = (inr plaintext, w') →
     ∃ e recip alg_id enc_alg epk_header epk cek,
       parse_wrapper wrapper = inr e
       ∧ get_recipient e (kid recip_key) = Some recip
       ∧ protected e !! "alg" = Some (JStr alg_id)
       ∧ protected e !! "enc" = Some (JStr enc_alg)
       ∧ header recip !! "epk" = Some epk_header
       ∧ Key_from_jwk epk_header = Some epk
       ∧ Ecdh1PU_receiver_unwrap_key alg_id (protected e !! "apu")
           (protected e !! "apv") (ByName (str_from 9 alg_id)) enc_alg epk
           (key sender_key) (key recip_key) (encrypted_key recip) (tag e)
         = Some cek
       ∧ aead_decrypt cek (ciphertext e) (iv e) (tag e) (combined_aad e)
         = Some plaintext).
Proof.
  split.
  - unfold ecdh_es_decrypt. rewrite mbind_lift.
    destruct (parse_wrapper wrapper) as [err|e] eqn:Hparse; [discriminate|].
    destruct (checked_in (protected e !! "alg") _) as [alg_id|] eqn:Halg;
      [|discriminate].
    apply checked_in_supported in Halg as [Halg _].
    destruct (get_recipient e (kid recip_key)) as [recip|] eqn:Hrecip;
      [|discriminate].
    destruct (checked_in (header recip !! "enc") _) as [enc_alg|] eqn:Henc;
      [|discriminate].
    apply checked_in_supported in Henc as [Henc _].
    destruct (header recip !! "epk") as [epk_header|] eqn:Hepk;
      [|discriminate].
    destruct (truthy epk_header); [|discriminate].
    unfold from_jwk. rewrite mbind_try_call_eq.
    destruct (Key_from_jwk epk_header) as [epk|] eqn:Hjwk; [|discriminate].
    unfold es_receiver_unwrap_key. rewrite mbind_try_call_eq.
    destruct (EcdhEs_receiver_unwrap_key _ _ _ _ _ _ _ _) as [cek|] eqn:Hcek;
      [|discriminate].
    unfold key_aead_decrypt. rewrite mbind_try_call_eq.
    destruct (aead_decrypt _ _ _ _ _) as [pt|] eqn:Hpt; [|discriminate].
    intros [= <- _].
    exists e, recip, alg_id, enc_alg, epk_header, epk, cek.
    repeat split; assumption.
  - unfold ecdh_1pu_decrypt. rewrite mbind_lift.
    destruct (parse_wrapper wrapper) as [err|e] eqn:Hparse; [discriminate|].
    destruct (checked_in (protected e !! "alg") _) as [alg_id|] eqn:Halg;
      [|discriminate].
    apply checked_in_supported in Halg as [Halg _].
    destruct (checked_in (protected e !! "enc") _) as [enc_alg|] eqn:Henc;
      [|discriminate].
    apply checked_in_supported in Henc as [Henc _].
    destruct (get_recipient e (kid recip_key)) as [recip|] eqn:Hrecip;
      [|discriminate].
    destruct (header recip !! "epk") as [epk_header|] eqn:Hepk;
      [|discriminate].
    destruct (truthy epk_header); [|discriminate].
    unfold from_jwk. rewrite mbind_try_call_eq.
    destruct (Key_from_jwk epk_header) as [epk|] eqn:Hjwk; [|discriminate].
    unfold pu_receiver_unwrap_key. rewrite mbind_try_call_eq.
    destruct (Ecdh1PU_receiver_unwrap_key _ _ _ _ _ _ _ _ _ _)
      as [cek|] eqn:Hcek; [|discriminate].
    unfold key_aead_decrypt. rewrite mbind_try_call_eq.
    destruct (aead_decrypt _ _ _ _ _) as [pt|] eqn:Hpt; [|discriminate].
    intros [= <- _].
    exists e, recip, alg_id, enc_alg, epk_header, epk, cek.
    repeat split; assumption.
Qed.

Lemma get_recipient_absent (e : JweEnvelope) (k : string) :
  Forall (λ r, is_str (header r !! "kid") k = false) (recipients e) →
  get_recipient e k = None.
Proof.
  unfold get_recipient. intros Hall.
  induction Hall as [|r rs Hr _ IH]; [done|].
  cbn [List.find]. by rewrite Hr.
Qed.

Lemma recipient_absent_not_found (wrapper : Wrapper) (e : JweEnvelope)
    (recip_key sender_key : AskarKey) (w : World) :
  parse_wrapper wrapper = inr e →
  get_recipient e (kid recip_key) = None →
  (supported es_algs (protected e !! "alg") →
   ecdh_es_decrypt wrapper recip_key w
   = (inl (CryptoServiceError
             ("Recipient header not found: " ++ kid recip_key)), w))
  ∧ (supported pu_algs (protected e !! "alg") →
     supported pu_enc_algs (protected e !! "enc") →
     ecdh_1pu_decrypt wrapper recip_key sender_key w
     = (inl (CryptoServiceError
               ("Recipient header not found: " ++ kid recip_key)), w)).
Proof.
  intros Hparse Habsent. unfold ecdh_es_decrypt, ecdh_1pu_decrypt.
  rewrite !mbind_lift, Hparse, Habsent. fold es_algs pu_algs pu_enc_algs.
  split.
  - intros (s & -> & Hs). rewrite checked_in_Some; [done|done|].
    intros ->. revert Hs. by apply (bool_decide_eq_false_1 _).
  - intros (s & -> & Hs) (s' & -> & Hs').
    rewrite !checked_in_Some; [done|done| |done|].
    + intros ->. revert Hs'. by apply (bool_decide_eq_false_1 _).
    + intros ->. revert Hs. by apply (bool_decide_eq_false_1 _).
Qed.

(** X10. A key whose kid no recipient entry of the envelope carries is
    turned away with the service's error and without a library call: with a
    supported key agreement (and, in authenticated mode, a supported content
    encryption) the error is the recipient-not-found one, naming the kid. *)
Theorem recipient_not_found (wrapper : Wrapper) (e : JweEnvelope)
    (recip_key sender_key : AskarKey) (w : World) :
  parse_wrapper wrapper = inr e →
  Forall (λ r, is_str (header r !! "kid") (kid recip_key) = false)
    (recipients e) →
  (∃ msg, ecdh_es_decrypt wrapper recip_key w
          = (inl (CryptoServiceError msg), w))
  ∧ (∃ msg, ecdh_1pu_decrypt wrapper recip_key sender_key w
            = (inl (CryptoServiceError msg), w))
  ∧ (supported es_algs (protected e !! "alg") →
     ecdh_es_decrypt wrapper recip_key w
     = (inl (CryptoServiceError
               ("Recipient header not found: " ++ kid recip_key)), w))
  ∧ (supported pu_algs (protected e !! "alg") →
     supported pu_enc_algs (protected e !! "enc") →
     ecdh_1pu_decrypt wrapper recip_key sender_key w
     = (inl (CryptoServiceError
               ("Recipient header not found: " ++ kid recip_key)), w)).
Proof.
  intros Hparse Habsent. apply get_recipient_absent in Habsent.
  split; [|split;
           [|exact (recipient_absent_not_found wrapper e recip_key sender_key
                      w Hparse Habsent)]];
    unfold ecdh_es_decrypt, ecdh_1pu_decrypt;
    rewrite !mbind_lift, Hparse, Habsent; fold es_algs pu_algs pu_enc_algs.
  - destruct (checked_in _ es_algs); by eexists.
  - destruct (checked_in _ pu_algs); [|by eexists].
    destruct (checked_in _ pu_enc_algs); by eexists.
Qed.

(** X11. An envelope whose key agreement is missing or is not one of the
    mode's two is refused first, naming the value found, and without a
    library call. *)
Theorem unsupported_alg_rejected (wrapper : Wrapper) (e : JweEnvelope)
    (recip_key sender_key : AskarKey) (w : World) :
  parse_wrapper wrapper = inr e →
  (¬ supported es_algs (protected e !! "alg") →
   ecdh_es_decrypt wrapper recip_key w
   = (inl (CryptoServiceError
             ("Missing or unsupported ECDH-ES algorithm: "
                ++ py_str (protected e !! "alg"))), w))
  ∧ (¬ supported pu_algs (protected e !! "alg") →
     ecdh_1pu_decrypt wrapper recip_key sender_key w
     = (inl (CryptoServiceError
               ("Unsupported ECDH-1PU algorithm: "
                  ++ py_str (protected e !! "alg"))), w)).
Proof.
  intros Hparse. unfold ecdh_es_decrypt, ecdh_1pu_decrypt.
  rewrite !mbind_lift, Hparse. fold es_algs pu_algs.
  split; intros Hn; by rewrite (checked_in_unsupported _ _ Hn).
Qed.

(** X12. A recipient entry that passes the checks but carries no ephemeral
    key (none, or an empty value) ends the decryption in the
    missing-ephemeral-key error before any library call. *)
Theorem missing_ephemeral_key (wrapper : Wrapper) (e : JweEnvelope)
    (recip : JweRecipient) (recip_key sender_key : AskarKey) (w : World) :
  parse_wrapper wrapper = inr e →
  get_recipient e (kid recip_key) = Some recip →
  truthy_opt (header recip !! "epk") = false →
  (supported es_algs (protected e !! "alg") →
   supported es_enc_algs (header recip !! "enc") →
   ecdh_es_decrypt wrapper recip_key w
   = (inl (CryptoServiceError "Missing ephemeral key"), w))
  ∧ (supported pu_algs (protected e !! "alg") →
     supported pu_enc_algs (protected e !! "enc") →
     ecdh_1pu_decrypt wrapper recip_key sender_key w
     = (inl (CryptoServiceError "Missing ephemeral key"), w)).
Proof.
  intros Hparse Hrecip Hepk. unfold ecdh_es_decrypt, ecdh_1pu_decrypt.
  rewrite !mbind_lift, Hparse, Hrecip.
  fold es_algs pu_algs pu_enc_algs es_enc_algs.
  assert (∀ (l : list string) s,
            s ∈ l → bool_decide ("" ∈ l) = false → s ≠ "") as Hne.
  { intros l s Hs Hl ->. by apply bool_decide_eq_false_1 in Hl. }
  split.
  - intros (s & -> & Hs) (s' & -> & Hs').
    rewrite !checked_in_Some; [|done|by eapply Hne|done|by eapply Hne].
    destruct (header recip !! "epk") as [v|]; [|done].
    simpl in Hepk. by rewrite Hepk.
  - intros (s & -> & Hs) (s' & -> & Hs').
    rewrite !checked_in_Some; [|done|by eapply Hne|done|by eapply Hne].
    destruct (header recip !! "epk") as [v|]; [|done].
    simpl in Hepk. by rewrite Hepk.
Qed.

End decryption.

(** * Further properties of encryption followed by decryption *)

Section composition.
Context `{Askar} `{Wire} `{!WireLaws}.

Lemma built_recipients_absent (R : string * AskarKey → JweRecipient → Prop)
    (to_keys : list (string * AskarKey)) (recs : list JweRecipient)
    (k : string) :
  (∀ kv r, R kv r → header r !! "kid" = Some (JStr kv.1)) →
  Forall2 R to_keys recs →
  k ∉ to_keys.*1 →
  Forall (λ r, is_str (header r !! "kid") k = false) recs.
Proof.
  intros Hkid Hrecs.
  induction Hrecs as [|[k' pk'] r tks recs HR _ IH]; intros Hk.
  - constructor.
  - apply not_elem_of_cons in Hk as [Hne Hk]. constructor; [|by apply IH].
    rewrite (Hkid _ _ HR). cbn [is_str fst].
    destruct (String.eqb_spec k' k) as [->|]; [|done]. by destruct Hne.
Qed.

(** X13. What either encryption returns is not addressed to a key outside
    the mapping: decrypting it with a key whose kid is not among the
    recipients' kids ends in the recipient-not-found error, naming that kid,
    before any library call. *)
Theorem decrypt_for_other_key (to_keys : list (string * AskarKey))
    (sender_kid : string) (sender_key sender_pub : AskarKey)
    (message : bytes) (other_key : AskarKey) :
  kid other_key ∉ to_keys.*1 →
  (∀ w w' out w2,
     ecdh_es_encrypt to_keys message w = (inr out, w') →
     ecdh_es_decrypt (WBytes out) other_key w2
     = (inl (CryptoServiceError
               ("Recipient header not found: " ++ kid other_key)), w2))
  ∧ (∀ w w' out w2,
       ecdh_1pu_encrypt to_keys sender_kid sender_key message w
       = (inr out, w') →
       ecdh_1pu_decrypt (WBytes out) other_key sender_pub w2
       = (inl (CryptoServiceError
                 ("Recipient header not found: " ++ kid other_key)), w2)).
Proof.
  intros Hother. split.
  - intros w w' out w2 Hrun.
    apply ecdh_es_encrypt_inr in Hrun
      as (cek & s1 & payload & s & s' & recs & _ & Hrecs & _ & ->).
    eapply (recipient_absent_not_found _ _ other_key sender_pub w2
              (parse_wrapper_bytes _)).
    + apply get_recipient_absent. cbn [recipients].
      eapply (built_recipients_absent (es_wrapped cek)); [|done..].
      by intros kv r (epk & e & _ & ->).
    + exists "ECDH-ES+A256KW". split; [reflexivity|].
      by apply (bool_decide_unpack _).
  - intros w w' out w2 Hrun.
    apply ecdh_1pu_encrypt_inr in Hrun
      as (cek & s1 & epk & s2 & payload & s3 & recs & Hrun).
    cbv zeta in Hrun. destruct Hrun as (_ & _ & _ & _ & Hrecs & -> & _ & _).
    eapply (recipient_absent_not_found _ _ other_key sender_pub w2
              (parse_wrapper_bytes _)).
    + apply get_recipient_absent. cbn [recipients].
      eapply (built_recipients_absent
                (pu_wrapped (b64url sender_kid)
                   (b64url (join (sort to_keys.*1))) epk (key sender_key) cek
                   (enc_tag payload))); [|done..].
      by intros kv r (e & _ & ->).
    + exists "ECDH-1PU+A256KW". split; [reflexivity|].
      by apply (bool_decide_unpack _).
    + exists "A256CBC-HS512". split; [reflexivity|].
      by apply (bool_decide_unpack _).
Qed.

(** X14. The two modes do not decrypt each other's envelopes: what
    anonymous encryption returns is refused by authenticated decryption, and
    what authenticated encryption returns by anonymous decryption, each with
    the unsupported-algorithm error that names the other mode's key
    agreement, before any library call. *)
Theorem mode_confusion_rejected (to_keys : list (string * AskarKey))
    (sender_kid : string) (sender_key sender_pub recip_key : AskarKey)
    (message : bytes) :
  (∀ w w' out w2,
     ecdh_es_encrypt to_keys message w = (inr out, w') →
     ecdh_1pu_decrypt (WBytes out) recip_key sender_pub w2
     = (inl (CryptoServiceError
               "Unsupported ECDH-1PU algorithm: ECDH-ES+A256KW"), w2))
  ∧ (∀ w w' out w2,
       ecdh_1pu_encrypt to_keys sender_kid sender_key message w
       = (inr out, w') →
       ecdh_es_decrypt (WBytes out) recip_key w2
       = (inl (CryptoServiceError
                 "Missing or unsupported ECDH-ES algorithm: ECDH-1PU+A256KW"),
          w2)).
Proof.
  split.
  - intros w w' out w2 Hrun.
    apply ecdh_es_encrypt_inr in Hrun
      as (cek & s1 & payload & s & s' & recs & _ & _ & _ & ->).
    unfold ecdh_1pu_decrypt. rewrite mbind_lift, parse_wrapper_bytes.
    rewrite checked_in_unsupported; [reflexivity|].
    intros (s0 & [= <-] & Hs0). revert Hs0.
    by apply (bool_decide_eq_false_1 _).
  - intros w w' out w2 Hrun.
    apply ecdh_1pu_encrypt_inr in Hrun
      as (cek & s1 & epk & s2 & payload & s3 & recs & Hrun).
    cbv zeta in Hrun. destruct Hrun as (_ & _ & _ & _ & _ & -> & _ & _).
    unfold ecdh_es_decrypt. rewrite mbind_lift, parse_wrapper_bytes.
    rewrite checked_in_unsupported; [reflexivity|].
    intros (s0 & [= <-] & Hs0). revert Hs0.
    by apply (bool_decide_eq_false_1 _).
Qed.

End composition.

(** * Further properties of encryption *)

Section encryption.
Context `{Askar} `{Wire}.

Lemma es_wrap_recipients_run (cek : Key) (to_keys : list (string * AskarKey))
    (b b' : JweBuilder) (w w' : World) :
  es_wrap_recipients "ECDH-ES+A256KW" A256KW cek to_keys b w = (inr b', w') →
  ∃ steps,
    Forall2 (es_step cek) to_keys steps
    ∧ b' = mkJweBuilder (b_protected b) (b_recipients b ++ steps.*2)
             (b_payload b)
    ∧ trace w'
      = (trace w ++ concat (zip_with (es_recipient_events cek) to_keys steps))%list.
Proof.
  revert b w. induction to_keys as [|[k rk] tks IH]; intros b w; simpl.
  - intros [= <- <-]. exists []. split; [constructor|].
    cbn. rewrite !app_nil_r. by destruct b.
  - unfold generate. rewrite mbind_try_call_random.
    destruct (Key_generate _ _ _) as [[epk|] s1] eqn:Hepk; [|discriminate].
    cbn [fst snd]. unfold es_sender_wrap_key. rewrite mbind_call.
    destruct (EcdhEs_sender_wrap_key _ _ _ _ _ _ _) as [e|] eqn:He;
      [|discriminate].
    rewrite mbind_add_recipient.
    intros Hrest. apply IH in Hrest as (steps & Hsteps & -> & Htr).
    eexists ((epk, _) :: steps). split; [|split].
    + constructor; [|done]. split; cbn [fst snd].
      * eexists _, _. exact Hepk.
      * exists e. split; [exact He|reflexivity].
    + cbn. by rewrite <-app_assoc.
    + rewrite Htr. cbn. by rewrite <-!app_assoc.
Qed.

Lemma es_recipient_events_generate (cek : Key)
    (to_keys : list (string * AskarKey)) (steps : list (Key * JweRecipient)) :
  length steps = length to_keys →
  length (List.filter is_ephemeral_generate
            (concat (zip_with (es_recipient_events cek) to_keys steps)))
  = length to_keys.
Proof.
  revert steps. induction to_keys as [|kv tks IH]; intros [|st steps];
    try done.
  intros [= Hlen]. cbn. by rewrite IH.
Qed.

(** X15. A run of anonymous encryption that returns has made exactly these
    calls, in this order: the content key is generated; then, for each
    recipient in turn, an ephemeral key of the recipient's algorithm is
    generated, the content key is wrapped with it, and the recipient is
    added with its kid and that ephemeral key; only then the protected header
    is set and the payload encrypted with its bytes as AAD.  As many
    ephemeral keys are generated as there are recipients. *)
Theorem es_encrypt_order (to_keys : list (string * AskarKey))
    (message : bytes) (w w' : World) (out : bytes) :
  ecdh_es_encrypt to_keys message w = (inr out, w') →
  ∃ cek s1 steps payload s2 s3 evs,
    Key_generate XC20P false (entropy w) = (Some cek, s1)
    ∧ Forall2 (es_step cek) to_keys steps
    ∧ aead_encrypt cek message (aad_of es_protected) s2 = (Some payload, s3)
    ∧ out = encode_utf8
              (to_json
                 (mkJweEnvelope es_protected (aad_of es_protected) ∅ steps.*2
                    (enc_nonce payload) (enc_ciphertext payload)
                    (enc_tag payload)))
    ∧ trace w' = (trace w ++ evs)%list
    ∧ evs
      = ([EvGenerate XC20P false]
         ++ concat (zip_with (es_recipient_events cek) to_keys steps)
         ++ [ EvSetProtected es_protected;
              EvAeadEncrypt cek message (aad_of es_protected);
              EvSetPayload (enc_ciphertext payload) (enc_nonce payload)
                (enc_tag payload) ])%list
    ∧ length (List.filter is_ephemeral_generate evs) = length to_keys.
Proof.
  unfold ecdh_es_encrypt.
  destruct to_keys as [|kv tks] eqn:Htk; [discriminate|]. rewrite <-Htk.
  unfold generate. rewrite mbind_try_call_random.
  destruct (Key_generate XC20P false (entropy w)) as [[cek|] s1] eqn:Hcek;
    [|discriminate].
  cbn [fst snd]. unfold mbind at 1.
  destruct (es_wrap_recipients _ _ _ _ _ _) as [[e|b'] w1] eqn:Hwrap;
    [discriminate|].
  apply es_wrap_recipients_run in Hwrap as (steps & Hsteps & -> & Htr).
  change (b_recipients JweBuilder_new ++ steps.*2)%list with (steps.*2).
  rewrite mbind_set_protected. unfold key_aead_encrypt.
  rewrite mbind_try_call_random.
  change (protected_bytes _) with (aad_of es_protected).
  destruct (aead_encrypt cek message _ _) as [[payload|] s3] eqn:Hpay;
    [|discriminate].
  cbn [fst snd]. rewrite mbind_set_payload, mbind_lift.
  unfold build. cbn [b_payload b_recipients b_protected].
  destruct steps as [|st steps0] eqn:Hst.
  { exfalso. rewrite Htk in Hsteps. by apply Forall2_nil_inv_r in Hsteps. }
  rewrite <-Hst in *. cbn [fmap list_fmap].
  assert (steps.*2 ≠ []) as Hne by (by rewrite Hst).
  destruct (steps.*2) as [|r0 rs] eqn:Hrs; [done|]. rewrite <-Hrs. clear Hne.
  unfold mret. intros [= <- <-].
  exists cek, s1, steps, payload, (entropy w1), s3. eexists.
  split; [reflexivity|]. split; [exact Hsteps|]. split; [exact Hpay|].
  split; [reflexivity|]. split.
  { cbn [trace logged]. rewrite Htr. cbn [trace].
    rewrite <-!app_assoc. reflexivity. }
  split; [reflexivity|].
  rewrite !List.filter_app. cbn [List.filter is_ephemeral_generate app].
  rewrite length_app, es_recipient_events_generate; [cbn; lia|].
  symmetry. by eapply Forall2_length.
Qed.

Lemma es_wrap_recipients_inl (cek : Key) (to_keys : list (string * AskarKey))
    (b : JweBuilder) (w w' : World) (err : exn) :
  es_wrap_recipients "ECDH-ES+A256KW" A256KW cek to_keys b w = (inl err, w') →
  (err = CryptoServiceError "Error creating ephemeral key"
   ∧ ∃ kv s, kv ∈ to_keys
             ∧ (Key_generate (algorithm (key kv.2)) true s).1 = None)
  ∨ (err = AskarError
     ∧ ∃ kv epk,
         kv ∈ to_keys
         ∧ EcdhEs_sender_wrap_key "ECDH-ES+A256KW" None None (ByEnum A256KW)
             epk (key kv.2) cek = None).
Proof.
  revert b w. induction to_keys as [|[k rk] tks IH]; intros b w; simpl.
  - discriminate.
  - unfold generate. rewrite mbind_try_call_random.
    destruct (Key_generate _ _ _) as [[epk|] s1] eqn:Hepk; cbn [fst snd].
    2:{ intros [= <- <-]. left. split; [done|].
        exists (k, rk), (entropy w). split; [apply list_elem_of_here|].
        cbn [fst snd]. by rewrite Hepk. }
    unfold es_sender_wrap_key. rewrite mbind_call.
    destruct (EcdhEs_sender_wrap_key _ _ _ _ _ _ _) as [e|] eqn:He.
    2:{ intros [= <- <-]. right. split; [done|].
        exists (k, rk), epk. split; [apply list_elem_of_here|exact He]. }
    rewrite mbind_add_recipient. intros Hrest.
    apply IH in Hrest
      as [(-> & kv & s & Hin & Hs)|(-> & kv & epk' & Hin & He')].
    + left. split; [done|]. exists kv, s.
      split; [by apply list_elem_of_further|done].
    + right. split; [done|]. exists kv, epk'.
      split; [by apply list_elem_of_further|done].
Qed.

Lemma pu_wrap_recipients_inl (apu apv : string) (epk sender cek : Key)
    (cc_tag : bytes) (to_keys : list (string * AskarKey))
    (b : JweBuilder) (w w' : World) (err : exn) :
  pu_wrap_recipients "ECDH-1PU+A256KW" apu apv A256KW epk sender cek cc_tag
    to_keys b w = (inl err, w') →
  err = AskarError
  ∧ ∃ kv,
      kv ∈ to_keys
      ∧ Ecdh1PU_sender_wrap_key "ECDH-1PU+A256KW" (Some (JStr apu))
          (Some (JStr apv)) (ByEnum A256KW) epk sender (key kv.2) cek cc_tag
        = None.
Proof.
  revert b w. induction to_keys as [|[k rk] tks IH]; intros b w; simpl.
  - discriminate.
  - unfold pu_sender_wrap_key. rewrite mbind_call.
    destruct (Ecdh1PU_sender_wrap_key _ _ _ _ _ _ _ _ _) as [e|] eqn:He.
    2:{ intros [= <- <-]. split; [done|].
        exists (k, rk). split; [apply list_elem_of_here|exact He]. }
    rewrite mbind_add_recipient. intros Hrest.
    apply IH in Hrest as (-> & kv & Hin & He').
    split; [done|]. exists kv. split; [by apply list_elem_of_further|done].
Qed.

(** X16. Every way anonymous encryption can fail: with [ValueError] on an
    empty mapping; with the three [CryptoServiceError]s of the code when the
    library refuses to generate the content key, to generate an ephemeral
    key for one of the recipients, or to encrypt the payload; and with the
    library's own [AskarError], not translated, when it refuses to wrap the
    content key for one of the recipients.  There is no other failure. *)
Theorem es_encrypt_failures (to_keys : list (string * AskarKey))
    (message : bytes) (w w' : World) (err : exn) :
  ecdh_es_encrypt to_keys message w = (inl err, w') →
  es_encrypt_failure to_keys message err.
Proof.
  unfold ecdh_es_encrypt, es_encrypt_failure.
  destruct to_keys as [|kv tks] eqn:Htk.
  { intros [= <- <-]. by left. }
  rewrite <-Htk. intros Hrun. right.
  revert Hrun. unfold generate. rewrite mbind_try_call_random.
  destruct (Key_generate XC20P false (entropy w)) as [[cek|] s1] eqn:Hcek;
    cbn [fst snd].
  2:{ intros [= <- <-]. left. split; [done|]. exists (entropy w).
      by rewrite Hcek. }
  unfold mbind at 1.
  destruct (es_wrap_recipients _ _ _ _ _ _) as [[e|b'] w1] eqn:Hwrap.
  { intros [= <- <-]. apply es_wrap_recipients_inl in Hwrap as [Hw|Hw].
    - right. left. exact Hw.
    - right. right. left. destruct Hw as (-> & kv' & epk & Hin & He).
      split; [done|]. by exists kv', epk, cek. }
  apply es_wrap_recipients_inr in Hwrap as (recs & Hrecs & ->).
  rewrite mbind_set_protected. unfold key_aead_encrypt.
  rewrite mbind_try_call_random.
  destruct (aead_encrypt cek message _ _) as [[payload|] s3] eqn:Hpay;
    cbn [fst snd].
  2:{ intros [= <- <-]. do 3 right. split; [done|].
      eexists _, _, _. by rewrite Hpay. }
  rewrite mbind_set_payload, mbind_lift.
  unfold build. cbn [b_payload b_recipients b_protected].
  rewrite Htk in Hrecs. apply Forall2_cons_inv_l in Hrecs
    as (r & recs' & _ & _ & ->).
  discriminate.
Qed.

(** X17. Every way authenticated encryption can fail: with
    [CryptoServiceError] on an empty mapping, when the library refuses to
    generate the content key or the ephemeral key or to encrypt the payload,
    and when a recipient's key is of another algorithm than the sender's;
    and with the library's own [AskarError], not translated, when it refuses
    to wrap the content key for one of the recipients.  There is no other
    failure. *)
Theorem pu_encrypt_failures (to_keys : list (string * AskarKey))
    (sender_kid : string) (sender_key : AskarKey) (message : bytes)
    (w w' : World) (err : exn) :
  ecdh_1pu_encrypt to_keys sender_kid sender_key message w = (inl err, w') →
  pu_encrypt_failure to_keys sender_key message err.
Proof.
  unfold ecdh_1pu_encrypt, pu_encrypt_failure.
  destruct to_keys as [|kv tks] eqn:Htk.
  { intros [= <- <-]. by left. }
  rewrite <-Htk. intros Hrun. right.
  revert Hrun. unfold generate. rewrite mbind_try_call_random.
  destruct (Key_generate A256CBC_HS512 false (entropy w))
    as [[cek|] s1] eqn:Hcek; cbn [fst snd].
  2:{ intros [= <- <-]. left. split; [done|]. exists (entropy w).
      by rewrite Hcek. }
  rewrite mbind_try_call_random. cbn [entropy].
  destruct (Key_generate (algorithm (key sender_key)) true s1)
    as [[epk|] s2] eqn:Hepk; cbn [fst snd].
  2:{ intros [= <- <-]. right. left. split; [done|]. exists s1.
      by rewrite Hepk. }
  rewrite mbind_lift.
  destruct (decide (Forall (λ kv, algorithm (key kv.2)
                                  = algorithm (key sender_key)) to_keys))
    as [Hall|Hsome].
  2:{ apply not_Forall_Exists in Hsome; [|intros ?; apply _].
      rewrite collect_apv_inconsistent by exact Hsome.
      intros [= <- <-]. right. right. left. by split. }
  rewrite collect_apv_consistent by exact Hall. cbn [app].
  rewrite mbind_set_protected. unfold key_aead_encrypt.
  rewrite mbind_try_call_random.
  destruct (aead_encrypt cek message _ _) as [[payload|] s3] eqn:Hpay;
    cbn [fst snd].
  2:{ intros [= <- <-]. do 3 right. left. split; [done|].
      eexists _, _, _. by rewrite Hpay. }
  rewrite mbind_set_payload. unfold mbind at 1.
  destruct (pu_wrap_recipients _ _ _ _ _ _ _ _ _ _ _) as [[e|b'] w1] eqn:Hwrap.
  { intros [= <- <-]. apply pu_wrap_recipients_inl in Hwrap
      as (-> & kv' & Hin & He).
    do 4 right. split; [done|]. by eexists kv', _, _, epk, cek, _. }
  apply pu_wrap_recipients_inr in Hwrap as (recs & Hrecs & -> & _).
  rewrite mbind_lift.
  unfold build. cbn [b_payload b_recipients b_protected].
  rewrite Htk in Hrecs. apply Forall2_cons_inv_l in Hrecs
    as (r & recs' & _ & _ & ->).
  discriminate.
Qed.

End encryption.

(** * The further properties on concrete runs *)

(** X9 on an anonymous envelope addressed to Bob, decrypted with Bob's
    secret key. *)
Lemma decrypt_returns_authenticated_witness :
  ∃ e recip alg_id enc_alg epk_header epk cek,
    parse_wrapper (WEnvelope envelope_good) = inr e
    ∧ get_recipient e (kid bob_priv_key) = Some recip
    ∧ protected e !! "alg" = Some (JStr alg_id)
    ∧ header recip !! "enc" = Some (JStr enc_alg)
    ∧ header recip !! "epk" = Some epk_header
    ∧ Key_from_jwk epk_header = Some epk
    ∧ EcdhEs_receiver_unwrap_key alg_id (header recip !! "apu")
        (header recip !! "apv") (ByName (str_from 8 alg_id)) enc_alg epk
        (key bob_priv_key) (encrypted_key recip) = Some cek
    ∧ aead_decrypt cek (ciphertext e) (iv e) (tag e) (combined_aad e)
      = Some MESSAGE.
Proof.
  apply (proj1 (decrypt_returns_authenticated (WEnvelope envelope_good)
                  bob_priv_key alice_key w0
                  (ecdh_es_decrypt (WEnvelope envelope_good) bob_priv_key w0).2
                  MESSAGE)).
  reflexivity.
Defined.

(** X10 on the same envelope and Carol's key. *)
Lemma recipient_not_found_witness :
  ecdh_es_decrypt (WEnvelope envelope_good) carol_priv_key w0
  = (inl (CryptoServiceError
            ("Recipient header not found: " ++ CAROL_KID)), w0).
Proof.
  refine (proj1 (proj2 (proj2
            (recipient_not_found (WEnvelope envelope_good) envelope_good
               carol_priv_key alice_key w0 eq_refl _))) _).
  - apply Forall_cons_2; [reflexivity|apply Forall_nil_2].
  - exists "ECDH-ES+A256KW". split; [reflexivity|].
    apply (bool_decide_unpack _). exact I.
Defined.

(** X11 on an authenticated envelope given to anonymous decryption. *)
Lemma unsupported_alg_rejected_witness :
  ecdh_es_decrypt (WEnvelope envelope_xc20p) bob_priv_key w0
  = (inl (CryptoServiceError
            "Missing or unsupported ECDH-ES algorithm: ECDH-1PU+A256KW"), w0).
Proof.
  refine (proj1 (unsupported_alg_rejected (WEnvelope envelope_xc20p)
                   envelope_xc20p bob_priv_key alice_key w0 eq_refl) _).
  intros (s & Hs & Hin). injection Hs as <-.
  refine (bool_decide_eq_false_1 _ _ Hin). reflexivity.
Defined.

(** X12 on an envelope whose entry for Bob has no ephemeral key. *)
Lemma missing_ephemeral_key_witness :
  ecdh_es_decrypt (WEnvelope envelope_no_epk) bob_priv_key w0
  = (inl (CryptoServiceError "Missing ephemeral key"), w0).
Proof.
  refine (proj1 (missing_ephemeral_key (WEnvelope envelope_no_epk)
                   envelope_no_epk
                   (mkJweRecipient [x00]
                      {[ "kid" := JStr BOB_KID;
                         "alg" := JStr "ECDH-ES+A256KW";
                         "enc" := JStr "XC20P" ]})
                   bob_priv_key alice_key w0 eq_refl _ _) _ _).
  - reflexivity.
  - reflexivity.
  - exists "ECDH-ES+A256KW". split; [reflexivity|].
    apply (bool_decide_unpack _). exact I.
  - exists "XC20P". split; [reflexivity|].
    apply (bool_decide_unpack _). exact I.
Defined.

(** X13 on the anonymous encryption to Bob, decrypted with Carol's key. *)
Lemma decrypt_for_other_key_witness :
  ecdh_es_decrypt (WBytes (encode_utf8 (to_json bob_es_envelope)))
    carol_priv_key w0
  = (inl (CryptoServiceError
            ("Recipient header not found: " ++ CAROL_KID)), w0).
Proof.
  assert ((ecdh_es_encrypt [(BOB_KID, bob_key)] MESSAGE w0).1
          = inr (encode_utf8 (to_json bob_es_envelope))) as Hrun
    by reflexivity.
  assert (kid carol_priv_key ∉ [(BOB_KID, bob_key)].*1) as Hother.
  { intros Hin. refine (bool_decide_eq_false_1 _ _ Hin). reflexivity. }
  apply (proj1 (decrypt_for_other_key [(BOB_KID, bob_key)] ALICE_KID
                  alice_priv_key alice_key MESSAGE carol_priv_key Hother)
           w0 (ecdh_es_encrypt [(BOB_KID, bob_key)] MESSAGE w0).2).
  rewrite <-Hrun. apply surjective_pairing.
Defined.

(** X14 on the anonymous encryption to Bob, given to authenticated
    decryption. *)
Lemma mode_confusion_rejected_witness :
  ecdh_1pu_decrypt (WBytes (encode_utf8 (to_json bob_es_envelope)))
    bob_priv_key alice_key w0
  = (inl (CryptoServiceError
            "Unsupported ECDH-1PU algorithm: ECDH-ES+A256KW"), w0).
Proof.
  assert ((ecdh_es_encrypt [(BOB_KID, bob_key)] MESSAGE w0).1
          = inr (encode_utf8 (to_json bob_es_envelope))) as Hrun
    by reflexivity.
  apply (proj1 (mode_confusion_rejected [(BOB_KID, bob_key)] ALICE_KID
                  alice_priv_key alice_key bob_priv_key MESSAGE)
           w0 (ecdh_es_encrypt [(BOB_KID, bob_key)] MESSAGE w0).2).
  rewrite <-Hrun. apply surjective_pairing.
Defined.

(** X15 on an anonymous encryption to Bob and Carol: the calls of the run,
    of which two generate an ephemeral key. *)
Lemma es_encrypt_order_witness :
  ∃ evs,
    trace (ecdh_es_encrypt bob_carol MESSAGE w1).2 = evs
    ∧ length (List.filter is_ephemeral_generate evs) = 2%nat.
Proof.
  assert ((ecdh_es_encrypt bob_carol MESSAGE w1).1
          = inr (encode_utf8 (to_json bob_carol_es_envelope))) as Hrun
    by reflexivity.
  destruct (es_encrypt_order bob_carol MESSAGE w1
              (ecdh_es_encrypt bob_carol MESSAGE w1).2
              (encode_utf8 (to_json bob_carol_es_envelope)))
    as (cek & s1 & steps & payload & s2 & s3 & evs & Hord).
  { rewrite <-Hrun. apply surjective_pairing. }
  destruct Hord as (_ & _ & _ & _ & Htr & _ & Hlen).
  exists evs. split; [exact Htr|exact Hlen].
Defined.

(** X16 on an anonymous encryption to Bob with a library that refuses to
    wrap: the library's own error comes back. *)
Lemma es_encrypt_failures_witness :
  (ecdh_es_encrypt (H := Toy.askar_refusing) [(BOB_KID, bob_key)] MESSAGE
     w_refusing).1 = inl AskarError
  ∧ es_encrypt_failure (H := Toy.askar_refusing) [(BOB_KID, bob_key)] MESSAGE
      AskarError.
Proof.
  split; [reflexivity|].
  apply (es_encrypt_failures (H := Toy.askar_refusing) [(BOB_KID, bob_key)]
           MESSAGE w_refusing
           (ecdh_es_encrypt (H := Toy.askar_refusing) [(BOB_KID, bob_key)]
              MESSAGE w_refusing).2).
  reflexivity.
Defined.

(** X17 on an authenticated encryption by Alice to Bob with a library that
    refuses to wrap. *)
Lemma pu_encrypt_failures_witness :
  (ecdh_1pu_encrypt (H := Toy.askar_refusing) [(BOB_KID, bob_key)] ALICE_KID
     alice_priv_key MESSAGE w_refusing).1 = inl AskarError
  ∧ pu_encrypt_failure (H := Toy.askar_refusing) [(BOB_KID, bob_key)]
      alice_priv_key MESSAGE AskarError.
Proof.
  split; [reflexivity|].
  apply (pu_encrypt_failures (H := Toy.askar_refusing) [(BOB_KID, bob_key)]
           ALICE_KID alice_priv_key MESSAGE w_refusing
           (ecdh_1pu_encrypt (H := Toy.askar_refusing) [(BOB_KID, bob_key)]
              ALICE_KID alice_priv_key MESSAGE w_refusing).2).
  reflexivity.
Defined.

(** X18 on a method of a legacy type with base58 material that is no key. *)
Lemma from_verification_method_askar_error_witness :
  from_verification_method vm_short_base58 = inl AskarError
  ∧ ∃ vm_type alg s decoded,
      vm_short_base58 !! "type" = Some vm_type
      ∧ vm_type ≠ "Multikey"
      ∧ table_get vm_type type_to_alg = Some alg
      ∧ str_truthy (vm_short_base58 !! "publicKeyMultiBase") = false
      ∧ vm_short_base58 !! "publicKeyBase58" = Some s ∧ s ≠ ""
      ∧ multibase_decode ("z" ++ s) = Some decoded
      ∧ Key_from_public_bytes alg decoded = None.
Proof.
  split; [reflexivity|].
  apply (from_verification_method_askar_error vm_short_base58).
  reflexivity.
Defined.
